(** * SonarCloud -> GitHub issue synchronisation: the reconciliation engine

    A shallow embedding of [sonarcloud_github_sync/sync.py] together with the
    parts of [sonar_client.py] and [github_client.py] that the engine calls.

    Python [str] values are Rocq [string]s (the UTF-8 bytes of the text: the
    literals and the character class of the marker pattern are ASCII, so
    substring tests and the pattern search agree on both readings).  Python
    [int] counters are [nat], issue numbers are [Z].  The two HTTP sessions
    are an abstract world [W] with one operation per request the clients
    send; every client call is recorded, with its answer, in the list of
    [Call]s a run produces. *)

From Stdlib Require Import ZArith Ascii String List Bool Lia.
From stdpp Require Import base option list gmap strings pretty.

Local Open Scope string_scope.
Local Open Scope list_scope.

(** ** Python string primitives *)

Module Py.

(** The line-feed character of ["\n".join(...)]. *)
Definition nl : string := String (ascii_of_nat 10) "".

(** [sep.join(parts)] *)
Fixpoint join (sep : string) (parts : list string) : string :=
  match parts with
  | [] => ""
  | [x] => x
  | x :: rest => x +:+ sep +:+ join sep rest
  end.

(** [s[n:]] *)
Fixpoint drop (n : nat) (s : string) : string :=
  match n, s with
  | O, _ => s
  | S n', String _ t => drop n' t
  | S _, EmptyString => ""
  end.

(** [needle in hay] on strings: [needle] occurs at some offset of [hay]. *)
Fixpoint contains (needle hay : string) : bool :=
  String.prefix needle hay ||
  match hay with
  | EmptyString => false
  | String _ t => contains needle t
  end.

(** [l.insert(i, x)]: a negative index counts from the end, and an index
    outside the list is clamped to its ends. *)
Definition insert {A} (i : Z) (x : A) (l : list A) : list A :=
  let n := Z.of_nat (List.length l) in
  let idx := if (i <? 0)%Z then Z.max 0 (n + i) else Z.min i n in
  take (Z.to_nat idx) l ++ x :: List.skipn (Z.to_nat idx) l.

End Py.

(** ** Data model *)

(** [sonar_client.SonarIssue] *)
Record SonarIssue := {
  key : string;
  type : string;
  severity : string;
  status : string;
  message : string;
  component : string;
  project : string;
  tags : list string
}.

(** [SonarIssue.url] *)
Definition url (self : SonarIssue) : string :=
  "https://sonarcloud.io/project/issues?id=" +:+ project self +:+
  "&issues=" +:+ key self +:+ "&open=" +:+ key self.

(** [github_client.GitHubIssue] *)
Record GitHubIssue := {
  number : Z;
  title : string;
  body : string;
  state : string;
  labels : list string;
  state_reason : option string
}.

(** A JSON field read as text: missing from the object, [null], or a
    string. *)
Inductive Field :=
| Missing
| Null
| Text (s : string).

(** An issue as the tracker's API gives it: the fields of the JSON object
    that the client reads, the labels by their names.  The API gives
    [null] as the body of an issue without a description. *)
Record IssueData := {
  json_number : Z;
  json_title : string;
  json_body : Field;
  json_state : string;
  json_labels : list string;
  json_state_reason : option string
}.

(** ** The body protocol *)

(** [SyncEngine._create_github_issue_body]: the twelve fixed parts. *)
Definition body_parts (sonar_issue : SonarIssue) : list string :=
  [ "**SonarCloud Issue:** " +:+ key sonar_issue;
    "**Type:** " +:+ type sonar_issue;
    "**Severity:** " +:+ severity sonar_issue;
    "**Component:** " +:+ component sonar_issue;
    "";
    "**Description:**";
    message sonar_issue;
    "";
    "**SonarCloud Link:** " +:+ url sonar_issue;
    "";
    "---";
    "*This issue was automatically created from SonarCloud*" ].

Definition _create_github_issue_body (sonar_issue : SonarIssue) : string :=
  let parts := body_parts sonar_issue in
  let parts :=
    match tags sonar_issue with
    | [] => parts
    | _ :: _ =>
        Py.insert (-3) ""
          (Py.insert (-3) ("**Tags:** " +:+ Py.join ", " (tags sonar_issue)) parts)
    end in
  Py.join Py.nl parts.

(** The character class [[A-Za-z0-9_:-]]. *)
Definition key_char (c : ascii) : bool :=
  let n := nat_of_ascii c in
  ((65 <=? n) && (n <=? 90) || (97 <=? n) && (n <=? 122) ||
   (48 <=? n) && (n <=? 57) || (n =? 95) || (n =? 58) || (n =? 45))%nat.

(** The literal part of the pattern, [\*\*SonarCloud Issue:\*\* ]. *)
Definition marker : string := "**SonarCloud Issue:** ".

(** The greedy run [[A-Za-z0-9_:-]*] at the start of [s]. *)
Fixpoint key_run (s : string) : string :=
  match s with
  | String c t => if key_char c then String c (key_run t) else ""
  | EmptyString => ""
  end.

(** The pattern matched at offset 0 of [s]: the literal, then a run of at
    least one class character, captured as group 1. *)
Definition match_here (s : string) : option string :=
  if String.prefix marker s then
    match key_run (Py.drop (String.length marker) s) with
    | EmptyString => None
    | run => Some run
    end
  else None.

(** [re.search]: the match at the leftmost offset that has one. *)
Fixpoint re_search (s : string) : option string :=
  match match_here s with
  | Some k => Some k
  | None =>
      match s with
      | EmptyString => None
      | String _ t => re_search t
      end
  end.

(** [SyncEngine._extract_sonar_issue_key] *)
Definition _extract_sonar_issue_key (github_body : string) : option string :=
  re_search github_body.

(** A string made of class characters only. *)
Fixpoint all_key_chars (s : string) : bool :=
  match s with
  | EmptyString => true
  | String c t => key_char c && all_key_chars t
  end.

(** A key the pattern can carry: non-empty, over [[A-Za-z0-9_:-]]. *)
Definition valid_key (k : string) : bool :=
  negb (String.eqb k "") && all_key_chars k.

(** The lines of the body when the Finding has tags, as the two
    [insert(-3, ...)] leave them. *)
Definition tagged_lines (sonar_issue : SonarIssue) : list string :=
  [ "**SonarCloud Issue:** " +:+ key sonar_issue;
    "**Type:** " +:+ type sonar_issue;
    "**Severity:** " +:+ severity sonar_issue;
    "**Component:** " +:+ component sonar_issue;
    "";
    "**Description:**";
    message sonar_issue;
    "";
    "**SonarCloud Link:** " +:+ url sonar_issue;
    "**Tags:** " +:+ Py.join ", " (tags sonar_issue);
    "";
    "";
    "---";
    "*This issue was automatically created from SonarCloud*" ].

(** The order of lines the body template of the specification shows for a
    Finding with tags: the tags line and its blank line between the message
    block and the link line. *)
Definition template_lines (sonar_issue : SonarIssue) : list string :=
  [ "**SonarCloud Issue:** " +:+ key sonar_issue;
    "**Type:** " +:+ type sonar_issue;
    "**Severity:** " +:+ severity sonar_issue;
    "**Component:** " +:+ component sonar_issue;
    "";
    "**Description:**";
    message sonar_issue;
    "";
    "**Tags:** " +:+ Py.join ", " (tags sonar_issue);
    "";
    "**SonarCloud Link:** " +:+ url sonar_issue;
    "";
    "---";
    "*This issue was automatically created from SonarCloud*" ].


(** ** Outcomes, calls and runs *)

(** What a request to a collaborator comes back with: a 2xx answer, or a
    [requests.RequestException] with its text. *)
Inductive Response (A : Type) :=
| Ok (a : A)
| RequestException (e : string).
Arguments Ok {A} a.
Arguments RequestException {A} e.

(** The exceptions the clients and the engine raise, one constructor per
    message; [ValidationError] is pydantic's, a [ValueError], raised by the
    constructor of a model and wrapped by nobody. *)
Inductive Error :=
| InvalidSonarCredentials
    (* "Invalid SonarCloud credentials or connection failed" *)
| InvalidGitHubCredentials
    (* "Invalid GitHub credentials or repository access failed" *)
| FailedFetchSonarIssues (e : string)
| FailedResolveSonarIssue (issue_key e : string)
| FailedFetchGitHubIssues (e : string)
| FailedCreateGitHubIssue (e : string)
| FailedCloseGitHubIssue (issue_number : Z) (e : string)
| ValidationError (e : string).

(** A Python call either returns a value or raises. *)
Inductive Outcome (A : Type) :=
| Returned (a : A)
| Raised (e : Error).
Arguments Returned {A} a.
Arguments Raised {A} e.

(** The client methods the engine calls, with their arguments, the request
    payload where there is one, and what the call came back with. *)
Inductive Call :=
| CallSonarTestConnection (r : bool)
| CallGetIssues (project_key : string) (types : option string)
    (r : Outcome (list SonarIssue))
| CallResolveWontFix (issue_key : string) (data : list (string * string))
    (r : Outcome bool)
| CallGitHubTestConnection (repo : string) (r : bool)
| CallGetIssuesWithLabel (repo label : string) (r : Outcome (list GitHubIssue))
| CallCreateIssue (repo title body : string) (labels : list string)
    (r : Outcome GitHubIssue)
| CallCloseIssue (repo : string) (issue_number : Z)
    (data : list (string * string)) (r : Outcome bool).

(** A run of a piece of code from a world: its outcome, the world it
    leaves, and the calls it made, oldest first. *)
Record Run (W A : Type) := MkRun {
  outcome : Outcome A;
  world : W;
  calls : list Call
}.
Arguments MkRun {W A} outcome world calls.
Arguments outcome {W A} r.
Arguments world {W A} r.
Arguments calls {W A} r.

Definition M (W A : Type) : Type := W -> Run W A.

Definition ret {W A} (a : A) : M W A := fun w => MkRun (Returned a) w [].

Definition raise {W A} (e : Error) : M W A := fun w => MkRun (Raised e) w [].

(** The run [r], after the calls [cs] were made. *)
Definition prepend {W A} (cs : list Call) (r : Run W A) : Run W A :=
  MkRun (outcome r) (world r) (cs ++ calls r).

Definition bind {W A B} (m : M W A) (f : A -> M W B) : M W B := fun w =>
  let r := m w in
  match outcome r with
  | Returned a => prepend (calls r) (f a (world r))
  | Raised e => MkRun (Raised e) (world r) (calls r)
  end.

(** [try: m  except Exception as e: handler e] *)
Definition try_except {W A} (m : M W A) (handler : Error -> M W A) : M W A :=
  fun w =>
  let r := m w in
  match outcome r with
  | Returned a => r
  | Raised e => prepend (calls r) (handler e (world r))
  end.

Notation "x <- m ;; k" := (bind m (fun x => k))
  (at level 100, m at next level, right associativity).

(** [for x in l: acc = step acc x], with the loop's variables in [acc]. *)
Fixpoint for_each {W A S} (step : S -> A -> M W S) (l : list A) (acc : S)
  : M W S :=
  match l with
  | [] => ret acc
  | x :: rest => acc' <- step acc x ;; for_each step rest acc'
  end.

(** ** The collaborators *)

(** One operation per request the two clients send.  [github_list_issues]
    stands for the whole paginated listing of [get_issues_with_label]; it
    and [github_post_issue] answer with the JSON of the issues, from which
    the client builds its [GitHubIssue] objects.  [validation_text] is the
    text of the [ValidationError] that pydantic raises when [GitHubIssue]
    is given a body that is [None]. *)
Class Collaborators (W : Type) := {
  (* GET  sonarcloud.io/api/authentication/validate : the "valid" field *)
  sonar_validate : W -> Response bool * W;
  (* GET  sonarcloud.io/api/issues/search : componentKeys, types *)
  sonar_search : string -> option string -> W -> Response (list SonarIssue) * W;
  (* POST sonarcloud.io/api/issues/do_transition : form data *)
  sonar_do_transition : list (string * string) -> W -> Response unit * W;
  (* GET  api.github.com/repos/{repo} *)
  github_get_repo : string -> W -> Response unit * W;
  (* GET  api.github.com/repos/{repo}/issues : labels, state=all, all pages *)
  github_list_issues : string -> string -> W -> Response (list IssueData) * W;
  (* POST api.github.com/repos/{repo}/issues : title, body, labels *)
  github_post_issue :
    string -> string -> string -> list string -> W -> Response IssueData * W;
  (* PATCH api.github.com/repos/{repo}/issues/{number} : JSON data *)
  github_patch_issue :
    string -> Z -> list (string * string) -> W -> Response unit * W;
  (* str(e) of the ValidationError of GitHubIssue(..., body=None, ...) *)
  validation_text : string
}.

(** [config.Config] *)
Record Config := {
  sonar_token : string;
  github_token : string;
  sonar_project_key : string;
  github_repo : string;
  issue_types : list string
}.

(** ** The clients *)

Module SonarClient.
Section Client.
Context {W : Type} `{Collaborators W}.

(** [SonarClient.test_connection]: never raises. *)
Definition test_connection : M W bool := fun w =>
  let '(resp, w') := sonar_validate w in
  let is_valid := match resp with Ok v => v | RequestException _ => false end in
  MkRun (Returned is_valid) w' [CallSonarTestConnection is_valid].

(** [SonarClient.get_issues] *)
Definition get_issues (project_key : string) (issue_types : list string)
  : M W (list SonarIssue) := fun w =>
  let types :=
    match issue_types with
    | [] => None
    | _ :: _ => Some (Py.join "," issue_types)
    end in
  let '(resp, w') := sonar_search project_key types w in
  let r := match resp with
           | Ok issues => Returned issues
           | RequestException e => Raised (FailedFetchSonarIssues e)
           end in
  MkRun r w' [CallGetIssues project_key types r].

(** [SonarClient.resolve_issue_as_wont_fix] *)
Definition resolve_issue_as_wont_fix (issue_key : string) : M W bool := fun w =>
  let data := [("issue", issue_key); ("transition", "wontfix")] in
  let '(resp, w') := sonar_do_transition data w in
  let r := match resp with
           | Ok _ => Returned true
           | RequestException e => Raised (FailedResolveSonarIssue issue_key e)
           end in
  MkRun r w' [CallResolveWontFix issue_key data r].

End Client.
End SonarClient.

Module GitHubClient.

(** [issue_data.get("body", "")]: the default stands in for a missing key
    only; a JSON [null] comes out as [None]. *)
Definition get_body (issue_data : IssueData) : option string :=
  match json_body issue_data with
  | Missing => Some ""
  | Null => None
  | Text s => Some s
  end.

(** [GitHubIssue(number=..., title=..., body=..., state=..., labels=...,
    state_reason=...)]: the field [body: str] of the model refuses [None],
    and the constructor raises pydantic's [ValidationError]; [None] here
    is that refusal. *)
Definition build_issue (issue_data : IssueData) (reason : option string)
  : option GitHubIssue :=
  match get_body issue_data with
  | Some b => Some {| number := json_number issue_data;
                      title := json_title issue_data;
                      body := b;
                      state := json_state issue_data;
                      labels := json_labels issue_data;
                      state_reason := reason |}
  | None => None
  end.

(** The loop [for issue_data in data] of the listing: the issues built
    from the data, in order, or the refusal of the first one that cannot
    be built. *)
Fixpoint build_issues (data : list IssueData) : option (list GitHubIssue) :=
  match data with
  | [] => Some []
  | issue_data :: rest =>
      match build_issue issue_data (json_state_reason issue_data) with
      | Some issue =>
          match build_issues rest with
          | Some issues => Some (issue :: issues)
          | None => None
          end
      | None => None
      end
  end.

Section Client.
Context {W : Type} `{Collaborators W}.

(** [GitHubClient.get_issues_with_label]: a [requests.RequestException]
    is caught and wrapped; the [ValidationError] of an issue that cannot
    be built is not caught. *)
Definition get_issues_with_label (repo label : string)
  : M W (list GitHubIssue) := fun w =>
  let '(resp, w') := github_list_issues repo label w in
  let r := match resp with
           | Ok data =>
               match build_issues data with
               | Some issues => Returned issues
               | None => Raised (ValidationError validation_text)
               end
           | RequestException e => Raised (FailedFetchGitHubIssues e)
           end in
  MkRun r w' [CallGetIssuesWithLabel repo label r].

(** [GitHubClient.create_issue]: the issue is built from the answer,
    without a [state_reason]; as in the listing, a [ValidationError] is
    not caught. *)
Definition create_issue (repo title_ body_ : string) (labels_ : list string)
  : M W GitHubIssue := fun w =>
  let '(resp, w') := github_post_issue repo title_ body_ labels_ w in
  let r := match resp with
           | Ok issue_data =>
               match build_issue issue_data None with
               | Some created_issue => Returned created_issue
               | None => Raised (ValidationError validation_text)
               end
           | RequestException e => Raised (FailedCreateGitHubIssue e)
           end in
  MkRun r w' [CallCreateIssue repo title_ body_ labels_ r].

(** [GitHubClient.close_issue] *)
Definition close_issue (repo : string) (issue_number : Z) : M W bool := fun w =>
  let data := [("state", "closed")] in
  let '(resp, w') := github_patch_issue repo issue_number data w in
  let r := match resp with
           | Ok _ => Returned true
           | RequestException e => Raised (FailedCloseGitHubIssue issue_number e)
           end in
  MkRun r w' [CallCloseIssue repo issue_number data r].

(** The scan of [issue_exists_with_sonar_link]: the first issue whose body
    contains the link. *)
Fixpoint first_with_link (sonar_issue_url : string) (issues : list GitHubIssue)
  : option GitHubIssue :=
  match issues with
  | [] => None
  | issue :: rest =>
      if Py.contains sonar_issue_url (body issue) then Some issue
      else first_with_link sonar_issue_url rest
  end.

(** [GitHubClient.issue_exists_with_sonar_link] *)
Definition issue_exists_with_sonar_link (repo sonar_issue_url : string)
  : M W (option GitHubIssue) :=
  issues <- get_issues_with_label repo "sonarcloud" ;;
  ret (first_with_link sonar_issue_url issues).

(** [GitHubClient.test_connection]: never raises. *)
Definition test_connection (repo : string) : M W bool := fun w =>
  let '(resp, w') := github_get_repo repo w in
  let ok := match resp with Ok _ => true | RequestException _ => false end in
  MkRun (Returned ok) w' [CallGitHubTestConnection repo ok].

End Client.
End GitHubClient.

(** ** The engine *)

Module SyncEngine.
Section Engine.
Context {W : Type} `{Collaborators W}.

(** The engine: [self.config] and [self.dry_run]. *)
Variable config : Config.
Variable dry_run : bool.

(** [SyncEngine.validate_credentials] *)
Definition validate_credentials : M W bool :=
  sonar_ok <- SonarClient.test_connection ;;
  if negb sonar_ok then raise InvalidSonarCredentials
  else
    github_ok <- GitHubClient.test_connection (github_repo config) ;;
    if negb github_ok then raise InvalidGitHubCredentials
    else ret true.

(** The body of the first loop of [sync_sonar_to_github]; the loop's
    variables are [(created_count, skipped_count)]. *)
Definition create_step (counts : nat * nat) (sonar_issue : SonarIssue)
  : M W (nat * nat) :=
  let '(created_count, skipped_count) := counts in
  existing_github_issue <-
    GitHubClient.issue_exists_with_sonar_link (github_repo config) (url sonar_issue) ;;
  match existing_github_issue with
  | Some _ => ret (created_count, S skipped_count)
  | None =>
      let github_title := message sonar_issue in
      let github_body := _create_github_issue_body sonar_issue in
      let github_labels := "sonarcloud" :: tags sonar_issue in
      if dry_run then ret (S created_count, skipped_count)
      else
        try_except
          (github_issue <-
             GitHubClient.create_issue (github_repo config)
               github_title github_body github_labels ;;
           ret (S created_count, skipped_count))
          (fun e => ret (created_count, skipped_count))
  end.

(** The body of the second loop of [sync_sonar_to_github]; the loop's
    variable is [closed_count].  A key the pattern captures is never
    empty, so [if sonar_issue_key:] is the [Some] branch. *)
Definition close_step (sonar_issues : list SonarIssue) (closed_count : nat)
  (github_issue : GitHubIssue) : M W nat :=
  if String.eqb (state github_issue) "open" then
    match _extract_sonar_issue_key (body github_issue) with
    | Some sonar_issue_key =>
        if negb (existsb (fun si => String.eqb (key si) sonar_issue_key) sonar_issues)
        then
          if dry_run then ret (S closed_count)
          else
            try_except
              (_ <- GitHubClient.close_issue (github_repo config) (number github_issue) ;;
               ret (S closed_count))
              (fun e => ret closed_count)
        else ret closed_count
    | None => ret closed_count
    end
  else ret closed_count.

(** [SyncEngine.sync_sonar_to_github] *)
Definition sync_sonar_to_github : M W (gmap string nat) :=
  sonar_issues <-
    SonarClient.get_issues (sonar_project_key config) (issue_types config) ;;
  counts <- for_each create_step sonar_issues (0, 0) ;;
  github_issues <-
    GitHubClient.get_issues_with_label (github_repo config) "sonarcloud" ;;
  closed_count <- for_each (close_step sonar_issues) github_issues 0 ;;
  ret (<["created" := fst counts]>
       (<["skipped" := snd counts]>
        (<["closed" := closed_count]> ∅))).

(** [state_reason == "not_planned"] on an [Optional[str]]. *)
Definition is_not_planned (reason : option string) : bool :=
  match reason with
  | Some r => String.eqb r "not_planned"
  | None => false
  end.

(** The body of the loop of [sync_github_to_sonar]; the loop's variable is
    [marked_wont_fix]. *)
Definition wont_fix_step (marked_wont_fix : nat) (github_issue : GitHubIssue)
  : M W nat :=
  if String.eqb (state github_issue) "closed"
     && is_not_planned (state_reason github_issue) then
    match _extract_sonar_issue_key (body github_issue) with
    | Some sonar_issue_key =>
        if dry_run then ret (S marked_wont_fix)
        else
          try_except
            (success <- SonarClient.resolve_issue_as_wont_fix sonar_issue_key ;;
             if success : bool then ret (S marked_wont_fix) else ret marked_wont_fix)
            (fun e => ret marked_wont_fix)
    | None => ret marked_wont_fix
    end
  else ret marked_wont_fix.

(** [SyncEngine.sync_github_to_sonar] *)
Definition sync_github_to_sonar : M W (gmap string nat) :=
  github_issues <-
    GitHubClient.get_issues_with_label (github_repo config) "sonarcloud" ;;
  marked_wont_fix <- for_each wont_fix_step github_issues 0 ;;
  ret (<["marked_wont_fix" := marked_wont_fix]> ∅).

(** [SyncEngine.full_sync]; [{**a, **b}] keeps the entries of [b] where
    both have a key. *)
Definition full_sync : M W (gmap string nat) :=
  _ <- validate_credentials ;;
  sonar_to_github_results <- sync_sonar_to_github ;;
  github_to_sonar_results <- sync_github_to_sonar ;;
  ret (github_to_sonar_results ∪ sonar_to_github_results).

End Engine.
End SyncEngine.

(** ** Reading a list of calls *)

(** A field of a request payload. *)
Fixpoint assoc (field : string) (data : list (string * string)) : option string :=
  match data with
  | [] => None
  | (k, v) :: rest => if String.eqb k field then Some v else assoc field rest
  end.

(** The calls that change a collaborator: create, close, mark won't-fix. *)
Definition is_mutating (c : Call) : bool :=
  match c with
  | CallCreateIssue _ _ _ _ _ | CallCloseIssue _ _ _ _ | CallResolveWontFix _ _ _ => true
  | _ => false
  end.

Definition mutations (cs : list Call) : list Call := List.filter is_mutating cs.

(** The connection checks and the fetches, each with its answer. *)
Definition reads (cs : list Call) : list Call :=
  List.filter (fun c => negb (is_mutating c)) cs.

Definition has_returned {A} (r : Outcome A) : bool :=
  match r with Returned _ => true | Raised _ => false end.

(** A mutating call that came back without raising (and, for the mark
    won't-fix call, with a true answer). *)
Definition succeeded (c : Call) : bool :=
  match c with
  | CallCreateIssue _ _ _ _ r => has_returned r
  | CallCloseIssue _ _ _ r => has_returned r
  | CallResolveWontFix _ _ r => match r with Returned true => true | _ => false end
  | _ => true
  end.

(** The bodies of the create requests, in order. *)
Fixpoint create_requests (cs : list Call) : list string :=
  match cs with
  | [] => []
  | CallCreateIssue _ _ b _ _ :: rest => b :: create_requests rest
  | _ :: rest => create_requests rest
  end.

(** The issue numbers of the close requests, in order. *)
Fixpoint close_requests (cs : list Call) : list Z :=
  match cs with
  | [] => []
  | CallCloseIssue _ n _ _ :: rest => n :: close_requests rest
  | _ :: rest => close_requests rest
  end.

(** The keys of the mark-won't-fix requests, in order. *)
Fixpoint wont_fix_requests (cs : list Call) : list string :=
  match cs with
  | [] => []
  | CallResolveWontFix k _ _ :: rest => k :: wont_fix_requests rest
  | _ :: rest => wont_fix_requests rest
  end.

(** The lists the tracker answered to the labeled fetches, in order. *)
Fixpoint fetched_lists (cs : list Call) : list (list GitHubIssue) :=
  match cs with
  | [] => []
  | CallGetIssuesWithLabel _ _ (Returned l) :: rest => l :: fetched_lists rest
  | _ :: rest => fetched_lists rest
  end.

(** No labeled fetch raised. *)
Definition fetches_returned (cs : list Call) : bool :=
  forallb (fun c => match c with
                    | CallGetIssuesWithLabel _ _ r => has_returned r
                    | _ => true
                    end) cs.

(** The number of close calls that returned. *)
Definition closes_done (cs : list Call) : nat :=
  List.length (List.filter (fun c => match c with
                                     | CallCloseIssue _ _ _ r => has_returned r
                                     | _ => false
                                     end) cs).

(** The number of mark-won't-fix calls that returned. *)
Definition marks_done (cs : list Call) : nat :=
  List.length (List.filter (fun c => match c with
                                     | CallResolveWontFix _ _ r => has_returned r
                                     | _ => false
                                     end) cs).

Definition is_create (c : Call) : bool :=
  match c with CallCreateIssue _ _ _ _ _ => true | _ => false end.

Definition is_close (c : Call) : bool :=
  match c with CallCloseIssue _ _ _ _ => true | _ => false end.

Definition is_wont_fix (c : Call) : bool :=
  match c with CallResolveWontFix _ _ _ => true | _ => false end.

(** A close call whose payload is the state alone (any other call passes). *)
Definition sends_state_only (c : Call) : bool :=
  match c with
  | CallCloseIssue _ _ data _ => bool_decide (data = [("state", "closed")])
  | _ => true
  end.

(** The bodies of the create requests that returned, in order. *)
Fixpoint created_bodies (cs : list Call) : list string :=
  match cs with
  | [] => []
  | CallCreateIssue _ _ b _ (Returned _) :: rest => b :: created_bodies rest
  | _ :: rest => created_bodies rest
  end.

(** Every create call returned. *)
Definition creates_returned (cs : list Call) : bool :=
  forallb (fun c => match c with
                    | CallCreateIssue _ _ _ _ r => has_returned r
                    | _ => true
                    end) cs.

(** Some issue of the list has exactly this body. *)
Definition carried_by (b : string) (l : list GitHubIssue) : Prop :=
  exists gi, In gi l /\ body gi = b.

(** The tracker data did not change between two runs: every list of labeled
    issues answered to the second run still holds the issues answered to
    the first run, and holds an issue with the body of each create request
    of the first run that returned. *)
Definition still_there (first second : list Call) : Prop :=
  forall l2, In l2 (fetched_lists second) ->
    (forall l1 gi, In l1 (fetched_lists first) -> In gi l1 -> carried_by (body gi) l2) /\
    (forall b, In b (created_bodies first) -> carried_by b l2).

(** ** The decisions of the engine, as predicates on the fetched data *)

(** Some issue of the list has the link in its body. *)
Definition linked (sonar_issue_url : string) (issues : list GitHubIssue) : bool :=
  existsb (fun gi => Py.contains sonar_issue_url (body gi)) issues.

(** An open issue whose body yields a key that no open Finding has. *)
Definition stale (sonar_issues : list SonarIssue) (gi : GitHubIssue) : bool :=
  String.eqb (state gi) "open" &&
  match _extract_sonar_issue_key (body gi) with
  | Some k => negb (existsb (fun si => String.eqb (key si) k) sonar_issues)
  | None => false
  end.

(** A closed issue, declined ("not_planned"), whose body yields a key. *)
Definition declined_key (gi : GitHubIssue) : option string :=
  if String.eqb (state gi) "closed" &&
     SyncEngine.is_not_planned (state_reason gi)
  then _extract_sonar_issue_key (body gi)
  else None.

(** Forward sync from inside its Finding loop on: the Findings [remaining]
    are still to be handled, with the counters [counts]; [sonar_issues] is
    the whole fetched list, which the closure loop reads. *)
Definition forward_from {W} `{Collaborators W} (config : Config) (dry_run : bool)
  (sonar_issues remaining : list SonarIssue) (counts : nat * nat)
  : M W (gmap string nat) :=
  counts' <- for_each (SyncEngine.create_step config dry_run) remaining counts ;;
  github_issues <-
    GitHubClient.get_issues_with_label (github_repo config) "sonarcloud" ;;
  closed_count <-
    for_each (SyncEngine.close_step config dry_run sonar_issues) github_issues 0 ;;
  ret (<["created" := fst counts']>
       (<["skipped" := snd counts']>
        (<["closed" := closed_count]> ∅))).

(** A tracker on which the closure reason of an issue changes only when a
    request sets it. *)
Definition reason_changes_only_when_set
  (patch : list (string * string) -> GitHubIssue -> GitHubIssue) : Prop :=
  forall data gi,
    assoc "state_reason" data = None ->
    state_reason (patch data gi) = state_reason gi.

(** A counter of a result map, when the pass returned one. *)
Definition counter (r : Outcome (gmap string nat)) (k : string) : option nat :=
  match r with
  | Returned m => m !! k
  | Raised _ => None
  end.

(** Every call the code makes, from any world, passes the test [P]. *)
Definition only {W A} (P : Call -> bool) (m : M W A) : Prop :=
  forall w, forallb P (calls (m w)) = true.

(** The execution-mode code [exec] and the preview-mode code [preview]
    decide alike: when the two runs, each followed by the calls [X] and [Y]
    of the rest of its pass, got the same answers to their checks and
    fetches, and every mutating call of [exec] succeeded, both come to the
    same outcome, and the rests still got the same answers. *)
Definition same_decisions {W A} (exec preview : M W A) : Prop :=
  forall we wp X Y,
    reads (calls (exec we) ++ X) = reads (calls (preview wp) ++ Y) ->
    forallb succeeded (calls (exec we)) = true ->
    outcome (exec we) = outcome (preview wp) /\ reads X = reads Y.

(** ** A reference pair of collaborators

    An in-memory analysis service and tracker, used to run the engine on
    concrete scenarios. *)

Module Mock.

Record World := {
  sonar_up : bool;                 (* the analysis service validates *)
  github_up : bool;                (* the repository is reachable *)
  findings : list SonarIssue;      (* the open Findings *)
  tracker : list GitHubIssue;      (* the issues, newest first *)
  refused : list string            (* titles the tracker refuses to create *)
}.

(** PATCH of one issue: the fields of the payload are set, the others
    stay. *)
Definition patch (data : list (string * string)) (gi : GitHubIssue) : GitHubIssue :=
  {| number := number gi;
     title := title gi;
     body := body gi;
     state := match assoc "state" data with Some s => s | None => state gi end;
     labels := labels gi;
     state_reason := match assoc "state_reason" data with
                     | Some r => Some r
                     | None => state_reason gi
                     end |}.

Definition has_label (label : string) (gi : GitHubIssue) : bool :=
  existsb (String.eqb label) (labels gi).

(** The JSON of an issue of the tracker. *)
Definition to_json (gi : GitHubIssue) : IssueData :=
  {| json_number := number gi;
     json_title := title gi;
     json_body := Text (body gi);
     json_state := state gi;
     json_labels := labels gi;
     json_state_reason := state_reason gi |}.

Definition validate (w : World) : Response bool * World :=
  (Ok (sonar_up w), w).

Definition search (project_key : string) (types : option string) (w : World)
  : Response (list SonarIssue) * World :=
  (Ok (findings w), w).

Definition do_transition (data : list (string * string)) (w : World)
  : Response unit * World :=
  match assoc "issue" data with
  | Some k =>
      (Ok tt,
       {| sonar_up := sonar_up w; github_up := github_up w;
          findings := List.filter (fun si => negb (String.eqb (key si) k)) (findings w);
          tracker := tracker w; refused := refused w |})
  | None => (RequestException "400 Bad Request", w)
  end.

Definition get_repo (repo : string) (w : World) : Response unit * World :=
  (if github_up w then Ok tt else RequestException "404 Not Found", w).

Definition list_issues (repo label : string) (w : World)
  : Response (list IssueData) * World :=
  (Ok (List.map to_json (List.filter (has_label label) (tracker w))), w).

Definition post_issue (repo title_ body_ : string) (labels_ : list string)
  (w : World) : Response IssueData * World :=
  if existsb (String.eqb title_) (refused w) then
    (RequestException "422 Unprocessable Entity", w)
  else
    let gi := {| number := Z.of_nat (S (List.length (tracker w)));
                 title := title_; body := body_; state := "open";
                 labels := labels_; state_reason := None |} in
    (Ok (to_json gi),
     {| sonar_up := sonar_up w; github_up := github_up w;
        findings := findings w; tracker := gi :: tracker w;
        refused := refused w |}).

Definition patch_issue (repo : string) (issue_number : Z)
  (data : list (string * string)) (w : World) : Response unit * World :=
  if existsb (fun gi => Z.eqb (number gi) issue_number) (tracker w) then
    (Ok tt,
     {| sonar_up := sonar_up w; github_up := github_up w;
        findings := findings w;
        tracker := List.map (fun gi => if Z.eqb (number gi) issue_number
                                       then patch data gi else gi) (tracker w);
        refused := refused w |})
  else (RequestException "404 Not Found", w).

#[global] Instance collaborators : Collaborators World := {
  sonar_validate := validate;
  sonar_search := search;
  sonar_do_transition := do_transition;
  github_get_repo := get_repo;
  github_list_issues := list_issues;
  github_post_issue := post_issue;
  github_patch_issue := patch_issue;
  validation_text := "1 validation error for GitHubIssue"
}.

Definition config : Config :=
  {| sonar_token := "sonar-token"; github_token := "github-token";
     sonar_project_key := "test-project"; github_repo := "owner/repo";
     issue_types := ["BUG"; "VULNERABILITY"; "CODE_SMELL"] |}.

Definition finding (k msg : string) (tgs : list string) : SonarIssue :=
  {| key := k; type := "BUG"; severity := "MAJOR"; status := "OPEN";
     message := msg; component := "src/app.py"; project := "test-project";
     tags := tgs |}.

Definition item (n : Z) (b st : string) (reason : option string) : GitHubIssue :=
  {| number := n; title := "mirrored"; body := b; state := st;
     labels := ["sonarcloud"]; state_reason := reason |}.

(** Scenario A: two open Findings, an empty tracker. *)
Definition scenario_a : World :=
  {| sonar_up := true; github_up := true;
     findings := [finding "sonar-1" "Null dereference" ["security"];
                  finding "sonar-2" "Unused variable" []];
     tracker := []; refused := [] |}.

(** Scenario B: [sonar-1] is open and mirrored, the open mirror of
    [sonar-2] is stale, the mirror of [sonar-3] was closed as declined. *)
Definition scenario_b : World :=
  {| sonar_up := true; github_up := true;
     findings := [finding "sonar-1" "Null dereference" []];
     tracker :=
       [item 3 (_create_github_issue_body (finding "sonar-3" "Old smell" []))
          "closed" (Some "not_planned");
        item 2 (_create_github_issue_body (finding "sonar-2" "Unused variable" []))
          "open" None;
        item 1 (_create_github_issue_body (finding "sonar-1" "Null dereference" []))
          "open" None];
     refused := [] |}.

(** Two issues carry the link of [sonar-1]; [sonar-9] is not mirrored. *)
Definition scenario_two_links : World :=
  {| sonar_up := true; github_up := true;
     findings := [finding "sonar-9" "Fresh defect" []; finding "sonar-1" "Null dereference" []];
     tracker :=
       [item 2 (_create_github_issue_body (finding "sonar-1" "Null dereference" []))
          "open" None;
        item 1 ("Duplicate of " +:+ url (finding "sonar-1" "Null dereference" []))
          "closed" (Some "completed")];
     refused := [] |}.

(** Scenario A on a tracker that refuses the title of [sonar-1]. *)
Definition scenario_refusal : World :=
  {| sonar_up := true; github_up := true;
     findings := [finding "sonar-1" "Null dereference" ["security"];
                  finding "sonar-2" "Unused variable" []];
     tracker := []; refused := ["Null dereference"] |}.

(** Scenario B with the analysis service refusing the token. *)
Definition scenario_sonar_down : World :=
  {| sonar_up := false; github_up := true;
     findings := findings scenario_b; tracker := tracker scenario_b; refused := [] |}.

(** Scenario B with the repository out of reach. *)
Definition scenario_github_down : World :=
  {| sonar_up := true; github_up := false;
     findings := findings scenario_b; tracker := tracker scenario_b; refused := [] |}.

(** [sonar-1] is open and mirrored; the mirror of [sonar-3] was closed as
    declined. *)
Definition scenario_declined : World :=
  {| sonar_up := true; github_up := true;
     findings := [finding "sonar-1" "Null dereference" []];
     tracker :=
       [item 3 (_create_github_issue_body (finding "sonar-3" "Old smell" []))
          "closed" (Some "not_planned");
        item 1 (_create_github_issue_body (finding "sonar-1" "Null dereference" []))
          "open" None];
     refused := [] |}.

(** [sonar-1] is open and mirrored; the mirror of [sonar-2], which is no
    longer open, is an open issue that carries the reason ["not_planned"]
    of an earlier closure. *)
Definition scenario_reopened : World :=
  {| sonar_up := true; github_up := true;
     findings := [finding "sonar-1" "Null dereference" []];
     tracker :=
       [item 2 (_create_github_issue_body (finding "sonar-2" "Unused variable" []))
          "open" (Some "not_planned");
        item 1 (_create_github_issue_body (finding "sonar-1" "Null dereference" []))
          "open" None];
     refused := [] |}.

End Mock.


(** ** Collaborators with outages

    The reference collaborators, with an analysis service that can be down
    for searches and a tracker that answers only a given number of
    listings before it fails. *)

Module Outage.

Record World := {
  inner : Mock.World;
  search_up : bool;          (* the issue search answers *)
  listings_left : nat        (* listings the tracker still answers *)
}.

Definition lift {A} (op : Mock.World -> Response A * Mock.World) (w : World)
  : Response A * World :=
  let '(resp, m) := op (inner w) in
  (resp, {| inner := m; search_up := search_up w; listings_left := listings_left w |}).

Definition search (project_key : string) (types : option string) (w : World)
  : Response (list SonarIssue) * World :=
  if search_up w then lift (Mock.search project_key types) w
  else (RequestException "503 Service Unavailable", w).

Definition list_issues (repo label : string) (w : World)
  : Response (list IssueData) * World :=
  match listings_left w with
  | O => (RequestException "503 Service Unavailable", w)
  | S n =>
      lift (Mock.list_issues repo label)
        {| inner := inner w; search_up := search_up w; listings_left := n |}
  end.

#[global] Instance collaborators : Collaborators World := {
  sonar_validate := lift Mock.validate;
  sonar_search := search;
  sonar_do_transition := fun data => lift (Mock.do_transition data);
  github_get_repo := fun repo => lift (Mock.get_repo repo);
  github_list_issues := list_issues;
  github_post_issue := fun repo t b ls => lift (Mock.post_issue repo t b ls);
  github_patch_issue := fun repo n data => lift (Mock.patch_issue repo n data);
  validation_text := "1 validation error for GitHubIssue"
}.

(** Scenario A with the issue search down. *)
Definition search_down : World :=
  {| inner := Mock.scenario_a; search_up := false; listings_left := 0 |}.

(** Scenario A on a tracker that answers one listing. *)
Definition one_listing : World :=
  {| inner := Mock.scenario_a; search_up := true; listings_left := 1 |}.

(** Scenario A on a tracker that answers two listings. *)
Definition two_listings : World :=
  {| inner := Mock.scenario_a; search_up := true; listings_left := 2 |}.

End Outage.

(** ** Collaborators with issues without a description

    The reference collaborators, on a tracker where some issues have no
    description: the API gives their body as [null]. *)

Module Blank.

Record World := {
  inner : Mock.World;
  blank : list Z             (* the numbers of the issues without a description *)
}.

Definition lift {A} (op : Mock.World -> Response A * Mock.World) (w : World)
  : Response A * World :=
  let '(resp, m) := op (inner w) in
  (resp, {| inner := m; blank := blank w |}).

Definition without_body (numbers : list Z) (d : IssueData) : IssueData :=
  if existsb (Z.eqb (json_number d)) numbers then
    {| json_number := json_number d; json_title := json_title d;
       json_body := Null; json_state := json_state d;
       json_labels := json_labels d; json_state_reason := json_state_reason d |}
  else d.

Definition list_issues (repo label : string) (w : World)
  : Response (list IssueData) * World :=
  let '(resp, w') := lift (Mock.list_issues repo label) w in
  (match resp with
   | Ok data => Ok (List.map (without_body (blank w)) data)
   | RequestException e => RequestException e
   end, w').

#[global] Instance collaborators : Collaborators World := {
  sonar_validate := lift Mock.validate;
  sonar_search := fun project_key types => lift (Mock.search project_key types);
  sonar_do_transition := fun data => lift (Mock.do_transition data);
  github_get_repo := fun repo => lift (Mock.get_repo repo);
  github_list_issues := list_issues;
  github_post_issue := fun repo t b ls => lift (Mock.post_issue repo t b ls);
  github_patch_issue := fun repo n data => lift (Mock.patch_issue repo n data);
  validation_text := "1 validation error for GitHubIssue"
}.

(** Scenario B, with the closed issue 3 left without a description. *)
Definition scenario_b : World :=
  {| inner := Mock.scenario_b; blank := [3%Z] |}.

End Blank.

(** ** The paginated listing

    [GitHubClient.get_issues_with_label] with its pages: the loop
    [while True] asks for page 1, 2, ... of 100 issues each and stops at an
    empty page or at a page shorter than 100.  [get_page] is the request
    for one page (labels, state=all, per_page=100, page), answered with the
    issues of the JSON array, each one already built (the building of an
    issue from its JSON, and its refusal, is in [GitHubClient.build_issues]).
    The loop has no bound of its own: [fuel] is the number of page requests
    looked at, and [None] says the loop is still running after them. *)

Module Paged.
Section Pages.
Context {W : Type}.
Variable get_page : string -> string -> nat -> W -> Response (list GitHubIssue) * W.

(** What the call came to: its outcome, the world it leaves, and the pages
    it asked for, oldest first. *)
Record Listing := MkListing {
  result : Outcome (list GitHubIssue);
  after : W;
  pages : list nat
}.

Fixpoint fetch_pages (fuel : nat) (repo label : string) (page : nat)
  (issues : list GitHubIssue) (w : W) : option Listing :=
  match fuel with
  | O => None
  | S fuel' =>
      let '(resp, w') := get_page repo label page w in
      match resp with
      | RequestException e =>
          Some (MkListing (Raised (FailedFetchGitHubIssues e)) w' [page])
      | Ok data =>
          match data with
          | [] => Some (MkListing (Returned issues) w' [page])
          | _ :: _ =>
              let issues := issues ++ data in
              if (List.length data <? 100)%nat
              then Some (MkListing (Returned issues) w' [page])
              else
                match fetch_pages fuel' repo label (S page) issues w' with
                | Some l => Some (MkListing (result l) (after l) (page :: pages l))
                | None => None
                end
          end
      end
  end.

Definition get_issues_with_label (fuel : nat) (repo label : string) (w : W)
  : option Listing :=
  fetch_pages fuel repo label 1 [] w.

End Pages.





End Paged.

(** ** Configuration and command line *)

Module Str.

(** [s.split(sep)] for a one-character separator: the parts between the
    separators, at least one part. *)
Fixpoint split (sep : ascii) (s : string) : list string :=
  match s with
  | EmptyString => [""]
  | String c t =>
      if Ascii.eqb c sep then "" :: split sep t
      else
        match split sep t with
        | part :: parts => String c part :: parts
        | [] => [String c ""]
        end
  end.

(** [s * n] *)
Fixpoint times (s : string) (n : nat) : string :=
  match n with
  | O => ""
  | S n' => s +:+ times s n'
  end.

End Str.

(** What [Config.from_env] comes to: the configuration, or a [ValueError]
    with its message. *)
Inductive FromEnv :=
| Built (config : Config)
| ValueError (message : string).

(** [Config.from_env]; [environ] is the process environment, [os.getenv] a
    lookup in it.  A token that is unset or empty is refused; an absent or
    empty [issue_types] gives the three default types. *)
Definition from_env (environ : gmap string string)
  (sonar_project_key github_repo : string) (issue_types : option (list string))
  : FromEnv :=
  let sonar_token := environ !! "SONAR_TOKEN" in
  let github_token := environ !! "GITHUB_TOKEN" in
  match sonar_token with
  | None | Some EmptyString =>
      ValueError "SONAR_TOKEN environment variable is required"
  | Some sonar_token =>
      match github_token with
      | None | Some EmptyString =>
          ValueError "GITHUB_TOKEN environment variable is required"
      | Some github_token =>
          Built {| sonar_token := sonar_token;
                   github_token := github_token;
                   sonar_project_key := sonar_project_key;
                   github_repo := github_repo;
                   issue_types :=
                     match issue_types with
                     | Some (t :: ts) => t :: ts
                     | Some [] | None => ["BUG"; "VULNERABILITY"; "CODE_SMELL"]
                     end |}
      end
  end.

(** [str(e)] for the exceptions of the clients and the engine. *)
Definition error_message (e : Error) : string :=
  match e with
  | InvalidSonarCredentials => "Invalid SonarCloud credentials or connection failed"
  | InvalidGitHubCredentials => "Invalid GitHub credentials or repository access failed"
  | FailedFetchSonarIssues t => "Failed to fetch SonarCloud issues: " +:+ t
  | FailedResolveSonarIssue k t =>
      "Failed to resolve SonarCloud issue " +:+ k +:+ ": " +:+ t
  | FailedFetchGitHubIssues t => "Failed to fetch GitHub issues: " +:+ t
  | FailedCreateGitHubIssue t => "Failed to create GitHub issue: " +:+ t
  | FailedCloseGitHubIssue n t =>
      "Failed to close GitHub issue #" +:+ pretty n +:+ ": " +:+ t
  | ValidationError t => t
  end.

(** [isinstance(e, ValueError)]: of the exceptions of a pass, pydantic's
    [ValidationError] alone; the others are plain [Exception]s. *)
Definition is_value_error (e : Error) : bool :=
  match e with
  | ValidationError _ => true
  | _ => false
  end.

(** How the command ends: by returning, or by [sys.exit(code)]. *)
Inductive Exit :=
| Returns
| SysExit (code : Z).

(** A run of the command: how it ends, the lines written with
    [click.echo] to the standard output and to the standard error, and the
    run of the engine when one was started.  The lines of the log, which
    its handler writes to the standard output with a time stamp, are not
    part of it. *)
Record CliRun (W : Type) := MkCliRun {
  exit : Exit;
  echoed : list string;
  errors : list string;
  engine : option (Run W (gmap string nat))
}.
Arguments MkCliRun {W} exit echoed errors engine.
Arguments exit {W} c.
Arguments echoed {W} c.
Arguments errors {W} c.
Arguments engine {W} c.

Module Cli.
Section Main.
Context {W : Type} `{Collaborators W}.

(** [t.strip().upper()], the text normalisation of the standard library,
    taken as given. *)
Variable strip_upper : string -> string.

(** The handler of [except Exception]. *)
Definition sync_error (out : list string) (msg : string)
  (r : Run W (gmap string nat)) : CliRun W :=
  MkCliRun (SysExit 1) out ["Sync Error: " +:+ msg] (Some r).

(** [cli.main], from its parsed options on; logging left out.  The
    handler of [except ValueError] comes first: it takes the [ValueError]
    of [Config.from_env] and also a [ValidationError] that a pass raises.
    A key missing from the result map is a [KeyError], which the last
    handler reports like any other exception, after the lines already
    echoed. *)
Definition main (environ : gmap string string)
  (sonar_project github_repo issue_types : string) (dry_run : bool) (w : W)
  : CliRun W :=
  let issue_type_list := List.map strip_upper (Str.split "," issue_types) in
  match from_env environ sonar_project github_repo (Some issue_type_list) with
  | ValueError e => MkCliRun (SysExit 1) [] ["Configuration Error: " +:+ e] None
  | Built config =>
      let r := SyncEngine.full_sync config dry_run w in
      match outcome r with
      | Raised e =>
          if is_value_error e then
            MkCliRun (SysExit 1) [] ["Configuration Error: " +:+ error_message e] (Some r)
          else sync_error [] (error_message e) r
      | Returned results =>
          if negb dry_run then
            let banner := [Py.nl +:+ Str.times "=" 50;
                           "SYNC COMPLETED SUCCESSFULLY";
                           Str.times "=" 50] in
            match results !! "created" with
            | None => sync_error banner "'created'" r
            | Some created =>
                let out := banner ++ ["GitHub issues created: " +:+ pretty created] in
                match results !! "skipped" with
                | None => sync_error out "'skipped'" r
                | Some skipped =>
                    let out := out ++ ["Duplicates skipped: " +:+ pretty skipped] in
                    match results !! "closed" with
                    | None => sync_error out "'closed'" r
                    | Some closed =>
                        let out := out ++ ["GitHub issues closed: " +:+ pretty closed] in
                        match results !! "marked_wont_fix" with
                        | None => sync_error out "'marked_wont_fix'" r
                        | Some marked =>
                            MkCliRun Returns
                              (out ++ ["SonarCloud issues marked as 'Won't Fix': "
                                       +:+ pretty marked])
                              [] (Some r)
                        end
                    end
                end
            end
          else MkCliRun Returns [] [] (Some r)
      end
  end.

End Main.
End Cli.

(** ** Further readings of a list of calls *)

(** The create requests, in order: repository, title, body, labels. *)
Fixpoint create_calls (cs : list Call) : list (string * string * string * list string) :=
  match cs with
  | [] => []
  | CallCreateIssue r t b ls _ :: rest => (r, t, b, ls) :: create_calls rest
  | _ :: rest => create_calls rest
  end.

(** The create request forward sync makes for a Finding. *)
Definition request_for (repo : string) (f : SonarIssue)
  : string * string * string * list string :=
  (repo, message f, _create_github_issue_body f, "sonarcloud" :: tags f).

(** The number of create calls that raised. *)
Definition creates_failed (cs : list Call) : nat :=
  List.length (List.filter (fun c => match c with
                                     | CallCreateIssue _ _ _ _ r => negb (has_returned r)
                                     | _ => false
                                     end) cs).

Definition is_listing (c : Call) : bool :=
  match c with CallGetIssuesWithLabel _ _ _ => true | _ => false end.

(** The number of listings of labeled issues. *)
Definition listings (cs : list Call) : nat := List.length (List.filter is_listing cs).

(** A mark-won't-fix call for a non-empty key of class characters, with the
    form data of the transition (any other call passes). *)
Definition marks_valid_key (c : Call) : bool :=
  match c with
  | CallResolveWontFix k data _ =>
      valid_key k && bool_decide (data = [("issue", k); ("transition", "wontfix")])
  | _ => true
  end.

(** An environment with both tokens set. *)
Definition environ_with_tokens : gmap string string :=
  <["SONAR_TOKEN" := "sq-token"]> (<["GITHUB_TOKEN" := "gh-token"]> ∅).

(** The calls of the engine that a run of the command made. *)
Definition requests {W} (c : CliRun W) : list Call :=
  match engine c with
  | Some r => calls r
  | None => []
  end.

(** A call addressed as the configuration says: the search to the
    configured project with the configured types, joined by commas (no
    [types] parameter for an empty list); every tracker call to the
    configured repository; a listing for the label ["sonarcloud"]; a create
    request with ["sonarcloud"] as its first label. *)
Definition in_scope (config : Config) (c : Call) : bool :=
  match c with
  | CallSonarTestConnection _ => true
  | CallGetIssues p t _ =>
      bool_decide (p = sonar_project_key config) &&
      bool_decide (t = match issue_types config with
                       | [] => None
                       | _ :: _ => Some (Py.join "," (issue_types config))
                       end)
  | CallResolveWontFix _ _ _ => true
  | CallGitHubTestConnection repo _ => bool_decide (repo = github_repo config)
  | CallGetIssuesWithLabel repo label _ =>
      bool_decide (repo = github_repo config) && bool_decide (label = "sonarcloud")
  | CallCreateIssue repo _ _ ls _ =>
      bool_decide (repo = github_repo config) && bool_decide (head ls = Some "sonarcloud")
  | CallCloseIssue repo _ _ _ => bool_decide (repo = github_repo config)
  end.

(** The exceptions of a failed credential check or a failed fetch: for a
    fetch, the wrapped request error, or the validation error of a listed
    issue that cannot be built. *)
Definition is_fatal (e : Error) : bool :=
  match e with
  | InvalidSonarCredentials | InvalidGitHubCredentials
  | FailedFetchSonarIssues _ | FailedFetchGitHubIssues _
  | ValidationError _ => true
  | FailedResolveSonarIssue _ _ | FailedCreateGitHubIssue _
  | FailedCloseGitHubIssue _ _ => false
  end.

(** The exception a failed check or fetch leads to: a connection test that
    answered [False], a search or a listing that raised. *)
Definition blamed (c : Call) : option Error :=
  match c with
  | CallSonarTestConnection false => Some InvalidSonarCredentials
  | CallGitHubTestConnection _ false => Some InvalidGitHubCredentials
  | CallGetIssues _ _ (Raised e) => Some e
  | CallGetIssuesWithLabel _ _ (Raised e) => Some e
  | _ => None
  end.

(** Code that raises only an exception of a failed check or fetch, and
    then right after the call that failed. *)
Definition stops_at_failure {W A} (m : M W A) : Prop :=
  forall w e,
    outcome (m w) = Raised e ->
    is_fatal e = true /\
    exists pre c, calls (m w) = (pre ++ [c])%list /\ blamed c = Some e.

(** * Properties *)

(** ** Strings *)

Section Strings.

Lemma append_cons (x : ascii) (a b : string) :
  String x a +:+ b = String x (a +:+ b).
Proof. reflexivity. Qed.

Lemma append_nil (b : string) : "" +:+ b = b.
Proof. reflexivity. Qed.

Lemma append_assoc (a b c : string) : (a +:+ b) +:+ c = a +:+ (b +:+ c).
Proof.
  induction a as [|x a IH]; [reflexivity |].
  rewrite !append_cons. now rewrite IH.
Qed.

Lemma prefix_append (p s : string) : String.prefix p (p +:+ s) = true.
Proof.
  induction p as [|x p IH].
  - now destruct s.
  - rewrite append_cons. simpl.
    destruct (ascii_dec x x) as [_|ne]; [exact IH | now destruct ne].
Qed.

Lemma drop_append (p s : string) : Py.drop (String.length p) (p +:+ s) = s.
Proof. induction p as [|x p IH]; [reflexivity | exact IH]. Qed.

Lemma contains_prefix (n h : string) :
  String.prefix n h = true -> Py.contains n h = true.
Proof. intros Hp. destruct h; unfold Py.contains; now rewrite Hp. Qed.

Lemma contains_here (p s : string) : Py.contains p (p +:+ s) = true.
Proof. apply contains_prefix, prefix_append. Qed.

Lemma contains_append_l (n a s : string) :
  Py.contains n s = true -> Py.contains n (a +:+ s) = true.
Proof.
  intros Hn. induction a as [|x a IH]; [exact Hn |].
  rewrite append_cons. simpl. rewrite IH. apply orb_true_r.
Qed.

Lemma prefix_empty (s : string) : String.prefix "" s = true.
Proof. now destruct s. Qed.

Lemma prefix_refl (p : string) : String.prefix p p = true.
Proof.
  induction p as [|x p IH]; [reflexivity |]. simpl.
  destruct (ascii_dec x x) as [_|ne]; [exact IH | now destruct ne].
Qed.

Lemma prefix_append_r (n s b : string) :
  String.prefix n s = true -> String.prefix n (s +:+ b) = true.
Proof.
  revert s. induction n as [|x n IH]; intros s Hp; [apply prefix_empty |].
  destruct s as [|y s]; [discriminate Hp |].
  rewrite append_cons. simpl in *.
  destruct (ascii_dec x y); [now apply IH | discriminate Hp].
Qed.

Lemma contains_append_r (n s b : string) :
  Py.contains n s = true -> Py.contains n (s +:+ b) = true.
Proof.
  induction s as [|c s IH]; intros Hc.
  - apply contains_prefix. apply (prefix_append_r n "" b).
    unfold Py.contains in Hc. now rewrite orb_false_r in Hc.
  - rewrite append_cons. simpl in Hc |- *.
    apply orb_true_iff in Hc as [Hp | Ht].
    + apply orb_true_iff. left. apply (prefix_append_r n (String c s) b Hp).
    + apply orb_true_iff. right. now apply IH.
Qed.

(** A needle in one of the joined parts is in the joined text. *)
Lemma contains_join (n sep x : string) (parts : list string) :
  Py.contains n x = true -> In x parts -> Py.contains n (Py.join sep parts) = true.
Proof.
  intros Hx. induction parts as [|y parts IH]; intros Hin; [destruct Hin |].
  destruct Hin as [-> | Hin].
  - destruct parts as [|z parts]; [exact Hx |].
    cbn [Py.join]. now apply contains_append_r.
  - destruct parts as [|z parts]; [destruct Hin |].
    cbn [Py.join]. apply contains_append_l, contains_append_l. now apply IH.
Qed.

(** A needle sits in any text written around it. *)
Lemma contains_middle (n a b : string) : Py.contains n (a +:+ n +:+ b) = true.
Proof. apply contains_append_l, contains_here. Qed.

Lemma key_run_stops (k rest : string) (c : ascii) :
  all_key_chars k = true -> key_char c = false ->
  key_run (k +:+ String c rest) = k.
Proof.
  intros Hk Hc. induction k as [|x k IH].
  - rewrite append_nil. simpl. now rewrite Hc.
  - rewrite append_cons. simpl in *.
    apply andb_true_iff in Hk as [Hx Hk]. rewrite Hx. now rewrite IH.
Qed.

Lemma key_run_all (s : string) : all_key_chars (key_run s) = true.
Proof.
  induction s as [|c s IH]; simpl; [reflexivity |].
  destruct (key_char c) eqn:E; simpl; [now rewrite E | reflexivity].
Qed.

Lemma match_here_valid (s k : string) : match_here s = Some k -> valid_key k = true.
Proof.
  unfold match_here. destruct (String.prefix marker s); [| discriminate].
  pose proof (key_run_all (Py.drop (String.length marker) s)) as Hall.
  destruct (key_run _) as [|c r]; [discriminate |].
  intros [= <-]. unfold valid_key. now rewrite Hall.
Qed.

(** What the pattern captures is never empty: [if sonar_issue_key:] holds
    exactly when the search matched. *)
Lemma extract_valid (b k : string) :
  _extract_sonar_issue_key b = Some k -> valid_key k = true.
Proof.
  unfold _extract_sonar_issue_key.
  induction b as [|c b IH].
  - vm_compute. discriminate.
  - cbn [re_search]. destruct (match_here (String c b)) eqn:E.
    + intros [= <-]. eapply match_here_valid, E.
    + exact IH.
Qed.

Lemma re_search_here (s k : string) : match_here s = Some k -> re_search s = Some k.
Proof. intros E. destruct s; cbn [re_search]; now rewrite E. Qed.

Lemma prefix_split (n h : string) :
  String.prefix n h = true -> exists b, h = n +:+ b.
Proof.
  revert h. induction n as [|x n IH]; intros h Hp.
  - now exists h.
  - destruct h as [|y h]; [discriminate Hp |]. simpl in Hp.
    destruct (ascii_dec x y) as [<- | _]; [| discriminate Hp].
    destruct (IH h Hp) as [b ->]. now exists b.
Qed.

(** [Py.contains] is the substring test: the hay is some text, the needle,
    and some text. *)
Lemma contains_iff (n h : string) :
  Py.contains n h = true <-> exists a b, h = a +:+ n +:+ b.
Proof.
  split.
  - induction h as [|c h IH]; intros Hc.
    + unfold Py.contains in Hc. rewrite orb_false_r in Hc.
      destruct (prefix_split _ _ Hc) as [b ->]. now exists "", b.
    + change (Py.contains n (String c h))
        with (String.prefix n (String c h) || Py.contains n h) in Hc.
      apply orb_true_iff in Hc as [Hp | Ht].
      * destruct (prefix_split _ _ Hp) as [b ->]. now exists "", b.
      * destruct (IH Ht) as (a & b & ->). now exists (String c a), b.
  - intros (a & b & ->). apply contains_middle.
Qed.

End Strings.

(** ** The body protocol *)

Section Body.

Lemma insert_tags_line {A} (x a0 a1 a2 a3 a4 a5 a6 a7 a8 a9 a10 a11 : A) :
  Py.insert (-3) x [a0; a1; a2; a3; a4; a5; a6; a7; a8; a9; a10; a11]
  = [a0; a1; a2; a3; a4; a5; a6; a7; a8; x; a9; a10; a11].
Proof. reflexivity. Qed.

Lemma insert_blank_line {A} (x a0 a1 a2 a3 a4 a5 a6 a7 a8 a9 a10 a11 a12 : A) :
  Py.insert (-3) x [a0; a1; a2; a3; a4; a5; a6; a7; a8; a9; a10; a11; a12]
  = [a0; a1; a2; a3; a4; a5; a6; a7; a8; a9; x; a10; a11; a12].
Proof. reflexivity. Qed.

Lemma body_without_tags (f : SonarIssue) :
  tags f = [] -> _create_github_issue_body f = Py.join Py.nl (body_parts f).
Proof. intros E. unfold _create_github_issue_body. now rewrite E. Qed.

Lemma body_with_tags (f : SonarIssue) :
  tags f <> [] -> _create_github_issue_body f = Py.join Py.nl (tagged_lines f).
Proof.
  intros Hne. unfold _create_github_issue_body.
  destruct (tags f) as [|t ts] eqn:E; [now destruct Hne |].
  unfold body_parts. rewrite insert_tags_line, insert_blank_line.
  unfold tagged_lines. now rewrite E.
Qed.

(** The body opens with the marker line. *)
Lemma body_first_line (f : SonarIssue) :
  exists rest,
    _create_github_issue_body f = marker +:+ (key f +:+ String (ascii_of_nat 10) rest).
Proof.
  destruct (tags f) as [|t ts] eqn:E.
  - rewrite body_without_tags by exact E. unfold body_parts.
    eexists. cbn [Py.join]. rewrite append_assoc. reflexivity.
  - rewrite body_with_tags by (rewrite E; discriminate). unfold tagged_lines.
    eexists. cbn [Py.join]. rewrite append_assoc. reflexivity.
Qed.

(** The body carries the canonical link of its Finding. *)
Lemma body_contains_url (f : SonarIssue) :
  Py.contains (url f) (_create_github_issue_body f) = true.
Proof.
  assert (Hline : Py.contains (url f) ("**SonarCloud Link:** " +:+ url f) = true).
  { apply contains_append_l, contains_prefix, prefix_refl. }
  destruct (tags f) as [|t ts] eqn:E.
  - rewrite body_without_tags by exact E.
    apply (contains_join _ _ _ _ Hline). unfold body_parts.
    do 8 right. now left.
  - rewrite body_with_tags by (rewrite E; discriminate).
    apply (contains_join _ _ _ _ Hline). unfold tagged_lines.
    do 8 right. now left.
Qed.

End Body.

Section BodyClaims.

(** C1 (round trip). For a Finding whose key is non-empty and made of
    characters of [[A-Za-z0-9_:-]], the pattern matches the built body at
    offset 0, on the marker line, and the key extracted from the body is
    the Finding's key. *)
Theorem extract_key_of_built_body (f : SonarIssue) :
  valid_key (key f) = true ->
  match_here (_create_github_issue_body f) = Some (key f) /\
  _extract_sonar_issue_key (_create_github_issue_body f) = Some (key f).
Proof.
  intros Hk.
  assert (Hm : match_here (_create_github_issue_body f) = Some (key f)).
  { destruct (body_first_line f) as [rest ->].
    unfold match_here. rewrite prefix_append, drop_append.
    unfold valid_key in Hk. apply andb_true_iff in Hk as [Hne Hall].
    rewrite key_run_stops by (exact Hall || reflexivity).
    destruct (key f); [discriminate Hne | reflexivity]. }
  split; [exact Hm |]. now apply re_search_here.
Qed.

Lemma extract_key_of_built_body_witness :
  valid_key (key (Mock.finding "AX-1:b_2" "Null dereference" ["security"])) = true /\
  _extract_sonar_issue_key
    (_create_github_issue_body (Mock.finding "AX-1:b_2" "Null dereference" ["security"]))
  = Some "AX-1:b_2".
Proof.
  split; [reflexivity |].
  apply (extract_key_of_built_body
           (Mock.finding "AX-1:b_2" "Null dereference" ["security"])).
  reflexivity.
Defined.

(** C6, as stated, fails: for a Finding with tags the built body is not
    the template order (tags line before the link line). *)
Lemma template_order_counterexample :
  tags (Mock.finding "sonar-1" "Null dereference" ["security"]) <> [] /\
  _create_github_issue_body (Mock.finding "sonar-1" "Null dereference" ["security"])
  <> Py.join Py.nl
       (template_lines (Mock.finding "sonar-1" "Null dereference" ["security"])).
Proof. split; vm_compute; discriminate. Qed.

(** C6 (amended). For a Finding with tags the body is, in order: marker
    line, type, severity, component, blank, description header, message,
    blank, link line, tags line, blank, blank, separator, attribution: the
    tags line and its blank line come after the link line, three lines
    from the end.  Without tags both are absent and the body is the twelve
    fixed lines. *)
Theorem body_line_order (f : SonarIssue) :
  (tags f <> [] ->
   _create_github_issue_body f = Py.join Py.nl (tagged_lines f)) /\
  (tags f = [] ->
   _create_github_issue_body f = Py.join Py.nl (body_parts f)).
Proof. split; [apply body_with_tags | apply body_without_tags]. Qed.

Lemma body_line_order_witness :
  (tags (Mock.finding "sonar-1" "Null dereference" ["security"; "cwe"]) <> [] /\
   _create_github_issue_body (Mock.finding "sonar-1" "Null dereference" ["security"; "cwe"])
   = Py.join Py.nl
       (tagged_lines (Mock.finding "sonar-1" "Null dereference" ["security"; "cwe"]))) /\
  (tags (Mock.finding "sonar-2" "Unused variable" []) = [] /\
   _create_github_issue_body (Mock.finding "sonar-2" "Unused variable" [])
   = Py.join Py.nl (body_parts (Mock.finding "sonar-2" "Unused variable" []))).
Proof.
  split; (split;
    [ first [reflexivity | discriminate]
    | first
        [ apply (proj1 (body_line_order
                   (Mock.finding "sonar-1" "Null dereference" ["security"; "cwe"])));
          discriminate
        | apply (proj2 (body_line_order (Mock.finding "sonar-2" "Unused variable" [])));
          reflexivity ] ]).
Defined.

End BodyClaims.

(** ** Runs *)

Section Runs.
Context {W : Type}.

Lemma prepend_nil {A} (r : Run W A) : prepend [] r = r.
Proof. now destruct r. Qed.

Lemma prepend_prepend {A} (cs ds : list Call) (r : Run W A) :
  prepend cs (prepend ds r) = prepend (cs ++ ds) r.
Proof. unfold prepend; simpl. now rewrite app_assoc. Qed.

Lemma bind_returned {A B} (m : M W A) (f : A -> M W B) (w : W) (a : A) :
  outcome (m w) = Returned a ->
  bind m f w = prepend (calls (m w)) (f a (world (m w))).
Proof. intros E. unfold bind. now rewrite E. Qed.

Lemma bind_raised {A B} (m : M W A) (f : A -> M W B) (w : W) (e : Error) :
  outcome (m w) = Raised e ->
  bind m f w = MkRun (Raised e) (world (m w)) (calls (m w)).
Proof. intros E. unfold bind. now rewrite E. Qed.

Lemma bind_run {A B} (m : M W A) (f : A -> M W B) (w w' : W) (a : A) cs :
  m w = MkRun (Returned a) w' cs -> bind m f w = prepend cs (f a w').
Proof. intros E. unfold bind. now rewrite E. Qed.

Lemma bind_ret_l {A B} (a : A) (f : A -> M W B) (w : W) : bind (ret a) f w = f a w.
Proof. unfold bind, ret; simpl. apply prepend_nil. Qed.

Lemma bind_ext {A B} (m : M W A) (f g : A -> M W B) (w : W) :
  (forall a w', f a w' = g a w') -> bind m f w = bind m g w.
Proof. intros E. unfold bind. destruct (outcome (m w)); [now rewrite E | reflexivity]. Qed.

Lemma bind_assoc {A B C} (m : M W A) (f : A -> M W B) (g : B -> M W C) (w : W) :
  bind (bind m f) g w = bind m (fun a => bind (f a) g) w.
Proof.
  unfold bind.
  destruct (outcome (m w)) as [a|e]; simpl; [| reflexivity].
  destruct (outcome (f a (world (m w)))) as [b|e]; simpl; [| reflexivity].
  now rewrite prepend_prepend.
Qed.

(** A loop over [l1 ++ l2] is the loop over [l1], then the loop over [l2]
    from the variables and the world the first one left. *)
Lemma for_each_app {A S} (step : S -> A -> M W S) (l1 l2 : list A) (acc : S) (w : W) :
  for_each step (l1 ++ l2) acc w = bind (for_each step l1 acc) (for_each step l2) w.
Proof.
  revert acc w. induction l1 as [|x l1 IH]; intros acc w.
  - simpl. now rewrite bind_ret_l.
  - simpl. rewrite bind_assoc. apply bind_ext. intros a w'. apply IH.
Qed.

Lemma for_each_cons {A S} (step : S -> A -> M W S) (x : A) (l : list A) (acc : S) (w : W) :
  for_each step (x :: l) acc w = bind (step acc x) (for_each step l) w.
Proof. reflexivity. Qed.

(** *** Tests on all the calls of a run *)

Lemma only_ret {A} (P : Call -> bool) (a : A) : only P (ret (W:=W) a).
Proof. intros w. reflexivity. Qed.

Lemma only_raise {A} (P : Call -> bool) (e : Error) : only P (raise (W:=W) (A:=A) e).
Proof. intros w. reflexivity. Qed.

Lemma only_bind {A B} (P : Call -> bool) (m : M W A) (f : A -> M W B) :
  only P m -> (forall a, only P (f a)) -> only P (bind m f).
Proof.
  intros Hm Hf w. unfold bind. specialize (Hm w).
  destruct (outcome (m w)) as [a|e]; simpl; [| exact Hm].
  rewrite forallb_app, Hm. apply Hf.
Qed.

Lemma only_try_except {A} (P : Call -> bool) (m : M W A) (h : Error -> M W A) :
  only P m -> (forall e, only P (h e)) -> only P (try_except m h).
Proof.
  intros Hm Hh w. unfold try_except. specialize (Hm w).
  destruct (outcome (m w)) as [a|e]; simpl; [exact Hm |].
  rewrite forallb_app, Hm. apply Hh.
Qed.

Lemma only_for_each {A S} (P : Call -> bool) (step : S -> A -> M W S) (l : list A) :
  (forall acc x, only P (step acc x)) -> forall acc, only P (for_each step l acc).
Proof.
  intros Hs. induction l as [|x l IH]; intros acc.
  - apply only_ret.
  - simpl. apply only_bind; [apply Hs | exact IH].
Qed.

Lemma only_weaken {A} (P Q : Call -> bool) (m : M W A) :
  (forall c, P c = true -> Q c = true) -> only P m -> only Q m.
Proof.
  intros HPQ Hm w. specialize (Hm w).
  rewrite forallb_forall in *. intros c Hc. apply HPQ, Hm, Hc.
Qed.

End Runs.

(** ** The clients: one call, recorded with its answer *)

Section ClientCalls.
Context {W : Type} `{Collaborators W}.

Lemma get_issues_with_label_calls (repo label : string) (w : W) :
  calls (GitHubClient.get_issues_with_label repo label w)
  = [CallGetIssuesWithLabel repo label
       (outcome (GitHubClient.get_issues_with_label repo label w))].
Proof.
  unfold GitHubClient.get_issues_with_label.
  now destruct (github_list_issues repo label w) as [[l|e] w'].
Qed.

Lemma get_issues_calls (project_key : string) (types : list string) (w : W) :
  exists t,
    calls (SonarClient.get_issues project_key types w)
    = [CallGetIssues project_key t (outcome (SonarClient.get_issues project_key types w))].
Proof.
  unfold SonarClient.get_issues.
  destruct (sonar_search _ _ w) as [[l|e] w']; eexists; reflexivity.
Qed.

Lemma create_issue_calls (repo t b : string) (ls : list string) (w : W) :
  calls (GitHubClient.create_issue repo t b ls w)
  = [CallCreateIssue repo t b ls (outcome (GitHubClient.create_issue repo t b ls w))].
Proof.
  unfold GitHubClient.create_issue.
  now destruct (github_post_issue repo t b ls w) as [[gi|e] w'].
Qed.

(** The payload of the close request is the state alone. *)
Lemma close_issue_calls (repo : string) (n : Z) (w : W) :
  calls (GitHubClient.close_issue repo n w)
  = [CallCloseIssue repo n [("state", "closed")]
       (outcome (GitHubClient.close_issue repo n w))].
Proof.
  unfold GitHubClient.close_issue.
  now destruct (github_patch_issue repo n _ w) as [[u|e] w'].
Qed.

Lemma resolve_calls (k : string) (w : W) :
  calls (SonarClient.resolve_issue_as_wont_fix k w)
  = [CallResolveWontFix k [("issue", k); ("transition", "wontfix")]
       (outcome (SonarClient.resolve_issue_as_wont_fix k w))].
Proof.
  unfold SonarClient.resolve_issue_as_wont_fix.
  now destruct (sonar_do_transition _ w) as [[u|e] w'].
Qed.

(** [resolve_issue_as_wont_fix] returns [True] or raises. *)
Lemma resolve_returns_true (k : string) (w : W) (b : bool) :
  outcome (SonarClient.resolve_issue_as_wont_fix k w) = Returned b -> b = true.
Proof.
  unfold SonarClient.resolve_issue_as_wont_fix.
  destruct (sonar_do_transition _ w) as [[u|e] w']; simpl; congruence.
Qed.

Lemma close_returns_true (repo : string) (n : Z) (w : W) (b : bool) :
  outcome (GitHubClient.close_issue repo n w) = Returned b -> b = true.
Proof.
  unfold GitHubClient.close_issue.
  destruct (github_patch_issue _ _ _ w) as [[u|e] w']; simpl; congruence.
Qed.

Lemma sonar_test_connection_run (w : W) :
  exists b, SonarClient.test_connection w
            = MkRun (Returned b) (world (SonarClient.test_connection w))
                [CallSonarTestConnection b].
Proof.
  unfold SonarClient.test_connection.
  destruct (sonar_validate w) as [[v|e] w']; eexists; reflexivity.
Qed.

Lemma github_test_connection_run (repo : string) (w : W) :
  exists b, GitHubClient.test_connection repo w
            = MkRun (Returned b) (world (GitHubClient.test_connection repo w))
                [CallGitHubTestConnection repo b].
Proof.
  unfold GitHubClient.test_connection.
  destruct (github_get_repo repo w) as [[v|e] w']; eexists; reflexivity.
Qed.

(** *** The scan for a linked issue *)

Lemma first_with_link_none (u : string) (items : list GitHubIssue) :
  linked u items = false -> GitHubClient.first_with_link u items = None.
Proof.
  induction items as [|gi items IH]; simpl; [reflexivity |].
  destruct (Py.contains u (body gi)); simpl; [discriminate | exact IH].
Qed.

(** When some issue carries the link, the scan returns the first one that
    does. *)
Lemma first_with_link_first (u : string) (items : list GitHubIssue) :
  linked u items = true ->
  exists before gi after,
    items = (before ++ gi :: after)%list /\
    linked u before = false /\
    Py.contains u (body gi) = true /\
    GitHubClient.first_with_link u items = Some gi.
Proof.
  induction items as [|gi items IH]; simpl; [discriminate |].
  destruct (Py.contains u (body gi)) eqn:E; simpl.
  - intros _. exists [], gi, items. repeat split; assumption.
  - intros Hl. destruct (IH Hl) as (before & g & after & -> & Hb & Hg & Hf).
    exists (gi :: before), g, after. simpl. rewrite E. repeat split; assumption.
Qed.

Lemma linked_elem (u : string) (items : list GitHubIssue) :
  linked u items = true <->
  exists gi, In gi items /\ Py.contains u (body gi) = true.
Proof. unfold linked. apply existsb_exists. Qed.

Lemma issue_exists_returned (repo u : string) (w : W) (items : list GitHubIssue) :
  outcome (GitHubClient.get_issues_with_label repo "sonarcloud" w) = Returned items ->
  GitHubClient.issue_exists_with_sonar_link repo u w
  = MkRun (Returned (GitHubClient.first_with_link u items))
      (world (GitHubClient.get_issues_with_label repo "sonarcloud" w))
      (calls (GitHubClient.get_issues_with_label repo "sonarcloud" w)).
Proof.
  intros E. unfold GitHubClient.issue_exists_with_sonar_link.
  rewrite (bind_returned _ _ _ _ E). unfold prepend, ret; simpl.
  now rewrite app_nil_r.
Qed.

Lemma issue_exists_raised (repo u : string) (w : W) (e : Error) :
  outcome (GitHubClient.get_issues_with_label repo "sonarcloud" w) = Raised e ->
  GitHubClient.issue_exists_with_sonar_link repo u w
  = MkRun (Raised e)
      (world (GitHubClient.get_issues_with_label repo "sonarcloud" w))
      (calls (GitHubClient.get_issues_with_label repo "sonarcloud" w)).
Proof.
  intros E. unfold GitHubClient.issue_exists_with_sonar_link.
  now rewrite (bind_raised _ _ _ _ E).
Qed.

End ClientCalls.

(** ** Forward sync: the Finding loop *)

Section FindingLoop.
Context {W : Type} `{Collaborators W}.
Variable cfg : Config.

Local Abbreviation fetch := (GitHubClient.get_issues_with_label (github_repo cfg) "sonarcloud").
Local Abbreviation create f :=
  (GitHubClient.create_issue (github_repo cfg) (message f)
     (_create_github_issue_body f) ("sonarcloud" :: tags f)).

(** A Finding with a linked issue: counted as skipped, nothing else. *)
Lemma create_step_skip (dry : bool) (c s : nat) (f : SonarIssue) (w : W) items :
  outcome (fetch w) = Returned items ->
  linked (url f) items = true ->
  SyncEngine.create_step cfg dry (c, s) f w
  = MkRun (Returned (c, S s)) (world (fetch w)) (calls (fetch w)).
Proof.
  intros E Hl. unfold SyncEngine.create_step.
  rewrite (bind_run _ _ _ _ _ _ (issue_exists_returned _ (url f) _ _ E)).
  destruct (first_with_link_first _ _ Hl) as (b & gi & a & _ & _ & _ & ->).
  unfold prepend, ret; simpl. now rewrite app_nil_r.
Qed.

(** The fetch of the lookup fails: the exception leaves the loop. *)
Lemma create_step_fetch_raised (dry : bool) (c s : nat) (f : SonarIssue) (w : W) e :
  outcome (fetch w) = Raised e ->
  SyncEngine.create_step cfg dry (c, s) f w
  = MkRun (Raised e) (world (fetch w)) (calls (fetch w)).
Proof.
  intros E. unfold SyncEngine.create_step.
  unfold bind at 1. now rewrite (issue_exists_raised _ (url f) _ _ E).
Qed.

(** Preview mode, no linked issue: counted as created, no request. *)
Lemma create_step_preview (c s : nat) (f : SonarIssue) (w : W) items :
  outcome (fetch w) = Returned items ->
  linked (url f) items = false ->
  SyncEngine.create_step cfg true (c, s) f w
  = MkRun (Returned (S c, s)) (world (fetch w)) (calls (fetch w)).
Proof.
  intros E Hl. unfold SyncEngine.create_step.
  rewrite (bind_run _ _ _ _ _ _ (issue_exists_returned _ (url f) _ _ E)).
  rewrite (first_with_link_none _ _ Hl).
  unfold prepend, ret; simpl. now rewrite app_nil_r.
Qed.

(** Execution mode, no linked issue: one create request; the Finding is
    counted as created when the request returns, and not at all when it
    raises. *)
Lemma create_step_execute (c s : nat) (f : SonarIssue) (w : W) items :
  outcome (fetch w) = Returned items ->
  linked (url f) items = false ->
  SyncEngine.create_step cfg false (c, s) f w
  = MkRun (Returned (if has_returned (outcome (create f (world (fetch w))))
                     then (S c, s) else (c, s)))
      (world (create f (world (fetch w))))
      (calls (fetch w) ++ calls (create f (world (fetch w)))).
Proof.
  intros E Hl. unfold SyncEngine.create_step.
  rewrite (bind_run _ _ _ _ _ _ (issue_exists_returned _ (url f) _ _ E)).
  rewrite (first_with_link_none _ _ Hl).
  unfold try_except, bind.
  destruct (outcome (create f (world (fetch w)))) as [gi|e] eqn:Ec; simpl;
    unfold prepend, ret; simpl; rewrite ?Ec; simpl; now rewrite ?app_nil_r.
Qed.

(** C2 (no duplicate creation). Take the Finding loop of forward sync, in
    either mode, at a Finding [f] of the list, after the Findings [pre]
    before it.  If the labeled issues fetched for [f] hold one whose body
    contains the canonical URL of [f], then the lookup returns the first
    such issue of the fetched list, the only call made for [f] is that
    fetch (no create request), and the loop goes on from the same created
    counter and the skipped counter plus one. *)
Theorem linked_finding_is_skipped (dry : bool)
  (pre post : list SonarIssue) (f : SonarIssue) (counts : nat * nat) (w : W)
  (c s : nat) (items : list GitHubIssue) :
  let before_f := for_each (SyncEngine.create_step cfg dry) pre counts w in
  outcome before_f = Returned (c, s) ->
  outcome (fetch (world before_f)) = Returned items ->
  linked (url f) items = true ->
  (exists before gi after,
      items = (before ++ gi :: after)%list /\
      linked (url f) before = false /\
      Py.contains (url f) (body gi) = true /\
      outcome (GitHubClient.issue_exists_with_sonar_link (github_repo cfg) (url f)
                 (world before_f)) = Returned (Some gi)) /\
  create_requests (calls (SyncEngine.create_step cfg dry (c, s) f (world before_f))) = [] /\
  for_each (SyncEngine.create_step cfg dry) (pre ++ f :: post) counts w
  = prepend (calls before_f ++
             [CallGetIssuesWithLabel (github_repo cfg) "sonarcloud" (Returned items)])%list
      (for_each (SyncEngine.create_step cfg dry) post (c, S s)
         (world (fetch (world before_f)))).
Proof.
  intros before_f Hpre Hfetch Hl.
  pose proof (get_issues_with_label_calls (github_repo cfg) "sonarcloud" (world before_f))
    as Hcalls. rewrite Hfetch in Hcalls.
  split; [| split].
  - destruct (first_with_link_first _ _ Hl) as (b & gi & a & Hi & Hb & Hg & Hf).
    exists b, gi, a. repeat split; try assumption.
    rewrite (issue_exists_returned _ _ _ _ Hfetch). simpl. now rewrite Hf.
  - rewrite (create_step_skip dry c s f _ _ Hfetch Hl). simpl.
    now rewrite Hcalls.
  - rewrite for_each_app. fold before_f.
    rewrite (bind_returned _ _ _ _ Hpre).
    rewrite for_each_cons.
    rewrite (bind_run _ _ _ _ _ _ (create_step_skip dry c s f _ _ Hfetch Hl)).
    rewrite prepend_prepend. now rewrite Hcalls.
Qed.

End FindingLoop.

Section FindingLoopWitness.

Lemma linked_finding_is_skipped_witness :
  let w := Mock.scenario_two_links in
  let pre := [Mock.finding "sonar-9" "Fresh defect" []] in
  let f := Mock.finding "sonar-1" "Null dereference" [] in
  let before_f := for_each (SyncEngine.create_step Mock.config false) pre (0, 0) w in
  let items := Mock.tracker (world before_f) in
  outcome before_f = Returned (1, 0) /\
  outcome (GitHubClient.get_issues_with_label "owner/repo" "sonarcloud" (world before_f))
  = Returned items /\
  linked (url f) items = true /\
  outcome (GitHubClient.issue_exists_with_sonar_link "owner/repo" (url f) (world before_f))
  = Returned (Some (Mock.item 2 (_create_github_issue_body f) "open" None)) /\
  outcome (for_each (SyncEngine.create_step Mock.config false) (pre ++ [f]) (0, 0) w)
  = Returned (1, 1).
Proof.
  intros w pre f before_f items.
  assert (H1 : outcome before_f = Returned (1, 0)) by (vm_compute; reflexivity).
  assert (H2 : outcome (GitHubClient.get_issues_with_label
                          (github_repo Mock.config) "sonarcloud" (world before_f))
               = Returned items) by (vm_compute; reflexivity).
  assert (H3 : linked (url f) items = true) by (vm_compute; reflexivity).
  destruct (linked_finding_is_skipped Mock.config false pre [] f (0, 0) w 1 0 items H1 H2 H3)
    as [_ [_ Hloop]].
  split; [exact H1 |]. split; [exact H2 |]. split; [exact H3 |].
  split; [vm_compute; reflexivity |].
  rewrite Hloop. reflexivity.
Defined.

End FindingLoopWitness.

(** ** Reading calls: lists of requests *)

Section Requests.

Lemma close_requests_app (a b : list Call) :
  close_requests (a ++ b) = (close_requests a ++ close_requests b)%list.
Proof.
  induction a as [|c a IH]; [reflexivity |].
  destruct c; simpl; now rewrite ?IH.
Qed.

Lemma wont_fix_requests_app (a b : list Call) :
  wont_fix_requests (a ++ b) = (wont_fix_requests a ++ wont_fix_requests b)%list.
Proof.
  induction a as [|c a IH]; [reflexivity |].
  destruct c; simpl; now rewrite ?IH.
Qed.

Lemma create_requests_app (a b : list Call) :
  create_requests (a ++ b) = (create_requests a ++ create_requests b)%list.
Proof.
  induction a as [|c a IH]; [reflexivity |].
  destruct c; simpl; now rewrite ?IH.
Qed.

Lemma closes_done_app (a b : list Call) :
  closes_done (a ++ b) = closes_done a + closes_done b.
Proof. unfold closes_done. now rewrite List.filter_app, List.length_app. Qed.

Lemma marks_done_app (a b : list Call) :
  marks_done (a ++ b) = marks_done a + marks_done b.
Proof. unfold marks_done. now rewrite List.filter_app, List.length_app. Qed.

Lemma no_close_calls (cs : list Call) :
  forallb (fun c => negb (is_close c)) cs = true ->
  close_requests cs = [] /\ closes_done cs = 0.
Proof.
  induction cs as [|c cs IH]; [now split |].
  simpl. intros Hc. apply andb_true_iff in Hc as [Hc Hcs].
  destruct (IH Hcs) as [IH1 IH2].
  destruct c; simpl in *; try discriminate; split; assumption.
Qed.

Lemma no_wont_fix_calls (cs : list Call) :
  forallb (fun c => negb (is_wont_fix c)) cs = true ->
  wont_fix_requests cs = [] /\ marks_done cs = 0.
Proof.
  induction cs as [|c cs IH]; [now split |].
  simpl. intros Hc. apply andb_true_iff in Hc as [Hc Hcs].
  destruct (IH Hcs) as [IH1 IH2].
  destruct c; simpl in *; try discriminate; split; assumption.
Qed.

Lemma no_mutations (cs : list Call) :
  forallb (fun c => negb (is_mutating c)) cs = true -> mutations cs = [].
Proof.
  induction cs as [|c cs IH]; [reflexivity |].
  simpl. intros Hc. apply andb_true_iff in Hc as [Hc Hcs].
  unfold mutations in *. simpl.
  destruct (is_mutating c); [discriminate | now apply IH].
Qed.

End Requests.

(** ** Forward sync: the closure loop *)

Section ClosureLoop.
Context {W : Type} `{Collaborators W}.
Variable cfg : Config.

Local Abbreviation fetch := (GitHubClient.get_issues_with_label (github_repo cfg) "sonarcloud").
Local Abbreviation close gi := (GitHubClient.close_issue (github_repo cfg) (number gi)).

(** An issue that is not stale (closed, or without a key in its body, or
    with the key of an open Finding): no call, no count, in either mode. *)
Lemma close_step_not_stale (dry : bool) (sis : list SonarIssue) (closed : nat)
  (gi : GitHubIssue) (w : W) :
  stale sis gi = false ->
  SyncEngine.close_step cfg dry sis closed gi w = MkRun (Returned closed) w [].
Proof.
  unfold stale, SyncEngine.close_step.
  destruct (String.eqb (state gi) "open"); [| reflexivity].
  destruct (_extract_sonar_issue_key (body gi)) as [k|]; [| reflexivity].
  destruct (existsb _ sis); simpl; [reflexivity | discriminate].
Qed.

Lemma close_step_preview (sis : list SonarIssue) (closed : nat)
  (gi : GitHubIssue) (w : W) :
  stale sis gi = true ->
  SyncEngine.close_step cfg true sis closed gi w = MkRun (Returned (S closed)) w [].
Proof.
  unfold stale, SyncEngine.close_step.
  destruct (String.eqb (state gi) "open"); [| discriminate].
  destruct (_extract_sonar_issue_key (body gi)) as [k|]; [| discriminate].
  destruct (existsb _ sis); simpl; [discriminate | reflexivity].
Qed.

(** A stale issue in execution mode: one close request, never an
    exception, counted when the request returned. *)
Lemma close_step_execute (sis : list SonarIssue) (closed : nat)
  (gi : GitHubIssue) (w : W) :
  stale sis gi = true ->
  SyncEngine.close_step cfg false sis closed gi w
  = MkRun (Returned (if has_returned (outcome (close gi w)) then S closed else closed))
      (world (close gi w))
      [CallCloseIssue (github_repo cfg) (number gi) [("state", "closed")]
         (outcome (close gi w))].
Proof.
  unfold stale, SyncEngine.close_step.
  destruct (String.eqb (state gi) "open"); [| discriminate].
  destruct (_extract_sonar_issue_key (body gi)) as [k|]; [| discriminate].
  destruct (existsb _ sis); simpl; [discriminate |]. intros _.
  pose proof (close_issue_calls (github_repo cfg) (number gi) w) as Hc.
  unfold try_except, bind.
  destruct (outcome (close gi w)) as [b|e] eqn:E; simpl;
    unfold prepend, ret; simpl; rewrite ?E; simpl; rewrite Hc; reflexivity.
Qed.

(** The closure loop in execution mode: the close requests are those of the
    stale issues, one each, in the order of the list; the loop returns, with
    the closes that returned added to the counter; it makes no other call. *)
Lemma close_loop_execute (sis : list SonarIssue) (gis : list GitHubIssue)
  (closed : nat) (w : W) :
  let r := for_each (SyncEngine.close_step cfg false sis) gis closed w in
  close_requests (calls r) = List.map number (List.filter (stale sis) gis) /\
  outcome r = Returned (closed + closes_done (calls r)) /\
  forallb is_close (calls r) = true.
Proof.
  revert closed w. induction gis as [|gi gis IH]; intros closed w.
  - simpl. repeat split. f_equal. unfold closes_done. simpl. lia.
  - cbn zeta. rewrite for_each_cons.
    destruct (stale sis gi) eqn:Est.
    + rewrite (bind_run _ _ _ _ _ _ (close_step_execute sis closed gi w Est)).
      destruct (IH (if has_returned (outcome (close gi w)) then S closed else closed)
                  (world (close gi w))) as (IH1 & IH2 & IH3).
      unfold prepend. cbn [calls outcome]. simpl List.filter. rewrite Est.
      split; [| split].
      * cbn [app close_requests List.map]. now rewrite IH1.
      * rewrite IH2. f_equal.
        change (?x :: ?l) with ([x] ++ l)%list at 2. rewrite closes_done_app.
        unfold closes_done at 2. cbn [List.filter List.length].
        destruct (has_returned (outcome (close gi w))); simpl; lia.
      * cbn [app forallb is_close]. exact IH3.
    + rewrite (bind_run _ _ _ _ _ _ (close_step_not_stale false sis closed gi w Est)).
      rewrite prepend_nil. simpl List.filter. rewrite Est. apply IH.
Qed.

(** The closure loop in preview mode: no call, every stale issue counted. *)
Lemma close_loop_preview (sis : list SonarIssue) (gis : list GitHubIssue)
  (closed : nat) (w : W) :
  for_each (SyncEngine.close_step cfg true sis) gis closed w
  = MkRun (Returned (closed + List.length (List.filter (stale sis) gis))) w [].
Proof.
  revert closed. induction gis as [|gi gis IH]; intros closed.
  - simpl. unfold ret. now rewrite Nat.add_0_r.
  - rewrite for_each_cons. destruct (stale sis gi) eqn:Est.
    + rewrite (bind_run _ _ _ _ _ _ (close_step_preview sis closed gi w Est)).
      rewrite prepend_nil, IH. simpl List.filter. rewrite Est. simpl. do 2 f_equal. lia.
    + rewrite (bind_run _ _ _ _ _ _ (close_step_not_stale true sis closed gi w Est)).
      rewrite prepend_nil, IH. simpl List.filter. now rewrite Est.
Qed.

(** The Finding loop makes no close request, in either mode. *)
Lemma create_loop_no_close (dry : bool) (sis : list SonarIssue) (counts : nat * nat) :
  only (fun c => negb (is_close c))
    (for_each (SyncEngine.create_step cfg dry) sis counts).
Proof.
  apply only_for_each. intros [c s] f. unfold SyncEngine.create_step.
  apply only_bind.
  - unfold GitHubClient.issue_exists_with_sonar_link. apply only_bind.
    + intros w. now rewrite get_issues_with_label_calls.
    + intros a. apply only_ret.
  - intros [gi|]; [apply only_ret |]. destruct dry; [apply only_ret |].
    apply only_try_except; [| intros e; apply only_ret].
    apply only_bind; [| intros a; apply only_ret].
    intros w. now rewrite create_issue_calls.
Qed.

End ClosureLoop.

(** ** Forward sync: the whole pass *)

Section ForwardPass.
Context {W : Type} `{Collaborators W}.
Variable cfg : Config.

Local Abbreviation fetch := (GitHubClient.get_issues_with_label (github_repo cfg) "sonarcloud").
Local Abbreviation findings :=
  (SonarClient.get_issues (sonar_project_key cfg) (issue_types cfg)).

(** The pass, once its two fetches and its Finding loop have returned: the
    closure loop on the fetched issues, then the result map. *)
Lemma forward_pass_run (dry : bool) (w : W) (sis : list SonarIssue)
  (counts : nat * nat) (gis : list GitHubIssue) :
  let r0 := findings w in
  let r1 := for_each (SyncEngine.create_step cfg dry) sis (0, 0) (world r0) in
  let r2 := fetch (world r1) in
  outcome r0 = Returned sis ->
  outcome r1 = Returned counts ->
  outcome r2 = Returned gis ->
  SyncEngine.sync_sonar_to_github cfg dry w
  = prepend (calls r0 ++ calls r1 ++ calls r2)
      (bind (for_each (SyncEngine.close_step cfg dry sis) gis 0)
         (fun closed_count =>
            ret (<["created" := fst counts]>
                 (<["skipped" := snd counts]>
                  (<["closed" := closed_count]> ∅))))
         (world r2)).
Proof.
  intros r0 r1 r2 E0 E1 E2. unfold SyncEngine.sync_sonar_to_github.
  rewrite (bind_returned _ _ _ _ E0). fold r0.
  rewrite (bind_returned _ _ _ _ E1). fold r1.
  rewrite (bind_returned _ _ _ _ E2). fold r2.
  now rewrite !prepend_prepend, <- !app_assoc.
Qed.

(** C3 (amended: execution mode). In one execution-mode forward-sync pass
    whose fetches returned the open Findings [sis] and the labeled issues
    [gis]: the close requests of the pass are exactly those of the issues of
    [gis] that are open, yield a key, and have no Finding of [sis] with that
    key, one request each, in list order; the pass returns, and its closed
    counter is the number of close requests that returned.  An issue that
    is not such (closed, without key, or with the key of an open Finding)
    makes its loop step do nothing: no call, no exception, same counter. *)
Theorem stale_issues_closed_once (w : W) (sis : list SonarIssue)
  (counts : nat * nat) (gis : list GitHubIssue) :
  let r0 := findings w in
  let r1 := for_each (SyncEngine.create_step cfg false) sis (0, 0) (world r0) in
  let r2 := fetch (world r1) in
  let r := SyncEngine.sync_sonar_to_github cfg false w in
  outcome r0 = Returned sis ->
  outcome r1 = Returned counts ->
  outcome r2 = Returned gis ->
  close_requests (calls r) = List.map number (List.filter (stale sis) gis) /\
  counter (outcome r) "closed" = Some (closes_done (calls r)) /\
  counter (outcome r) "created" = Some (fst counts) /\
  counter (outcome r) "skipped" = Some (snd counts) /\
  (forall gi closed w',
      stale sis gi = false ->
      SyncEngine.close_step cfg false sis closed gi w' = MkRun (Returned closed) w' []) /\
  (forall gi closed w',
      stale sis gi = true ->
      exists a,
        calls (SyncEngine.close_step cfg false sis closed gi w')
        = [CallCloseIssue (github_repo cfg) (number gi) [("state", "closed")] a] /\
        outcome (SyncEngine.close_step cfg false sis closed gi w')
        = Returned (if has_returned a then S closed else closed)).
Proof.
  intros r0 r1 r2 r E0 E1 E2.
  pose proof (forward_pass_run false w sis counts gis E0 E1 E2) as Hrun.
  fold r0 r1 r2 r in Hrun.
  destruct (close_loop_execute cfg sis gis 0 (world r2)) as (Hreq & Hout & _).
  destruct (get_issues_calls (sonar_project_key cfg) (issue_types cfg) w) as [t Ht].
  fold r0 in Ht.
  pose proof (get_issues_with_label_calls (github_repo cfg) "sonarcloud" (world r1)) as Hf.
  fold r2 in Hf.
  destruct (no_close_calls _ (create_loop_no_close cfg false sis (0, 0) (world r0)))
    as [Hnc Hnd]. fold r1 in Hnc, Hnd.
  assert (Hpre : close_requests (calls r0 ++ calls r1 ++ calls r2) = [] /\
                 closes_done (calls r0 ++ calls r1 ++ calls r2) = 0).
  { rewrite !close_requests_app, !closes_done_app, Hnc, Hnd, Ht, Hf. now split. }
  destruct Hpre as [Hp1 Hp2].
  rewrite Hrun. rewrite (bind_returned _ _ _ _ Hout).
  unfold prepend, ret, counter. cbn [calls outcome].
  rewrite app_nil_r.
  split; [| split; [| split; [| split; [| split]]]].
  - now rewrite close_requests_app, Hp1, Hreq.
  - rewrite closes_done_app, Hp2. now simplify_map_eq.
  - now simplify_map_eq.
  - now simplify_map_eq.
  - intros gi closed w'. apply close_step_not_stale.
  - intros gi closed w' Hs. eexists.
    rewrite (close_step_execute cfg sis closed gi w' Hs). split; reflexivity.
Qed.

End ForwardPass.

Section ForwardPassWitness.

Lemma stale_issues_closed_once_witness :
  let w := Mock.scenario_b in
  let r0 := SonarClient.get_issues "test-project" ["BUG"; "VULNERABILITY"; "CODE_SMELL"] w in
  let r1 := for_each (SyncEngine.create_step Mock.config false)
              (Mock.findings w) (0, 0) (world r0) in
  let r2 := GitHubClient.get_issues_with_label "owner/repo" "sonarcloud" (world r1) in
  let r := SyncEngine.sync_sonar_to_github Mock.config false w in
  outcome r0 = Returned (Mock.findings w) /\
  outcome r1 = Returned (0, 1) /\
  outcome r2 = Returned (Mock.tracker w) /\
  close_requests (calls r) = [2%Z] /\
  counter (outcome r) "closed" = Some 1.
Proof.
  intros w r0 r1 r2 r.
  assert (E0 : outcome r0 = Returned (Mock.findings w)) by (vm_compute; reflexivity).
  assert (E1 : outcome r1 = Returned (0, 1)) by (vm_compute; reflexivity).
  assert (E2 : outcome r2 = Returned (Mock.tracker w)) by (vm_compute; reflexivity).
  destruct (stale_issues_closed_once Mock.config w (Mock.findings w) (0, 1)
              (Mock.tracker w) E0 E1 E2) as (Hreq & Hclosed & _).
  split; [exact E0 |]. split; [exact E1 |]. split; [exact E2 |].
  fold r in Hreq, Hclosed. rewrite Hreq, Hclosed.
  split; vm_compute; reflexivity.
Defined.

(** C3, as stated for any pass, fails in preview mode: in Scenario B the
    open issue #2 yields the key [sonar-2], which no open Finding has, and
    the preview pass issues no close request at all. *)
Lemma stale_issue_preview_counterexample :
  In (Mock.item 2 (_create_github_issue_body (Mock.finding "sonar-2" "Unused variable" []))
        "open" None)
     (Mock.tracker Mock.scenario_b) /\
  stale (Mock.findings Mock.scenario_b)
    (Mock.item 2 (_create_github_issue_body (Mock.finding "sonar-2" "Unused variable" []))
       "open" None) = true /\
  close_requests (calls (SyncEngine.sync_sonar_to_github Mock.config true Mock.scenario_b))
  = [].
Proof.
  split; [right; left; reflexivity |].
  split; vm_compute; reflexivity.
Qed.

End ForwardPassWitness.

(** ** Reverse sync *)

Section ReversePass.
Context {W : Type} `{Collaborators W}.
Variable cfg : Config.

Local Abbreviation fetch := (GitHubClient.get_issues_with_label (github_repo cfg) "sonarcloud").

(** An issue that is open, or closed for another reason, or declined but
    without a key in its body: no call, no count, in either mode. *)
Lemma wont_fix_step_none (dry : bool) (marked : nat) (gi : GitHubIssue) (w : W) :
  declined_key gi = None ->
  SyncEngine.wont_fix_step dry marked gi w = MkRun (Returned marked) w [].
Proof.
  unfold declined_key, SyncEngine.wont_fix_step.
  destruct (String.eqb (state gi) "closed" && SyncEngine.is_not_planned (state_reason gi));
    [| reflexivity].
  now intros ->.
Qed.

Lemma wont_fix_step_preview (marked : nat) (gi : GitHubIssue) (w : W) (k : string) :
  declined_key gi = Some k ->
  SyncEngine.wont_fix_step true marked gi w = MkRun (Returned (S marked)) w [].
Proof.
  unfold declined_key, SyncEngine.wont_fix_step.
  destruct (String.eqb (state gi) "closed" && SyncEngine.is_not_planned (state_reason gi));
    [| discriminate].
  now intros ->.
Qed.

(** A declined issue with a key, in execution mode: one mark-won't-fix
    request for that key, never an exception, counted when it returned. *)
Lemma wont_fix_step_execute (marked : nat) (gi : GitHubIssue) (w : W) (k : string) :
  declined_key gi = Some k ->
  SyncEngine.wont_fix_step false marked gi w
  = MkRun (Returned (if has_returned (outcome (SonarClient.resolve_issue_as_wont_fix k w))
                     then S marked else marked))
      (world (SonarClient.resolve_issue_as_wont_fix k w))
      [CallResolveWontFix k [("issue", k); ("transition", "wontfix")]
         (outcome (SonarClient.resolve_issue_as_wont_fix k w))].
Proof.
  unfold declined_key, SyncEngine.wont_fix_step.
  destruct (String.eqb (state gi) "closed" && SyncEngine.is_not_planned (state_reason gi));
    [| discriminate].
  intros ->.
  pose proof (resolve_calls k w) as Hc.
  pose proof (resolve_returns_true k w) as Ht.
  unfold try_except, bind.
  destruct (outcome (SonarClient.resolve_issue_as_wont_fix k w)) as [b|e] eqn:E; simpl.
  - rewrite (Ht b eq_refl). unfold prepend, ret; simpl. rewrite ?E. simpl.
    rewrite Hc, ?app_nil_r. now rewrite (Ht b eq_refl).
  - unfold prepend, ret; simpl. now rewrite Hc, ?app_nil_r.
Qed.

Lemma wont_fix_loop_execute (gis : list GitHubIssue) (marked : nat) (w : W) :
  let r := for_each (SyncEngine.wont_fix_step false) gis marked w in
  wont_fix_requests (calls r) = omap declined_key gis /\
  outcome r = Returned (marked + marks_done (calls r)) /\
  forallb is_wont_fix (calls r) = true.
Proof.
  revert marked w. induction gis as [|gi gis IH]; intros marked w.
  - simpl. repeat split. f_equal. unfold marks_done. simpl. lia.
  - cbn zeta. rewrite for_each_cons. cbn [omap list_omap].
    destruct (declined_key gi) as [k|] eqn:Ek.
    + rewrite (bind_run _ _ _ _ _ _ (wont_fix_step_execute marked gi w k Ek)).
      destruct (IH (if has_returned (outcome (SonarClient.resolve_issue_as_wont_fix k w))
                    then S marked else marked)
                  (world (SonarClient.resolve_issue_as_wont_fix k w))) as (IH1 & IH2 & IH3).
      unfold prepend. cbn [calls outcome].
      split; [| split].
      * cbn [app wont_fix_requests]. now rewrite IH1.
      * rewrite IH2. f_equal.
        change (?x :: ?l) with ([x] ++ l)%list at 2. rewrite marks_done_app.
        unfold marks_done at 2. cbn [List.filter List.length].
        destruct (has_returned (outcome (SonarClient.resolve_issue_as_wont_fix k w)));
          simpl; lia.
      * cbn [app forallb is_wont_fix]. exact IH3.
    + rewrite (bind_run _ _ _ _ _ _ (wont_fix_step_none false marked gi w Ek)).
      rewrite prepend_nil. apply IH.
Qed.

Lemma wont_fix_loop_preview (gis : list GitHubIssue) (marked : nat) (w : W) :
  for_each (SyncEngine.wont_fix_step true) gis marked w
  = MkRun (Returned (marked + List.length (omap declined_key gis))) w [].
Proof.
  revert marked. induction gis as [|gi gis IH]; intros marked.
  - simpl. unfold ret. now rewrite Nat.add_0_r.
  - rewrite for_each_cons. cbn [omap list_omap].
    destruct (declined_key gi) as [k|] eqn:Ek.
    + rewrite (bind_run _ _ _ _ _ _ (wont_fix_step_preview marked gi w k Ek)).
      rewrite prepend_nil. fold (omap declined_key gis). rewrite IH. simpl.
      do 2 f_equal. lia.
    + rewrite (bind_run _ _ _ _ _ _ (wont_fix_step_none true marked gi w Ek)).
      rewrite prepend_nil. apply IH.
Qed.

(** C4 (amended: execution mode). In execution mode, reverse sync on the
    fetched labeled issues [gis] issues its mark-won't-fix requests for
    exactly the issues that are closed, with closure reason equal to
    ["not_planned"], and with a key in their body: one request each, for
    that key, in list order; the pass returns, and its counter is the number
    of requests that returned.  An issue that is open, or closed with any
    other reason, or declined without an extractable key makes its loop
    step do nothing: no call, no exception, same counter. *)
Theorem declined_issues_marked_once (w : W) (gis : list GitHubIssue) :
  let r := SyncEngine.sync_github_to_sonar cfg false w in
  outcome (fetch w) = Returned gis ->
  wont_fix_requests (calls r) = omap declined_key gis /\
  counter (outcome r) "marked_wont_fix" = Some (marks_done (calls r)) /\
  (forall gi,
      declined_key gi =
      if String.eqb (state gi) "closed" then
        match state_reason gi with
        | Some reason =>
            if String.eqb reason "not_planned"
            then _extract_sonar_issue_key (body gi) else None
        | None => None
        end
      else None) /\
  (forall gi marked w',
      declined_key gi = None ->
      SyncEngine.wont_fix_step false marked gi w' = MkRun (Returned marked) w' []) /\
  (forall gi marked w' k,
      declined_key gi = Some k ->
      exists a,
        calls (SyncEngine.wont_fix_step false marked gi w')
        = [CallResolveWontFix k [("issue", k); ("transition", "wontfix")] a] /\
        outcome (SyncEngine.wont_fix_step false marked gi w')
        = Returned (if has_returned a then S marked else marked)).
Proof.
  intros r E.
  pose proof (get_issues_with_label_calls (github_repo cfg) "sonarcloud" w) as Hf.
  destruct (wont_fix_loop_execute gis 0 (world (fetch w))) as (Hreq & Hout & _).
  unfold r, SyncEngine.sync_github_to_sonar.
  rewrite (bind_returned _ _ _ _ E), (bind_returned _ _ _ _ Hout).
  unfold prepend, ret, counter. cbn [calls outcome].
  rewrite app_nil_r.
  split; [| split; [| split; [| split]]].
  - rewrite wont_fix_requests_app, Hf, E. exact Hreq.
  - rewrite marks_done_app, Hf, E. now simplify_map_eq.
  - intros gi. unfold declined_key, SyncEngine.is_not_planned.
    destruct (String.eqb (state gi) "closed"); [| reflexivity].
    destruct (state_reason gi) as [reason|]; [| reflexivity].
    now destruct (String.eqb reason "not_planned").
  - intros gi marked w'. apply wont_fix_step_none.
  - intros gi marked w' k Hk. eexists.
    rewrite (wont_fix_step_execute marked gi w' k Hk). split; reflexivity.
Qed.

End ReversePass.

Section ReversePassWitness.

Lemma declined_issues_marked_once_witness :
  outcome (GitHubClient.get_issues_with_label "owner/repo" "sonarcloud" Mock.scenario_b)
  = Returned (Mock.tracker Mock.scenario_b) /\
  wont_fix_requests (calls (SyncEngine.sync_github_to_sonar Mock.config false Mock.scenario_b))
  = ["sonar-3"] /\
  counter (outcome (SyncEngine.sync_github_to_sonar Mock.config false Mock.scenario_b))
    "marked_wont_fix" = Some 1.
Proof.
  assert (E : outcome (GitHubClient.get_issues_with_label
                         (github_repo Mock.config) "sonarcloud" Mock.scenario_b)
              = Returned (Mock.tracker Mock.scenario_b)) by (vm_compute; reflexivity).
  destruct (declined_issues_marked_once Mock.config Mock.scenario_b
              (Mock.tracker Mock.scenario_b) E) as (Hreq & Hcount & _).
  split; [exact E |].
  cbv zeta in Hreq, Hcount. rewrite Hreq, Hcount.
  split; vm_compute; reflexivity.
Defined.

(** C4, as stated for any pass, fails in preview mode: in Scenario B issue
    #3 is closed as ["not_planned"] with the key [sonar-3] in its body, and
    the preview pass issues no mark-won't-fix request. *)
Lemma declined_issue_preview_counterexample :
  In (Mock.item 3 (_create_github_issue_body (Mock.finding "sonar-3" "Old smell" []))
        "closed" (Some "not_planned"))
     (Mock.tracker Mock.scenario_b) /\
  declined_key
    (Mock.item 3 (_create_github_issue_body (Mock.finding "sonar-3" "Old smell" []))
       "closed" (Some "not_planned")) = Some "sonar-3" /\
  wont_fix_requests (calls (SyncEngine.sync_github_to_sonar Mock.config true Mock.scenario_b))
  = [].
Proof.
  split; [left; reflexivity |].
  split; vm_compute; reflexivity.
Qed.

End ReversePassWitness.

(** ** The full pass *)

Section FullPass.
Context {W : Type} `{Collaborators W}.
Variable cfg : Config.

Lemma bind_returned_inv {A B} (m : M W A) (f : A -> M W B) (w : W) (b : B) :
  outcome (bind m f w) = Returned b ->
  exists a, outcome (m w) = Returned a /\ outcome (f a (world (m w))) = Returned b.
Proof.
  unfold bind. destruct (outcome (m w)) as [a|e]; simpl; [| discriminate].
  intros E. now exists a.
Qed.

(** The result map of forward sync has the three keys of its counters. *)
Lemma forward_result_keys (dry : bool) (w : W) (res : gmap string nat) :
  outcome (SyncEngine.sync_sonar_to_github cfg dry w) = Returned res ->
  dom res = {["created"; "skipped"; "closed"]}.
Proof.
  unfold SyncEngine.sync_sonar_to_github. intros E.
  apply bind_returned_inv in E as (sis & _ & E).
  apply bind_returned_inv in E as (counts & _ & E).
  apply bind_returned_inv in E as (gis & _ & E).
  apply bind_returned_inv in E as (closed & _ & E).
  injection E as <-. rewrite !dom_insert_L, dom_empty_L. set_solver.
Qed.

(** The result map of reverse sync has the key of its counter. *)
Lemma reverse_result_keys (dry : bool) (w : W) (res : gmap string nat) :
  outcome (SyncEngine.sync_github_to_sonar cfg dry w) = Returned res ->
  dom res = {["marked_wont_fix"]}.
Proof.
  unfold SyncEngine.sync_github_to_sonar. intros E.
  apply bind_returned_inv in E as (gis & _ & E).
  apply bind_returned_inv in E as (marked & _ & E).
  injection E as <-. rewrite !dom_insert_L, dom_empty_L. set_solver.
Qed.

Lemma validate_credentials_run (w : W) :
  let t1 := SonarClient.test_connection w in
  let t2 := GitHubClient.test_connection (github_repo cfg) (world t1) in
  (outcome t1 = Returned false ->
   SyncEngine.validate_credentials cfg w
   = MkRun (Raised InvalidSonarCredentials) (world t1) [CallSonarTestConnection false]) /\
  (outcome t1 = Returned true -> outcome t2 = Returned false ->
   SyncEngine.validate_credentials cfg w
   = MkRun (Raised InvalidGitHubCredentials) (world t2)
       [CallSonarTestConnection true; CallGitHubTestConnection (github_repo cfg) false]) /\
  (outcome t1 = Returned true -> outcome t2 = Returned true ->
   SyncEngine.validate_credentials cfg w
   = MkRun (Returned true) (world t2)
       [CallSonarTestConnection true; CallGitHubTestConnection (github_repo cfg) true]).
Proof.
  intros t1 t2.
  destruct (sonar_test_connection_run w) as [b1 E1]. fold t1 in E1.
  destruct (github_test_connection_run (github_repo cfg) (world t1)) as [b2 E2].
  fold t2 in E2.
  unfold SyncEngine.validate_credentials.
  repeat split.
  - intros Ht. rewrite E1 in Ht. injection Ht as ->.
    rewrite (bind_run _ _ _ _ _ _ E1). reflexivity.
  - intros Ht1 Ht2. rewrite E1 in Ht1. injection Ht1 as ->.
    rewrite E2 in Ht2. injection Ht2 as ->.
    rewrite (bind_run _ _ _ _ _ _ E1). cbn [negb].
    rewrite (bind_run _ _ _ _ _ _ E2). reflexivity.
  - intros Ht1 Ht2. rewrite E1 in Ht1. injection Ht1 as ->.
    rewrite E2 in Ht2. injection Ht2 as ->.
    rewrite (bind_run _ _ _ _ _ _ E1). cbn [negb].
    rewrite (bind_run _ _ _ _ _ _ E2). reflexivity.
Qed.

(** C8. A full pass checks the analysis service first, then the tracker.
    If the first check answers false the pass raises after that one call;
    if the second answers false it raises after the two checks: in both
    cases no fetch, create, close or mark-won't-fix call is made and no
    result is returned.  If both checks succeed the pass runs forward sync,
    then reverse sync from the world forward sync left, and returns the
    merge of their two result maps, whose key sets
    [{created, skipped, closed}] and [{marked_wont_fix}] are disjoint; an
    exception of either sync is the outcome of the pass. *)
Theorem full_pass_validates_first (dry : bool) (w : W) :
  let t1 := SonarClient.test_connection w in
  let t2 := GitHubClient.test_connection (github_repo cfg) (world t1) in
  let fwd := SyncEngine.sync_sonar_to_github cfg dry (world t2) in
  let rev := SyncEngine.sync_github_to_sonar cfg dry (world fwd) in
  let r := SyncEngine.full_sync cfg dry w in
  (outcome t1 = Returned false ->
   outcome r = Raised InvalidSonarCredentials /\
   calls r = [CallSonarTestConnection false]) /\
  (outcome t1 = Returned true -> outcome t2 = Returned false ->
   outcome r = Raised InvalidGitHubCredentials /\
   calls r = [CallSonarTestConnection true;
              CallGitHubTestConnection (github_repo cfg) false]) /\
  (outcome t1 = Returned true -> outcome t2 = Returned true ->
   (forall e, outcome fwd = Raised e ->
      outcome r = Raised e /\
      calls r = [CallSonarTestConnection true;
                 CallGitHubTestConnection (github_repo cfg) true] ++ calls fwd) /\
   (forall r1, outcome fwd = Returned r1 ->
      calls r = [CallSonarTestConnection true;
                 CallGitHubTestConnection (github_repo cfg) true]
                ++ calls fwd ++ calls rev /\
      (forall e, outcome rev = Raised e -> outcome r = Raised e) /\
      (forall r2, outcome rev = Returned r2 ->
         outcome r = Returned (r2 ∪ r1) /\
         dom r1 = {["created"; "skipped"; "closed"]} /\
         dom r2 = {["marked_wont_fix"]} /\
         dom r1 ## dom r2 /\
         dom (r2 ∪ r1) = {["created"; "skipped"; "closed"; "marked_wont_fix"]} /\
         (forall k, k <> "marked_wont_fix" -> (r2 ∪ r1) !! k = r1 !! k) /\
         (r2 ∪ r1) !! "marked_wont_fix" = r2 !! "marked_wont_fix"))).
Proof.
  intros t1 t2 fwd rev r.
  destruct (validate_credentials_run w) as (V1 & V2 & V3). fold t1 t2 in V1, V2, V3.
  unfold r, SyncEngine.full_sync.
  split; [| split].
  - intros Ht1. specialize (V1 Ht1).
    rewrite (bind_raised _ _ _ InvalidSonarCredentials) by now rewrite V1.
    rewrite V1. now split.
  - intros Ht1 Ht2. specialize (V2 Ht1 Ht2).
    rewrite (bind_raised _ _ _ InvalidGitHubCredentials) by now rewrite V2.
    rewrite V2. now split.
  - intros Ht1 Ht2. specialize (V3 Ht1 Ht2).
    rewrite (bind_run _ _ _ _ _ _ V3). fold fwd.
    split.
    + intros e Ef. rewrite (bind_raised _ _ _ _ Ef). now split.
    + intros r1 Ef. rewrite (bind_returned _ _ _ _ Ef). fold rev.
      split; [| split].
      * destruct (outcome rev) as [r2|e] eqn:Er.
        -- rewrite (bind_returned _ _ _ _ Er). unfold prepend, ret; simpl.
           now rewrite app_nil_r.
        -- rewrite (bind_raised _ _ _ _ Er). reflexivity.
      * intros e Er. now rewrite (bind_raised _ _ _ _ Er).
      * intros r2 Er. rewrite (bind_returned _ _ _ _ Er).
        pose proof (forward_result_keys dry _ _ Ef) as D1.
        pose proof (reverse_result_keys dry _ _ Er) as D2.
        split; [reflexivity |]. split; [exact D1 |]. split; [exact D2 |].
        split.
        { rewrite D1, D2. apply elem_of_disjoint. intros k Hk1 Hk2.
          rewrite elem_of_singleton in Hk2. subst k.
          rewrite !elem_of_union, !elem_of_singleton in Hk1.
          intuition discriminate. }
        split; [rewrite dom_union_L, D1, D2; clear; set_solver |].
        split.
        -- intros k Hk. apply lookup_union_r. apply not_elem_of_dom.
           rewrite D2. clear -Hk. set_solver.
        -- apply lookup_union_l. apply not_elem_of_dom. rewrite D1.
           rewrite !not_elem_of_union, !not_elem_of_singleton.
           repeat split; discriminate.
Qed.

End FullPass.

Section FullPassWitness.

Lemma full_pass_validates_first_witness :
  (outcome (SonarClient.test_connection Mock.scenario_sonar_down) = Returned false /\
   outcome (SyncEngine.full_sync Mock.config false Mock.scenario_sonar_down)
   = Raised InvalidSonarCredentials /\
   calls (SyncEngine.full_sync Mock.config false Mock.scenario_sonar_down)
   = [CallSonarTestConnection false]) /\
  (outcome (SonarClient.test_connection Mock.scenario_github_down) = Returned true /\
   outcome (GitHubClient.test_connection "owner/repo"
              (world (SonarClient.test_connection Mock.scenario_github_down)))
   = Returned false /\
   outcome (SyncEngine.full_sync Mock.config false Mock.scenario_github_down)
   = Raised InvalidGitHubCredentials /\
   calls (SyncEngine.full_sync Mock.config false Mock.scenario_github_down)
   = [CallSonarTestConnection true; CallGitHubTestConnection "owner/repo" false]) /\
  (outcome (SonarClient.test_connection Mock.scenario_b) = Returned true /\
   outcome (GitHubClient.test_connection "owner/repo"
              (world (SonarClient.test_connection Mock.scenario_b)))
   = Returned true /\
   counter (outcome (SyncEngine.full_sync Mock.config false Mock.scenario_b)) "created"
   = Some 0 /\
   counter (outcome (SyncEngine.full_sync Mock.config false Mock.scenario_b)) "skipped"
   = Some 1 /\
   counter (outcome (SyncEngine.full_sync Mock.config false Mock.scenario_b)) "closed"
   = Some 1 /\
   counter (outcome (SyncEngine.full_sync Mock.config false Mock.scenario_b))
     "marked_wont_fix" = Some 1).
Proof.
  split; [| split].
  - assert (E1 : outcome (SonarClient.test_connection Mock.scenario_sonar_down)
                 = Returned false) by (vm_compute; reflexivity).
    split; [exact E1 |].
    exact (proj1 (full_pass_validates_first Mock.config false Mock.scenario_sonar_down) E1).
  - assert (E1 : outcome (SonarClient.test_connection Mock.scenario_github_down)
                 = Returned true) by (vm_compute; reflexivity).
    assert (E2 : outcome (GitHubClient.test_connection (github_repo Mock.config)
                            (world (SonarClient.test_connection Mock.scenario_github_down)))
                 = Returned false) by (vm_compute; reflexivity).
    split; [exact E1 |]. split; [exact E2 |].
    exact (proj1 (proj2 (full_pass_validates_first
                           Mock.config false Mock.scenario_github_down)) E1 E2).
  - assert (E1 : outcome (SonarClient.test_connection Mock.scenario_b)
                 = Returned true) by (vm_compute; reflexivity).
    assert (E2 : outcome (GitHubClient.test_connection (github_repo Mock.config)
                            (world (SonarClient.test_connection Mock.scenario_b)))
                 = Returned true) by (vm_compute; reflexivity).
    split; [exact E1 |]. split; [exact E2 |].
    destruct (proj2 (proj2 (full_pass_validates_first Mock.config false Mock.scenario_b))
                E1 E2) as [_ Hret].
    repeat split; vm_compute; reflexivity.
Defined.

End FullPassWitness.

(** ** A create request that fails *)

Section FailedCreate.
Context {W : Type} `{Collaborators W}.
Variable cfg : Config.

Local Abbreviation fetch := (GitHubClient.get_issues_with_label (github_repo cfg) "sonarcloud").
Local Abbreviation findings :=
  (SonarClient.get_issues (sonar_project_key cfg) (issue_types cfg)).
Local Abbreviation create f :=
  (GitHubClient.create_issue (github_repo cfg) (message f)
     (_create_github_issue_body f) ("sonarcloud" :: tags f)).

(** Forward sync is its fetch of the Findings, then [forward_from] the
    start of the list. *)
Lemma forward_pass_from_start (dry : bool) (w : W) :
  SyncEngine.sync_sonar_to_github cfg dry w
  = bind findings (fun sis => forward_from cfg dry sis sis (0, 0)) w.
Proof. reflexivity. Qed.

Lemma forward_from_app (dry : bool) (sis pre post : list SonarIssue)
  (counts : nat * nat) (w : W) :
  forward_from cfg dry sis (pre ++ post) counts w
  = bind (for_each (SyncEngine.create_step cfg dry) pre counts)
      (forward_from cfg dry sis post) w.
Proof.
  unfold forward_from.
  rewrite <- bind_assoc. unfold bind at 1 3.
  now rewrite for_each_app.
Qed.

Lemma forward_from_cons (dry : bool) (sis post : list SonarIssue) (f : SonarIssue)
  (counts : nat * nat) (w : W) :
  forward_from cfg dry sis (f :: post) counts w
  = bind (SyncEngine.create_step cfg dry counts f) (forward_from cfg dry sis post) w.
Proof.
  unfold forward_from. rewrite <- bind_assoc. unfold bind at 1 3.
  now rewrite for_each_cons.
Qed.

(** C7. In execution mode, let the create request for the Finding [f] of
    the fetched list [pre ++ f :: post] raise.  The step of [f] returns,
    after its fetch and its failed request, with the created and skipped
    counters it was given; and the pass goes on from there exactly as
    forward sync does from the Finding after [f] with those counters: the
    remaining Findings, the closure loop against the whole list of open
    Findings, and the result map. *)
Theorem failed_create_is_swallowed (w : W) (pre post : list SonarIssue)
  (f : SonarIssue) (c s : nat) (items : list GitHubIssue) (e : Error) :
  let sis := pre ++ f :: post in
  let r0 := findings w in
  let r1 := for_each (SyncEngine.create_step cfg false) pre (0, 0) (world r0) in
  let r2 := fetch (world r1) in
  let r3 := create f (world r2) in
  let failed :=
    [CallGetIssuesWithLabel (github_repo cfg) "sonarcloud" (Returned items);
     CallCreateIssue (github_repo cfg) (message f) (_create_github_issue_body f)
       ("sonarcloud" :: tags f) (Raised e)] in
  outcome r0 = Returned sis ->
  outcome r1 = Returned (c, s) ->
  outcome r2 = Returned items ->
  linked (url f) items = false ->
  outcome r3 = Raised e ->
  SyncEngine.create_step cfg false (c, s) f (world r1)
  = MkRun (Returned (c, s)) (world r3) failed /\
  for_each (SyncEngine.create_step cfg false) (f :: post) (c, s) (world r1)
  = prepend failed (for_each (SyncEngine.create_step cfg false) post (c, s) (world r3)) /\
  SyncEngine.sync_sonar_to_github cfg false w
  = prepend (calls r0 ++ calls r1 ++ failed)
      (forward_from cfg false sis post (c, s) (world r3)).
Proof.
  intros sis r0 r1 r2 r3 failed E0 E1 E2 Hl E3.
  assert (Hstep : SyncEngine.create_step cfg false (c, s) f (world r1)
                  = MkRun (Returned (c, s)) (world r3) failed).
  { pose proof (get_issues_with_label_calls (github_repo cfg) "sonarcloud" (world r1))
      as C2.
    pose proof (create_issue_calls (github_repo cfg) (message f)
                  (_create_github_issue_body f) ("sonarcloud" :: tags f) (world r2)) as C3.
    fold r2 in C2. fold r3 in C3. rewrite E2 in C2. rewrite E3 in C3.
    rewrite (create_step_execute cfg c s f (world r1) items E2 Hl). fold r2 r3.
    rewrite E3, C2, C3. reflexivity. }
  split; [exact Hstep |]. split.
  - rewrite for_each_cons. now rewrite (bind_run _ _ _ _ _ _ Hstep).
  - rewrite forward_pass_from_start.
    rewrite (bind_returned _ _ _ _ E0). fold r0.
    unfold sis at 2. rewrite forward_from_app. fold r1.
    rewrite (bind_returned _ _ _ _ E1). fold r1.
    rewrite forward_from_cons, (bind_run _ _ _ _ _ _ Hstep).
    now rewrite !prepend_prepend, <- !app_assoc.
Qed.

End FailedCreate.

Section FailedCreateWitness.

Lemma failed_create_is_swallowed_witness :
  let w := Mock.scenario_refusal in
  let f := Mock.finding "sonar-1" "Null dereference" ["security"] in
  let post := [Mock.finding "sonar-2" "Unused variable" []] in
  let e := FailedCreateGitHubIssue "422 Unprocessable Entity" in
  let r0 := SonarClient.get_issues "test-project" ["BUG"; "VULNERABILITY"; "CODE_SMELL"] w in
  let r1 := for_each (SyncEngine.create_step Mock.config false) [] (0, 0) (world r0) in
  let r2 := GitHubClient.get_issues_with_label "owner/repo" "sonarcloud" (world r1) in
  let r3 := GitHubClient.create_issue "owner/repo" (message f)
              (_create_github_issue_body f) ("sonarcloud" :: tags f) (world r2) in
  outcome r0 = Returned ([] ++ f :: post) /\
  outcome r1 = Returned (0, 0) /\
  outcome r2 = Returned [] /\
  linked (url f) [] = false /\
  outcome r3 = Raised e /\
  outcome (SyncEngine.create_step Mock.config false (0, 0) f (world r1)) = Returned (0, 0) /\
  counter (outcome (SyncEngine.sync_sonar_to_github Mock.config false w)) "created" = Some 1 /\
  counter (outcome (SyncEngine.sync_sonar_to_github Mock.config false w)) "skipped" = Some 0.
Proof.
  intros w f post e r0 r1 r2 r3.
  assert (E0 : outcome r0 = Returned ([] ++ f :: post)) by (vm_compute; reflexivity).
  assert (E1 : outcome r1 = Returned (0, 0)) by (vm_compute; reflexivity).
  assert (E2 : outcome r2 = Returned []) by (vm_compute; reflexivity).
  assert (Hl : linked (url f) [] = false) by reflexivity.
  assert (E3 : outcome r3 = Raised e) by (vm_compute; reflexivity).
  destruct (failed_create_is_swallowed Mock.config w [] post f 0 0 [] e E0 E1 E2 Hl E3)
    as (Hstep & _ & Hpass).
  split; [exact E0 |]. split; [exact E1 |]. split; [exact E2 |].
  split; [exact Hl |]. split; [exact E3 |].
  split; [exact (f_equal outcome Hstep) |].
  split.
  - etransitivity;
      [exact (f_equal (fun r => counter (outcome r) "created") Hpass) |].
    vm_compute; reflexivity.
  - etransitivity;
      [exact (f_equal (fun r => counter (outcome r) "skipped") Hpass) |].
    vm_compute; reflexivity.
Defined.

End FailedCreateWitness.

(** ** Preview mode against execution mode *)

Section Preview.
Context {W : Type} `{Collaborators W}.
Variable cfg : Config.

Local Abbreviation fetch := (GitHubClient.get_issues_with_label (github_repo cfg) "sonarcloud").
Local Abbreviation findings :=
  (SonarClient.get_issues (sonar_project_key cfg) (issue_types cfg)).

Lemma reads_app (a b : list Call) : reads (a ++ b) = reads a ++ reads b.
Proof. apply List.filter_app. Qed.

Lemma bind_calls {A B} (m : M W A) (f : A -> M W B) (w : W) :
  calls (bind m f w)
  = calls (m w) ++ match outcome (m w) with
                   | Returned a => calls (f a (world (m w)))
                   | Raised _ => []
                   end.
Proof.
  unfold bind. destruct (outcome (m w)); simpl; [reflexivity | now rewrite app_nil_r].
Qed.

Lemma bind_outcome {A B} (m : M W A) (f : A -> M W B) (w : W) :
  outcome (bind m f w)
  = match outcome (m w) with
    | Returned a => outcome (f a (world (m w)))
    | Raised e => Raised e
    end.
Proof. unfold bind. now destruct (outcome (m w)). Qed.

Lemma same_decisions_ret {A} (a : A) : same_decisions (ret (W:=W) a) (ret a).
Proof. intros we wp X Y Hr _. now split. Qed.

Lemma same_decisions_raise {A} (e : Error) :
  same_decisions (raise (W:=W) (A:=A) e) (raise e).
Proof. intros we wp X Y Hr _. now split. Qed.

Lemma same_decisions_bind {A B} (m m' : M W A) (f f' : A -> M W B) :
  same_decisions m m' ->
  (forall a, same_decisions (f a) (f' a)) ->
  same_decisions (bind m f) (bind m' f').
Proof.
  intros Hm Hf we wp X Y Hr Hs.
  rewrite !bind_calls in Hr. rewrite bind_calls in Hs. rewrite !bind_outcome.
  rewrite <- !app_assoc in Hr. rewrite forallb_app in Hs.
  apply andb_true_iff in Hs as [Hs1 Hs2].
  destruct (Hm we wp _ _ Hr Hs1) as [Ho Hrest].
  rewrite <- Ho in *.
  destruct (outcome (m we)) as [a|e].
  - exact (Hf a _ _ X Y Hrest Hs2).
  - now split.
Qed.

Lemma same_decisions_for_each {A S} (step step' : S -> A -> M W S) (l : list A) :
  (forall acc x, same_decisions (step acc x) (step' acc x)) ->
  forall acc, same_decisions (for_each step l acc) (for_each step' l acc).
Proof.
  intros Hs. induction l as [|x l IH]; intros acc.
  - apply same_decisions_ret.
  - simpl. apply same_decisions_bind; [apply Hs | exact IH].
Qed.

(** A check or a fetch answers the same in both runs. *)
Lemma same_decisions_fetch (repo label : string) :
  same_decisions (GitHubClient.get_issues_with_label repo label)
    (GitHubClient.get_issues_with_label repo label).
Proof.
  intros we wp X Y Hr _. rewrite !get_issues_with_label_calls in Hr.
  simpl in Hr. injection Hr as Ho Hrest. now split.
Qed.

Lemma same_decisions_findings (project_key : string) (types : list string) :
  same_decisions (SonarClient.get_issues project_key types)
    (SonarClient.get_issues project_key types).
Proof.
  intros we wp X Y Hr _.
  destruct (get_issues_calls project_key types we) as [t1 E1].
  destruct (get_issues_calls project_key types wp) as [t2 E2].
  rewrite E1, E2 in Hr. simpl in Hr. injection Hr as _ Ho Hrest. now split.
Qed.

Lemma same_decisions_sonar_test :
  same_decisions (SonarClient.test_connection (W:=W)) SonarClient.test_connection.
Proof.
  intros we wp X Y Hr _.
  destruct (sonar_test_connection_run we) as [b1 E1].
  destruct (sonar_test_connection_run wp) as [b2 E2].
  rewrite E1, E2 in *. simpl in *. injection Hr as -> Hrest. now split.
Qed.

Lemma same_decisions_github_test (repo : string) :
  same_decisions (GitHubClient.test_connection repo) (GitHubClient.test_connection repo).
Proof.
  intros we wp X Y Hr _.
  destruct (github_test_connection_run repo we) as [b1 E1].
  destruct (github_test_connection_run repo wp) as [b2 E2].
  rewrite E1, E2 in *. simpl in *. injection Hr as -> Hrest. now split.
Qed.

Lemma same_decisions_validate :
  same_decisions (SyncEngine.validate_credentials cfg) (SyncEngine.validate_credentials cfg).
Proof.
  unfold SyncEngine.validate_credentials.
  apply same_decisions_bind; [apply same_decisions_sonar_test |].
  intros [|]; cbn [negb]; [| apply same_decisions_raise].
  apply same_decisions_bind; [apply same_decisions_github_test |].
  intros [|]; cbn [negb]; [apply same_decisions_ret | apply same_decisions_raise].
Qed.

End Preview.

Section PreviewPasses.
Context {W : Type} `{Collaborators W}.
Variable cfg : Config.

Local Abbreviation fetch := (GitHubClient.get_issues_with_label (github_repo cfg) "sonarcloud").

Lemma same_decisions_create_step (counts : nat * nat) (f : SonarIssue) :
  same_decisions (SyncEngine.create_step cfg false counts f)
    (SyncEngine.create_step cfg true counts f).
Proof.
  destruct counts as [c s]. intros we wp X Y Hr Hs.
  pose proof (get_issues_with_label_calls (github_repo cfg) "sonarcloud" we) as Ce.
  pose proof (get_issues_with_label_calls (github_repo cfg) "sonarcloud" wp) as Cp.
  assert (Hsame : outcome (fetch we) = outcome (fetch wp) /\
                  reads (match outcome (fetch we) with
                         | Returned items =>
                             if linked (url f) items then []
                             else calls (GitHubClient.create_issue (github_repo cfg)
                                           (message f) (_create_github_issue_body f)
                                           ("sonarcloud" :: tags f) (world (fetch we)))
                         | Raised _ => []
                         end ++ X) = reads Y).
  { destruct (outcome (fetch we)) as [ie|ee] eqn:Ee;
      destruct (outcome (fetch wp)) as [ip|ep] eqn:Ep.
    - destruct (linked (url f) ie) eqn:Le; destruct (linked (url f) ip) eqn:Lp;
        first [ rewrite (create_step_skip cfg false c s f we ie Ee Le) in Hr
              | rewrite (create_step_execute cfg c s f we ie Ee Le) in Hr ];
        first [ rewrite (create_step_skip cfg true c s f wp ip Ep Lp) in Hr
              | rewrite (create_step_preview cfg c s f wp ip Ep Lp) in Hr ];
        cbn [calls] in Hr; rewrite ?Ce, ?Cp, ?Ee, ?Ep in Hr;
        rewrite <- ?app_assoc in Hr; simpl in Hr;
        injection Hr as Hi Hrest; subst; split; try reflexivity; exact Hrest.
    - destruct (linked (url f) ie) eqn:Le;
        first [ rewrite (create_step_skip cfg false c s f we ie Ee Le) in Hr
              | rewrite (create_step_execute cfg c s f we ie Ee Le) in Hr ];
        rewrite (create_step_fetch_raised cfg true c s f wp ep Ep) in Hr;
        cbn [calls] in Hr; rewrite ?Ce, ?Cp, ?Ee, ?Ep in Hr;
        rewrite <- ?app_assoc in Hr; simpl in Hr; discriminate Hr.
    - rewrite (create_step_fetch_raised cfg false c s f we ee Ee) in Hr.
      destruct (linked (url f) ip) eqn:Lp;
        first [ rewrite (create_step_skip cfg true c s f wp ip Ep Lp) in Hr
              | rewrite (create_step_preview cfg c s f wp ip Ep Lp) in Hr ];
        cbn [calls] in Hr; rewrite ?Ce, ?Cp, ?Ee, ?Ep in Hr;
        simpl in Hr; discriminate Hr.
    - rewrite (create_step_fetch_raised cfg false c s f we ee Ee) in Hr.
      rewrite (create_step_fetch_raised cfg true c s f wp ep Ep) in Hr.
      cbn [calls] in Hr; rewrite ?Ce, ?Cp, ?Ee, ?Ep in Hr. simpl in Hr.
      injection Hr as He Hrest. subst. now split. }
  destruct Hsame as [Ho Hrest].
  destruct (outcome (fetch we)) as [ie|ee] eqn:Ee; symmetry in Ho.
  - destruct (linked (url f) ie) eqn:Le.
    + rewrite (create_step_skip cfg false c s f we ie Ee Le).
      rewrite (create_step_skip cfg true c s f wp ie Ho Le). now split.
    + rewrite (create_step_execute cfg c s f we ie Ee Le) in Hs |- *.
      rewrite (create_step_preview cfg c s f wp ie Ho Le).
      cbn [calls outcome] in Hs |- *.
      rewrite forallb_app in Hs. apply andb_true_iff in Hs as [_ Hs].
      rewrite create_issue_calls in Hs, Hrest. simpl in Hs, Hrest.
      rewrite andb_true_r in Hs. rewrite Hs. now split.
  - rewrite (create_step_fetch_raised cfg false c s f we ee Ee).
    rewrite (create_step_fetch_raised cfg true c s f wp ee Ho). now split.
Qed.

Lemma same_decisions_close_step (sis : list SonarIssue) (closed : nat) (gi : GitHubIssue) :
  same_decisions (SyncEngine.close_step cfg false sis closed gi)
    (SyncEngine.close_step cfg true sis closed gi).
Proof.
  intros we wp X Y Hr Hs. destruct (stale sis gi) eqn:Est.
  - rewrite (close_step_execute cfg sis closed gi we Est) in Hr, Hs |- *.
    rewrite (close_step_preview cfg sis closed gi wp Est) in Hr |- *.
    simpl in Hr, Hs |- *. rewrite andb_true_r in Hs. rewrite Hs. now split.
  - rewrite (close_step_not_stale cfg false sis closed gi we Est) in Hr |- *.
    rewrite (close_step_not_stale cfg true sis closed gi wp Est) in Hr |- *.
    now split.
Qed.

Lemma same_decisions_wont_fix_step (marked : nat) (gi : GitHubIssue) :
  same_decisions (SyncEngine.wont_fix_step false marked gi)
    (SyncEngine.wont_fix_step true marked gi).
Proof.
  intros we wp X Y Hr Hs. destruct (declined_key gi) as [k|] eqn:Ek.
  - rewrite (wont_fix_step_execute marked gi we k Ek) in Hr, Hs |- *.
    rewrite (wont_fix_step_preview marked gi wp k Ek) in Hr |- *.
    simpl in Hr, Hs |- *. rewrite andb_true_r in Hs.
    destruct (outcome (SonarClient.resolve_issue_as_wont_fix k we)) as [[|]|e];
      try discriminate Hs. now split.
  - rewrite (wont_fix_step_none false marked gi we Ek) in Hr |- *.
    rewrite (wont_fix_step_none true marked gi wp Ek) in Hr |- *.
    now split.
Qed.

Lemma same_decisions_forward :
  same_decisions (SyncEngine.sync_sonar_to_github cfg false)
    (SyncEngine.sync_sonar_to_github cfg true).
Proof.
  unfold SyncEngine.sync_sonar_to_github.
  apply same_decisions_bind; [apply same_decisions_findings | intros sis].
  apply same_decisions_bind;
    [apply same_decisions_for_each, same_decisions_create_step | intros counts].
  apply same_decisions_bind; [apply same_decisions_fetch | intros gis].
  apply same_decisions_bind;
    [apply same_decisions_for_each, same_decisions_close_step | intros closed].
  apply same_decisions_ret.
Qed.

Lemma same_decisions_reverse :
  same_decisions (SyncEngine.sync_github_to_sonar cfg false)
    (SyncEngine.sync_github_to_sonar cfg true).
Proof.
  unfold SyncEngine.sync_github_to_sonar.
  apply same_decisions_bind; [apply same_decisions_fetch | intros gis].
  apply same_decisions_bind;
    [apply same_decisions_for_each, same_decisions_wont_fix_step | intros marked].
  apply same_decisions_ret.
Qed.

Lemma same_decisions_full :
  same_decisions (SyncEngine.full_sync cfg false) (SyncEngine.full_sync cfg true).
Proof.
  unfold SyncEngine.full_sync.
  apply same_decisions_bind; [apply same_decisions_validate | intros _].
  apply same_decisions_bind; [apply same_decisions_forward | intros r1].
  apply same_decisions_bind; [apply same_decisions_reverse | intros r2].
  apply same_decisions_ret.
Qed.

(** A preview pass makes no create, close or mark-won't-fix call. *)
Lemma preview_only_reads :
  only (fun c => negb (is_mutating c)) (SyncEngine.full_sync cfg true).
Proof.
  assert (Hfetch : forall repo label,
             only (fun c => negb (is_mutating c))
               (GitHubClient.get_issues_with_label repo label)).
  { intros repo label w. now rewrite get_issues_with_label_calls. }
  unfold SyncEngine.full_sync. apply only_bind.
  - unfold SyncEngine.validate_credentials. apply only_bind.
    + intros w. destruct (sonar_test_connection_run w) as [b ->]. reflexivity.
    + intros [|]; cbn [negb]; [| apply only_raise]. apply only_bind.
      * intros w. destruct (github_test_connection_run (github_repo cfg) w) as [b ->].
        reflexivity.
      * intros [|]; cbn [negb]; [apply only_ret | apply only_raise].
  - intros _. apply only_bind; [| intros r1; apply only_bind].
    + unfold SyncEngine.sync_sonar_to_github. apply only_bind.
      * intros w. destruct (get_issues_calls (sonar_project_key cfg) (issue_types cfg) w)
          as [t ->]. reflexivity.
      * intros sis. apply only_bind; [| intros counts; apply only_bind].
        -- apply only_for_each. intros [c s] f. unfold SyncEngine.create_step.
           apply only_bind.
           ++ unfold GitHubClient.issue_exists_with_sonar_link.
              apply only_bind; [apply Hfetch | intros a; apply only_ret].
           ++ intros [gi|]; apply only_ret.
        -- apply Hfetch.
        -- intros gis. apply only_bind; [| intros closed; apply only_ret].
           intros w. now rewrite close_loop_preview.
    + unfold SyncEngine.sync_github_to_sonar.
      apply only_bind; [apply Hfetch | intros gis].
      apply only_bind; [| intros marked; apply only_ret].
      intros w. now rewrite wont_fix_loop_preview.
    + intros r2. apply only_ret.
Qed.

(** C5 (amended). Whatever the collaborators answer, a pass run in preview
    mode makes no create, close or mark-won't-fix call.  It returns the same
    counters as a pass run in execution mode (or raises the same exception)
    whenever the two passes got the same answers to their connection checks
    and fetches and every create, close and mark-won't-fix call of the
    execution-mode pass succeeded. *)
Theorem preview_mode_purity (w_preview w_execute : W) :
  mutations (calls (SyncEngine.full_sync cfg true w_preview)) = [] /\
  (reads (calls (SyncEngine.full_sync cfg false w_execute))
   = reads (calls (SyncEngine.full_sync cfg true w_preview)) ->
   forallb succeeded (calls (SyncEngine.full_sync cfg false w_execute)) = true ->
   outcome (SyncEngine.full_sync cfg false w_execute)
   = outcome (SyncEngine.full_sync cfg true w_preview)).
Proof.
  split.
  - apply no_mutations, preview_only_reads.
  - intros Hr Hs.
    apply (same_decisions_full w_execute w_preview [] []); [| exact Hs].
    now rewrite !app_nil_r.
Qed.

End PreviewPasses.

Section PreviewWitness.

Lemma preview_mode_purity_witness :
  reads (calls (SyncEngine.full_sync Mock.config false Mock.scenario_declined))
  = reads (calls (SyncEngine.full_sync Mock.config true Mock.scenario_declined)) /\
  forallb succeeded (calls (SyncEngine.full_sync Mock.config false Mock.scenario_declined))
  = true /\
  wont_fix_requests (calls (SyncEngine.full_sync Mock.config false Mock.scenario_declined))
  = ["sonar-3"] /\
  mutations (calls (SyncEngine.full_sync Mock.config true Mock.scenario_declined)) = [] /\
  outcome (SyncEngine.full_sync Mock.config false Mock.scenario_declined)
  = outcome (SyncEngine.full_sync Mock.config true Mock.scenario_declined).
Proof.
  assert (Hr : reads (calls (SyncEngine.full_sync Mock.config false Mock.scenario_declined))
               = reads (calls (SyncEngine.full_sync Mock.config true Mock.scenario_declined)))
    by (vm_compute; reflexivity).
  assert (Hs : forallb succeeded
                 (calls (SyncEngine.full_sync Mock.config false Mock.scenario_declined))
               = true) by (vm_compute; reflexivity).
  split; [exact Hr |]. split; [exact Hs |].
  split; [vm_compute; reflexivity |].
  split.
  - exact (proj1 (preview_mode_purity Mock.config
                    Mock.scenario_declined Mock.scenario_declined)).
  - exact (proj2 (preview_mode_purity Mock.config
                    Mock.scenario_declined Mock.scenario_declined) Hr Hs).
Defined.

(** C5, as stated for every scenario, fails where a mutating call fails: on
    a tracker that refuses the title of [sonar-1], the preview pass counts
    two created issues and the execution-mode pass one. *)
Lemma preview_counters_counterexample :
  counter (outcome (SyncEngine.full_sync Mock.config true Mock.scenario_refusal)) "created"
  = Some 2 /\
  counter (outcome (SyncEngine.full_sync Mock.config false Mock.scenario_refusal)) "created"
  = Some 1 /\
  outcome (SyncEngine.full_sync Mock.config true Mock.scenario_refusal)
  <> outcome (SyncEngine.full_sync Mock.config false Mock.scenario_refusal).
Proof.
  assert (Hp : counter (outcome (SyncEngine.full_sync Mock.config true Mock.scenario_refusal))
                 "created" = Some 2) by (vm_compute; reflexivity).
  assert (He : counter (outcome (SyncEngine.full_sync Mock.config false Mock.scenario_refusal))
                 "created" = Some 1) by (vm_compute; reflexivity).
  split; [exact Hp |]. split; [exact He |].
  intros Heq. rewrite Heq in Hp. rewrite Hp in He. discriminate He.
Qed.

End PreviewWitness.

(** ** The close request and the closure reason *)

Section CloseRequest.
Context {W : Type} `{Collaborators W}.
Variable cfg : Config.

Ltac only_step :=
  match goal with
  | |- only _ (ret _) => apply only_ret
  | |- only _ (raise _) => apply only_raise
  | |- only _ (bind _ _) => apply only_bind
  | |- only _ (try_except _ _) => apply only_try_except
  | |- only _ (for_each _ _ _) => apply only_for_each
  | |- forall _, _ => intro
  | |- only _ (if ?b then _ else _) => destruct b
  | |- only _ (match ?x with _ => _ end) => destruct x
  end.

(** Every close call the engine makes, in any pass and either mode,
    carries the payload [{"state": "closed"}]. *)
Lemma engine_sends_state_only (dry : bool) :
  only sends_state_only (SyncEngine.full_sync cfg dry).
Proof.
  assert (Hfetch : forall repo label,
             only sends_state_only (GitHubClient.get_issues_with_label repo label)).
  { intros repo label w. now rewrite get_issues_with_label_calls. }
  assert (Hcreate : forall repo t b ls,
             only sends_state_only (GitHubClient.create_issue repo t b ls)).
  { intros repo t b ls w. now rewrite create_issue_calls. }
  assert (Hclose : forall repo n, only sends_state_only (GitHubClient.close_issue repo n)).
  { intros repo n w. now rewrite close_issue_calls. }
  assert (Hresolve : forall k, only sends_state_only (SonarClient.resolve_issue_as_wont_fix k)).
  { intros k w. now rewrite resolve_calls. }
  assert (Hfind : forall pk ts, only sends_state_only (SonarClient.get_issues pk ts)).
  { intros pk ts w. destruct (get_issues_calls pk ts w) as [t ->]. reflexivity. }
  assert (Ht1 : only sends_state_only (SonarClient.test_connection (W:=W))).
  { intros w. destruct (sonar_test_connection_run w) as [b ->]. reflexivity. }
  assert (Ht2 : forall repo, only sends_state_only (GitHubClient.test_connection repo)).
  { intros repo w. destruct (github_test_connection_run repo w) as [b ->]. reflexivity. }
  unfold SyncEngine.full_sync, SyncEngine.validate_credentials,
    SyncEngine.sync_sonar_to_github, SyncEngine.sync_github_to_sonar,
    SyncEngine.create_step, SyncEngine.close_step, SyncEngine.wont_fix_step,
    GitHubClient.issue_exists_with_sonar_link.
  repeat first [ apply Hfetch | apply Hcreate | apply Hclose | apply Hresolve
               | apply Hfind | apply Ht1 | apply Ht2 | only_step ].
Qed.

(** C10 (amended: the reason the issue had decides).  A close call the
    engine makes carries the state field alone, [{"state": "closed"}], and
    no closure reason.  So, on a tracker where the closure reason of an
    issue changes only when a request sets it, the issue keeps the reason it
    had.  An issue that did not carry ["not_planned"] is, once closed by
    the engine, not a declined issue for reverse sync: its step there makes
    no mark-won't-fix call and counts nothing, in any later pass.  An issue
    that carried ["not_planned"] while open still carries it once closed,
    and is then a declined issue for reverse sync whenever its body yields
    a key. *)
Theorem close_request_sets_no_reason (dry : bool) (w : W)
  (repo : string) (n : Z) (data : list (string * string)) (a : Outcome bool) :
  In (CallCloseIssue repo n data a) (calls (SyncEngine.full_sync cfg dry w)) ->
  data = [("state", "closed")] /\
  assoc "state_reason" data = None /\
  forall (patch : list (string * string) -> GitHubIssue -> GitHubIssue) (gi : GitHubIssue),
    reason_changes_only_when_set patch ->
    state_reason (patch data gi) = state_reason gi /\
    (SyncEngine.is_not_planned (state_reason gi) = false ->
     declined_key (patch data gi) = None /\
     forall (dry' : bool) (marked : nat) (w' : W),
       SyncEngine.wont_fix_step dry' marked (patch data gi) w'
       = MkRun (Returned marked) w' []) /\
    (SyncEngine.is_not_planned (state_reason gi) = true ->
     state (patch data gi) = "closed" ->
     declined_key (patch data gi) = _extract_sonar_issue_key (body (patch data gi))).
Proof.
  intros Hin.
  pose proof (engine_sends_state_only dry w) as Hall.
  rewrite forallb_forall in Hall. specialize (Hall _ Hin). simpl in Hall.
  apply bool_decide_eq_true in Hall. subst data.
  split; [reflexivity |]. split; [reflexivity |].
  intros patch gi Hlaw.
  assert (Hkeep : state_reason (patch [("state", "closed")] gi) = state_reason gi)
    by now apply Hlaw.
  split; [exact Hkeep |]. split.
  - intros Hnp.
    assert (Hd : declined_key (patch [("state", "closed")] gi) = None).
    { unfold declined_key. rewrite Hkeep, Hnp. now rewrite andb_false_r. }
    split; [exact Hd |].
    intros dry' marked w'. now apply wont_fix_step_none.
  - intros Hnp Hst. unfold declined_key. rewrite Hkeep, Hnp, Hst. reflexivity.
Qed.

End CloseRequest.

Section CloseRequestWitness.

Lemma mock_patch_keeps_reason : reason_changes_only_when_set Mock.patch.
Proof. intros data gi E. unfold Mock.patch. simpl. now rewrite E. Qed.

Lemma close_request_sets_no_reason_witness :
  In (CallCloseIssue "owner/repo" 2 [("state", "closed")] (Returned true))
     (calls (SyncEngine.full_sync Mock.config false Mock.scenario_b)) /\
  reason_changes_only_when_set Mock.patch /\
  SyncEngine.is_not_planned
    (state_reason (Mock.item 2 (_create_github_issue_body
                                  (Mock.finding "sonar-2" "Unused variable" []))
                     "open" None)) = false /\
  declined_key
    (Mock.patch [("state", "closed")]
       (Mock.item 2 (_create_github_issue_body (Mock.finding "sonar-2" "Unused variable" []))
          "open" None)) = None.
Proof.
  assert (Hin : In (CallCloseIssue "owner/repo" 2 [("state", "closed")] (Returned true))
                  (calls (SyncEngine.full_sync Mock.config false Mock.scenario_b))).
  { vm_compute. do 5 right. left. reflexivity. }
  split; [exact Hin |]. split; [exact mock_patch_keeps_reason |].
  split; [reflexivity |].
  destruct (close_request_sets_no_reason Mock.config false Mock.scenario_b
              "owner/repo" 2 [("state", "closed")] (Returned true) Hin)
    as (_ & _ & Hpatch).
  destruct (Hpatch Mock.patch
              (Mock.item 2 (_create_github_issue_body
                              (Mock.finding "sonar-2" "Unused variable" []))
                 "open" None) mock_patch_keeps_reason) as (_ & Hrev & _).
  exact (proj1 (Hrev eq_refl)).
Defined.

(** C10, as stated for every issue closed by forward sync, fails for an
    open issue that carries ["not_planned"]: on the reference tracker,
    where the reason changes only when set, a full pass in execution mode
    closes the stale issue #2 with [{"state": "closed"}]; the closed issue
    still carries ["not_planned"], is a declined issue for reverse sync,
    and the same pass asks for [sonar-2] to be marked won't-fix. *)
Lemma closed_issue_marked_counterexample :
  let gi := Mock.item 2 (_create_github_issue_body
                           (Mock.finding "sonar-2" "Unused variable" []))
              "open" (Some "not_planned") in
  let r := SyncEngine.full_sync Mock.config false Mock.scenario_reopened in
  reason_changes_only_when_set Mock.patch /\
  In gi (Mock.tracker Mock.scenario_reopened) /\
  stale (Mock.findings Mock.scenario_reopened) gi = true /\
  In (CallCloseIssue "owner/repo" 2 [("state", "closed")] (Returned true)) (calls r) /\
  state_reason (Mock.patch [("state", "closed")] gi) = Some "not_planned" /\
  declined_key (Mock.patch [("state", "closed")] gi) = Some "sonar-2" /\
  In (CallResolveWontFix "sonar-2" [("issue", "sonar-2"); ("transition", "wontfix")]
        (Returned true)) (calls r) /\
  counter (outcome r) "marked_wont_fix" = Some 1.
Proof.
  intros gi r.
  split; [exact mock_patch_keeps_reason |].
  split; [left; reflexivity |].
  split; [vm_compute; reflexivity |].
  split; [vm_compute; do 5 right; left; reflexivity |].
  split; [reflexivity |].
  split; [vm_compute; reflexivity |].
  split; [vm_compute; do 7 right; left; reflexivity |].
  vm_compute. reflexivity.
Qed.

End CloseRequestWitness.

(** ** Running forward sync twice *)

Section SecondRun.
Context {W : Type} `{Collaborators W}.
Variable cfg : Config.

Local Abbreviation fetch := (GitHubClient.get_issues_with_label (github_repo cfg) "sonarcloud").
Local Abbreviation findings :=
  (SonarClient.get_issues (sonar_project_key cfg) (issue_types cfg)).
Local Abbreviation create f :=
  (GitHubClient.create_issue (github_repo cfg) (message f)
     (_create_github_issue_body f) ("sonarcloud" :: tags f)).

Lemma fetched_lists_app (a b : list Call) :
  fetched_lists (a ++ b) = fetched_lists a ++ fetched_lists b.
Proof.
  induction a as [|c a IH]; [reflexivity |].
  destruct c as [| | | |? ? [l|e]| |]; simpl; now rewrite ?IH.
Qed.

Lemma created_bodies_app (a b : list Call) :
  created_bodies (a ++ b) = created_bodies a ++ created_bodies b.
Proof.
  induction a as [|c a IH]; [reflexivity |].
  destruct c as [| | | | |? ? ? ? [gi|e]|]; simpl; now rewrite ?IH.
Qed.

(** An issue with the same body carries the same links. *)
Lemma carried_linked (u : string) (gi : GitHubIssue) (l : list GitHubIssue) :
  Py.contains u (body gi) = true -> carried_by (body gi) l -> linked u l = true.
Proof.
  intros Hc (gi' & Hin & Hb). apply linked_elem. exists gi'.
  split; [exact Hin | now rewrite Hb].
Qed.

(** The Finding loop of an execution-mode run that returned, with every
    create request returned: each Finding either was found linked in a
    fetched list, or had its body stored by a create request. *)
Lemma create_loop_mirrors (fs : list SonarIssue) (counts : nat * nat) (w : W) :
  let r := for_each (SyncEngine.create_step cfg false) fs counts w in
  has_returned (outcome r) = true ->
  creates_returned (calls r) = true ->
  forall f, In f fs ->
    (exists l, In l (fetched_lists (calls r)) /\ linked (url f) l = true) \/
    In (_create_github_issue_body f) (created_bodies (calls r)).
Proof.
  revert counts w. induction fs as [|x fs IH]; intros [c s] w r Hret Hcr f Hin;
    [destruct Hin |].
  unfold r in *. clear r. rewrite for_each_cons in *.
  pose proof (get_issues_with_label_calls (github_repo cfg) "sonarcloud" w) as Cf.
  destruct (outcome (fetch w)) as [items|e] eqn:Ef.
  - destruct (linked (url x) items) eqn:Lx.
    + rewrite (bind_run _ _ _ _ _ _ (create_step_skip cfg false c s x w items Ef Lx)) in *.
      unfold prepend in *. cbn [outcome calls] in *. rewrite Cf in *.
      cbn [app] in *. cbn [fetched_lists created_bodies].
      unfold creates_returned in Hcr. cbn [forallb] in Hcr.
      destruct Hin as [<- | Hin].
      * left. exists items. split; [now left | exact Lx].
      * destruct (IH (c, S s) (world (fetch w)) Hret Hcr f Hin) as [(l & Hl & Hk) | Hb].
        -- left. exists l. split; [now right | exact Hk].
        -- now right.
    + rewrite (bind_run _ _ _ _ _ _ (create_step_execute cfg c s x w items Ef Lx)) in *.
      unfold prepend in *. cbn [outcome calls] in *.
      rewrite Cf, create_issue_calls in *.
      cbn [app] in *. unfold creates_returned in Hcr. cbn [forallb] in Hcr.
      apply andb_true_iff in Hcr as [_ Hcr].
      apply andb_true_iff in Hcr as [Hx Hcr].
      destruct (outcome (create x (world (fetch w)))) as [gi|e] eqn:Ec;
        [| cbn in Hx; discriminate Hx].
      cbn [fetched_lists created_bodies has_returned] in *.
      destruct Hin as [<- | Hin].
      * right. now left.
      * destruct (IH (S c, s) (world (create x (world (fetch w)))) Hret Hcr f Hin)
          as [(l & Hl & Hk) | Hb].
        -- left. exists l. split; [now right | exact Hk].
        -- right. now right.
  - rewrite (bind_raised _ _ _ e) in Hret; [discriminate Hret |].
    now rewrite (create_step_fetch_raised cfg false c s x w e Ef).
Qed.

(** A Finding loop, in either mode, whose fetches all returned lists in
    which every Finding is linked: every Finding is skipped and no create
    request is made. *)
Lemma create_loop_all_linked (dry : bool) (fs : list SonarIssue)
  (counts : nat * nat) (w : W) :
  let r := for_each (SyncEngine.create_step cfg dry) fs counts w in
  fetches_returned (calls r) = true ->
  (forall l f, In l (fetched_lists (calls r)) -> In f fs -> linked (url f) l = true) ->
  outcome r = Returned (fst counts, snd counts + List.length fs) /\
  create_requests (calls r) = [].
Proof.
  revert counts w. induction fs as [|x fs IH]; intros [c s] w r Hfr Hall.
  - unfold r. simpl. split; [| reflexivity]. now rewrite Nat.add_0_r.
  - unfold r in *. clear r. rewrite for_each_cons in *.
    pose proof (get_issues_with_label_calls (github_repo cfg) "sonarcloud" w) as Cf.
    rewrite bind_calls in Hfr, Hall.
    destruct (outcome (fetch w)) as [items|e] eqn:Ef.
    + assert (Lx : linked (url x) items = true).
      { apply (Hall items x); [| now left].
        rewrite fetched_lists_app. apply in_or_app. left.
        destruct (linked (url x) items) eqn:Lx.
        - rewrite (create_step_skip cfg dry c s x w items Ef Lx). cbn [calls].
          rewrite Cf. now left.
        - destruct dry.
          + rewrite (create_step_preview cfg c s x w items Ef Lx). cbn [calls].
            rewrite Cf. now left.
          + rewrite (create_step_execute cfg c s x w items Ef Lx). cbn [calls].
            rewrite Cf. now left. }
      pose proof (create_step_skip cfg dry c s x w items Ef Lx) as Hstep.
      rewrite Hstep in Hfr, Hall. cbn [calls outcome world] in Hfr, Hall.
      rewrite (bind_run _ _ _ _ _ _ Hstep).
      unfold fetches_returned in Hfr. rewrite forallb_app in Hfr.
      apply andb_true_iff in Hfr as [_ Hfr].
      destruct (IH (c, S s) (world (fetch w)) Hfr) as [Ho Hc].
      { intros l f Hl Hf. apply (Hall l f); [| now right].
        rewrite fetched_lists_app. apply in_or_app. now right. }
      unfold prepend. cbn [outcome calls fst snd] in *.
      split.
      * rewrite Ho. do 2 f_equal. simpl. lia.
      * rewrite create_requests_app, Hc, Cf. reflexivity.
    + pose proof (create_step_fetch_raised cfg dry c s x w e Ef) as Hstep.
      rewrite Hstep in Hfr. cbn [calls outcome] in Hfr. rewrite Cf in Hfr.
      discriminate Hfr.
Qed.

End SecondRun.

Section SecondRunPass.
Context {W : Type} `{Collaborators W}.
Variable cfg : Config.

Local Abbreviation fetch := (GitHubClient.get_issues_with_label (github_repo cfg) "sonarcloud").
Local Abbreviation findings :=
  (SonarClient.get_issues (sonar_project_key cfg) (issue_types cfg)).

(** The calls of forward sync start with its fetch of the Findings and the
    calls of its Finding loop; the labeled fetch comes next when the loop
    returned. *)
Lemma forward_calls_prefix (dry : bool) (w : W) (sis : list SonarIssue) :
  let loop := for_each (SyncEngine.create_step cfg dry) sis (0, 0) (world (findings w)) in
  outcome (findings w) = Returned sis ->
  exists tail,
    calls (SyncEngine.sync_sonar_to_github cfg dry w)
    = calls (findings w) ++ calls loop ++ tail /\
    (forall counts, outcome loop = Returned counts ->
       exists tail', tail = calls (fetch (world loop)) ++ tail') /\
    (has_returned (outcome (SyncEngine.sync_sonar_to_github cfg dry w)) = true ->
     has_returned (outcome loop) = true).
Proof.
  intros loop E0. unfold SyncEngine.sync_sonar_to_github.
  rewrite bind_calls, bind_outcome, E0. rewrite bind_calls, bind_outcome. fold loop.
  eexists. split; [reflexivity |]. split.
  - intros counts E1. rewrite E1. rewrite bind_calls. eexists. reflexivity.
  - destruct (outcome loop); [reflexivity | discriminate].
Qed.

Lemma close_calls_no_create (cs : list Call) :
  forallb is_close cs = true -> create_requests cs = [].
Proof.
  induction cs as [|c cs IH]; [reflexivity |]. simpl. intros Hc.
  apply andb_true_iff in Hc as [Hc1 Hc2].
  destruct c; try discriminate Hc1. now apply IH.
Qed.

(** The closure loop returns, in either mode, and makes no create request. *)
Lemma close_loop_returns (dry : bool) (sis : list SonarIssue) (gis : list GitHubIssue)
  (closed : nat) (w : W) :
  let r := for_each (SyncEngine.close_step cfg dry sis) gis closed w in
  has_returned (outcome r) = true /\ create_requests (calls r) = [].
Proof.
  destruct dry; cbn zeta.
  - rewrite close_loop_preview. now split.
  - destruct (close_loop_execute cfg sis gis closed w) as (_ & Ho & Hc).
    rewrite Ho. split; [reflexivity |]. now apply close_calls_no_create.
Qed.

(** C9. Run forward sync in execution mode, to completion, with every
    create request returning.  Then run it again, in either mode, with the
    same open Findings and the tracker data unchanged: each labeled fetch of
    the second run returns, and its list still holds the issues the first
    run was answered and an issue with the body of each create request of
    the first run (the built body, which contains the canonical URL).  The
    second run returns created = 0, counts every Finding as skipped, and
    makes no create request. *)
Theorem second_run_creates_nothing (dry2 : bool) (w1 w2 : W) (sis : list SonarIssue) :
  let run1 := SyncEngine.sync_sonar_to_github cfg false w1 in
  let run2 := SyncEngine.sync_sonar_to_github cfg dry2 w2 in
  outcome (findings w1) = Returned sis ->
  has_returned (outcome run1) = true ->
  creates_returned (calls run1) = true ->
  outcome (findings w2) = Returned sis ->
  fetches_returned (calls run2) = true ->
  still_there (calls run1) (calls run2) ->
  counter (outcome run2) "created" = Some 0 /\
  counter (outcome run2) "skipped" = Some (List.length sis) /\
  create_requests (calls run2) = [].
Proof.
  intros run1 run2 E1 Hret1 Hcr1 E2 Hfr2 Hstill.
  destruct (forward_calls_prefix false w1 sis E1) as (tail1 & C1 & _ & Hloop1).
  destruct (forward_calls_prefix dry2 w2 sis E2) as (tail2 & C2 & Htail2 & _).
  fold run1 in C1, Hloop1. fold run2 in C2.
  set (loop1 := for_each (SyncEngine.create_step cfg false) sis (0, 0)
                  (world (findings w1))) in *.
  set (loop2 := for_each (SyncEngine.create_step cfg dry2) sis (0, 0)
                  (world (findings w2))) in *.
  (* what the first run left on the tracker *)
  assert (Hcr_loop : creates_returned (calls loop1) = true).
  { unfold creates_returned in *. rewrite C1, !forallb_app in Hcr1.
    apply andb_true_iff in Hcr1 as [_ Hcr1].
    now apply andb_true_iff in Hcr1 as [Hcr1 _]. }
  pose proof (create_loop_mirrors cfg sis (0, 0) (world (findings w1))
                (Hloop1 Hret1) Hcr_loop) as Hmirror.
  fold loop1 in Hmirror.
  (* every list answered to the second run links every Finding *)
  assert (Hlinked : forall l f, In l (fetched_lists (calls run2)) -> In f sis ->
                                linked (url f) l = true).
  { intros l f Hl Hf. destruct (Hstill l Hl) as [Hseen Hmade].
    destruct (Hmirror f Hf) as [(l1 & Hl1 & Hk) | Hb].
    - apply linked_elem in Hk as (gi & Hgi & Hc).
      apply (carried_linked _ gi _ Hc). apply (Hseen l1 gi); [| exact Hgi].
      rewrite C1, !fetched_lists_app. apply in_or_app. right.
      apply in_or_app. now left.
    - destruct (Hmade (_create_github_issue_body f)) as (gi & Hgi & Hbody).
      { rewrite C1, !created_bodies_app. apply in_or_app. right.
        apply in_or_app. now left. }
      apply linked_elem. exists gi. split; [exact Hgi |].
      rewrite Hbody. apply body_contains_url. }
  (* the Finding loop of the second run skips them all *)
  assert (Hfr_loop : fetches_returned (calls loop2) = true).
  { unfold fetches_returned in *. rewrite C2, !forallb_app in Hfr2.
    apply andb_true_iff in Hfr2 as [_ Hfr2].
    now apply andb_true_iff in Hfr2 as [Hfr2 _]. }
  destruct (create_loop_all_linked cfg dry2 sis (0, 0) (world (findings w2)) Hfr_loop)
    as [Ho2 Hnc2].
  { fold loop2. intros l f Hl Hf. apply (Hlinked l f); [| exact Hf].
    rewrite C2, !fetched_lists_app. apply in_or_app. right.
    apply in_or_app. now left. }
  fold loop2 in Ho2, Hnc2. cbn [fst snd] in Ho2.
  (* the labeled fetch of the closure phase returned *)
  destruct (Htail2 _ Ho2) as [tail3 ->].
  pose proof (get_issues_with_label_calls (github_repo cfg) "sonarcloud" (world loop2))
    as Cf.
  destruct (outcome (fetch (world loop2))) as [gis|e] eqn:Ef.
  2:{ unfold fetches_returned in Hfr2. rewrite C2, Cf, !forallb_app in Hfr2.
      apply andb_true_iff in Hfr2 as [_ Hfr2].
      apply andb_true_iff in Hfr2 as [_ Hfr2].
      apply andb_true_iff in Hfr2 as [Hfr2 _]. discriminate Hfr2. }
  pose proof (forward_pass_run cfg dry2 w2 sis (0, 0 + List.length sis) gis E2 Ho2 Ef)
    as Hrun. fold run2 loop2 in Hrun.
  destruct (close_loop_returns dry2 sis gis 0 (world (fetch (world loop2))))
    as [Hcl Hcc].
  destruct (outcome (for_each (SyncEngine.close_step cfg dry2 sis) gis 0
                       (world (fetch (world loop2))))) as [closed|e] eqn:Ecl;
    [| discriminate Hcl].
  destruct (get_issues_calls (sonar_project_key cfg) (issue_types cfg) w2) as [t Ct].
  rewrite Hrun, (bind_returned _ _ _ _ Ecl).
  unfold prepend, ret, counter. cbn [outcome calls fst snd].
  split; [now simplify_map_eq |]. split; [now simplify_map_eq |].
  rewrite !create_requests_app, Hnc2, Hcc, Ct, Cf. reflexivity.
Qed.

End SecondRunPass.

Section SecondRunWitness.

Ltac pick_member := repeat first [left; reflexivity | right].

Lemma second_run_creates_nothing_witness :
  let w1 := Mock.scenario_a in
  let run1 := SyncEngine.sync_sonar_to_github Mock.config false w1 in
  let w2 := world run1 in
  let run2 := SyncEngine.sync_sonar_to_github Mock.config false w2 in
  outcome (SonarClient.get_issues "test-project" ["BUG"; "VULNERABILITY"; "CODE_SMELL"] w1)
  = Returned (Mock.findings w1) /\
  has_returned (outcome run1) = true /\
  creates_returned (calls run1) = true /\
  created_bodies (calls run1)
  = List.map _create_github_issue_body (Mock.findings w1) /\
  outcome (SonarClient.get_issues "test-project" ["BUG"; "VULNERABILITY"; "CODE_SMELL"] w2)
  = Returned (Mock.findings w1) /\
  fetches_returned (calls run2) = true /\
  still_there (calls run1) (calls run2) /\
  counter (outcome run1) "created" = Some 2 /\
  counter (outcome run2) "created" = Some 0 /\
  counter (outcome run2) "skipped" = Some 2 /\
  create_requests (calls run2) = [].
Proof.
  intros w1 run1 w2 run2.
  assert (E1 : outcome (SonarClient.get_issues (sonar_project_key Mock.config)
                          (issue_types Mock.config) w1) = Returned (Mock.findings w1))
    by (vm_compute; reflexivity).
  assert (Hret : has_returned (outcome run1) = true) by (vm_compute; reflexivity).
  assert (Hcr : creates_returned (calls run1) = true) by (vm_compute; reflexivity).
  assert (E2 : outcome (SonarClient.get_issues (sonar_project_key Mock.config)
                          (issue_types Mock.config) w2) = Returned (Mock.findings w1))
    by (vm_compute; reflexivity).
  assert (Hfr : fetches_returned (calls run2) = true) by (vm_compute; reflexivity).
  assert (Hst : still_there (calls run1) (calls run2)).
  { intros l2 Hl2. vm_compute in Hl2.
    split.
    - intros l1 gi Hl1 Hgi. vm_compute in Hl1.
      destruct Hl2 as [<- | [<- | [<- | []]]];
        destruct Hl1 as [<- | [<- | [<- | []]]];
        repeat (destruct Hgi as [<- | Hgi]); try destruct Hgi;
        (eexists; split; [| reflexivity]; pick_member).
    - intros b Hb. vm_compute in Hb.
      destruct Hl2 as [<- | [<- | [<- | []]]];
        destruct Hb as [<- | [<- | []]];
        first [ eexists; split; [left; reflexivity | reflexivity]
              | eexists; split; [right; left; reflexivity | reflexivity] ]. }
  destruct (second_run_creates_nothing Mock.config false w1 w2 (Mock.findings w1)
              E1 Hret Hcr E2 Hfr Hst) as (Hc & Hs & Hn).
  split; [exact E1 |]. split; [exact Hret |]. split; [exact Hcr |].
  split; [vm_compute; reflexivity |].
  split; [exact E2 |]. split; [exact Hfr |]. split; [exact Hst |].
  split; [vm_compute; reflexivity |].
  split; [exact Hc |]. split; [exact Hs |]. exact Hn.
Defined.

End SecondRunWitness.

(** ** The two scenarios of the specification *)

Section Scenarios.

(** Scenario A: two open Findings, no issue yet: both are created, each
    with its marker line. *)
Example scenario_a_forward :
  counter (outcome (SyncEngine.sync_sonar_to_github Mock.config false Mock.scenario_a))
    "created" = Some 2 /\
  counter (outcome (SyncEngine.sync_sonar_to_github Mock.config false Mock.scenario_a))
    "skipped" = Some 0 /\
  counter (outcome (SyncEngine.sync_sonar_to_github Mock.config false Mock.scenario_a))
    "closed" = Some 0 /\
  List.map _extract_sonar_issue_key
    (create_requests
       (calls (SyncEngine.sync_sonar_to_github Mock.config false Mock.scenario_a)))
  = [Some "sonar-1"; Some "sonar-2"].
Proof. repeat split; vm_compute; reflexivity. Qed.

(** Scenario B: one Finding already mirrored, one stale open issue, one
    issue closed as declined. *)
Example scenario_b_full :
  counter (outcome (SyncEngine.full_sync Mock.config false Mock.scenario_b)) "created"
  = Some 0 /\
  counter (outcome (SyncEngine.full_sync Mock.config false Mock.scenario_b)) "skipped"
  = Some 1 /\
  counter (outcome (SyncEngine.full_sync Mock.config false Mock.scenario_b)) "closed"
  = Some 1 /\
  counter (outcome (SyncEngine.full_sync Mock.config false Mock.scenario_b))
    "marked_wont_fix" = Some 1 /\
  close_requests (calls (SyncEngine.full_sync Mock.config false Mock.scenario_b)) = [2%Z] /\
  wont_fix_requests (calls (SyncEngine.full_sync Mock.config false Mock.scenario_b))
  = ["sonar-3"].
Proof. repeat split; vm_compute; reflexivity. Qed.

End Scenarios.

(** * Further properties of the code *)

(** ** Keys outside the character class *)

Section KeyTruncation.

Lemma key_run_idem (k : string) : all_key_chars k = true -> key_run k = k.
Proof.
  induction k as [|c k IH]; [reflexivity |]. simpl. intros Hk.
  apply andb_true_iff in Hk as [Hc Hk]. rewrite Hc. now rewrite IH.
Qed.

(** The run stops at a line feed, wherever the class characters end. *)
Lemma key_run_line (k rest : string) :
  key_run (k +:+ String (ascii_of_nat 10) rest) = key_run k.
Proof.
  induction k as [|c k IH].
  - reflexivity.
  - rewrite append_cons. simpl. destruct (key_char c); [now rewrite IH | reflexivity].
Qed.

(** The key extracted from a built body is the longest prefix of the
    Finding's key made of characters of [[A-Za-z0-9_:-]], whenever that
    prefix is not empty: a key with another character in it comes back cut
    at that character. *)
Theorem extracted_key_is_class_prefix (f : SonarIssue) :
  key_run (key f) <> "" ->
  _extract_sonar_issue_key (_create_github_issue_body f) = Some (key_run (key f)).
Proof.
  intros Hne. apply re_search_here.
  destruct (body_first_line f) as [rest ->].
  unfold match_here. rewrite prefix_append, drop_append, key_run_line.
  destruct (key_run (key f)); [now destruct Hne | reflexivity].
Qed.

Lemma extracted_key_is_class_prefix_witness :
  key_run (key (Mock.finding "AX.1" "Null dereference" [])) <> "" /\
  _extract_sonar_issue_key
    (_create_github_issue_body (Mock.finding "AX.1" "Null dereference" []))
  = Some "AX".
Proof.
  assert (Hne : key_run (key (Mock.finding "AX.1" "Null dereference" [])) <> "")
    by (vm_compute; discriminate).
  split; [exact Hne |].
  exact (extracted_key_is_class_prefix (Mock.finding "AX.1" "Null dereference" []) Hne).
Defined.

(** An open issue carrying the built body of a Finding is taken for stale
    exactly when no open Finding has, as its whole key, the class prefix of
    that Finding's key.  For a Finding whose key has a character outside
    the class, its own mirror is stale unless another Finding is keyed by
    the prefix. *)
Theorem mirror_stale_on_class_prefix (sis : list SonarIssue) (f : SonarIssue)
  (gi : GitHubIssue) :
  body gi = _create_github_issue_body f ->
  state gi = "open" ->
  key_run (key f) <> "" ->
  stale sis gi = negb (existsb (fun si => String.eqb (key si) (key_run (key f))) sis).
Proof.
  intros Hb Hs Hne. unfold stale.
  assert (He : _extract_sonar_issue_key (_create_github_issue_body f)
               = Some (key_run (key f))).
  { apply re_search_here. destruct (body_first_line f) as [rest ->].
    unfold match_here. rewrite prefix_append, drop_append, key_run_line.
    destruct (key_run (key f)); [now destruct Hne | reflexivity]. }
  rewrite Hb, Hs, He. reflexivity.
Qed.

Lemma mirror_stale_on_class_prefix_witness :
  body (Mock.item 1 (_create_github_issue_body (Mock.finding "AX.1" "Null dereference" []))
          "open" None)
  = _create_github_issue_body (Mock.finding "AX.1" "Null dereference" []) /\
  state (Mock.item 1 (_create_github_issue_body (Mock.finding "AX.1" "Null dereference" []))
           "open" None) = "open" /\
  key_run (key (Mock.finding "AX.1" "Null dereference" [])) <> "" /\
  stale [Mock.finding "AX.1" "Null dereference" []]
    (Mock.item 1 (_create_github_issue_body (Mock.finding "AX.1" "Null dereference" []))
       "open" None) = true.
Proof.
  assert (Hne : key_run (key (Mock.finding "AX.1" "Null dereference" [])) <> "")
    by (vm_compute; discriminate).
  split; [reflexivity |]. split; [reflexivity |]. split; [exact Hne |].
  rewrite (mirror_stale_on_class_prefix [Mock.finding "AX.1" "Null dereference" []]
             (Mock.finding "AX.1" "Null dereference" [])
             (Mock.item 1 (_create_github_issue_body
                             (Mock.finding "AX.1" "Null dereference" [])) "open" None)
             eq_refl eq_refl Hne).
  reflexivity.
Defined.

End KeyTruncation.

(** ** What the key extraction returns *)

Section Extraction.

Lemma key_run_split (t : string) :
  exists rest, t = key_run t +:+ rest /\ key_run rest = "".
Proof.
  induction t as [|c t IH].
  - now exists "".
  - simpl. destruct (key_char c) eqn:Ec.
    + destruct IH as (rest & Ht & Hr). exists rest. split; [| exact Hr].
      rewrite append_cons. now rewrite <- Ht.
    + exists (String c t). split; [reflexivity |]. simpl. now rewrite Ec.
Qed.

Lemma match_here_shape (s k : string) :
  match_here s = Some k ->
  exists rest, s = marker +:+ k +:+ rest /\ key_run rest = "".
Proof.
  unfold match_here. destruct (String.prefix marker s) eqn:Ep; [| discriminate].
  destruct (prefix_split _ _ Ep) as [t ->]. rewrite drop_append.
  destruct (key_run_split t) as (rest & Ht & Hr).
  destruct (key_run t) as [|c r] eqn:Ek; [discriminate |].
  intros [= <-]. exists rest. split; [now rewrite <- Ht | exact Hr].
Qed.

Lemma re_search_shape (b k : string) :
  re_search b = Some k ->
  exists a rest, b = a +:+ marker +:+ k +:+ rest /\ key_run rest = "".
Proof.
  induction b as [|c b IH].
  - vm_compute. discriminate.
  - cbn [re_search]. destruct (match_here (String c b)) as [k'|] eqn:Em.
    + intros [= <-]. destruct (match_here_shape _ _ Em) as (rest & Hs & Hr).
      exists "", rest. now split.
    + intros Hs. destruct (IH Hs) as (a & rest & -> & Hr).
      exists (String c a), rest. now split.
Qed.

Lemma re_search_none_suffix (a s : string) :
  re_search (a +:+ s) = None -> match_here s = None.
Proof.
  induction a as [|c a IH].
  - rewrite append_nil. destruct s; cbn [re_search];
      destruct (match_here _); congruence.
  - rewrite append_cons. cbn [re_search].
    destruct (match_here (String c (a +:+ s))); [discriminate | exact IH].
Qed.

(** [_extract_sonar_issue_key] never raises.  A key it returns is non-empty,
    made of class characters, stands in the body right after an occurrence
    of the marker, and is the whole run of class characters there.  It
    returns nothing exactly when no occurrence of the marker in the body is
    followed by a class character. *)
Theorem extraction_specification (b : string) :
  (forall k, _extract_sonar_issue_key b = Some k ->
     valid_key k = true /\
     exists a rest, b = a +:+ marker +:+ k +:+ rest /\ key_run rest = "") /\
  (_extract_sonar_issue_key b = None <->
   forall a c rest, b = a +:+ marker +:+ String c rest -> key_char c = false).
Proof.
  split.
  - intros k Hk. split; [exact (extract_valid b k Hk) |].
    now apply re_search_shape.
  - split.
    + intros Hn a c rest ->.
      apply re_search_none_suffix in Hn. unfold match_here in Hn.
      rewrite prefix_append, drop_append in Hn. simpl in Hn.
      destruct (key_char c); [discriminate Hn | reflexivity].
    + intros Hall. destruct (_extract_sonar_issue_key b) as [k|] eqn:Ek; [| reflexivity].
      pose proof (extract_valid b k Ek) as Hv.
      destruct (re_search_shape b k Ek) as (a & rest & Hb & _).
      destruct k as [|c k]; [discriminate Hv |].
      unfold valid_key in Hv. simpl in Hv. apply andb_true_iff in Hv as [Hc _].
      rewrite append_cons in Hb. rewrite (Hall a c _ Hb) in Hc. discriminate Hc.
Qed.

End Extraction.

(** ** Forward sync: what is requested, and how it is counted *)

Section ForwardAccounting.
Context {W : Type} `{Collaborators W}.
Variable cfg : Config.

Local Abbreviation fetch := (GitHubClient.get_issues_with_label (github_repo cfg) "sonarcloud").
Local Abbreviation findings :=
  (SonarClient.get_issues (sonar_project_key cfg) (issue_types cfg)).
Local Abbreviation create f :=
  (GitHubClient.create_issue (github_repo cfg) (message f)
     (_create_github_issue_body f) ("sonarcloud" :: tags f)).

Lemma create_calls_app (a b : list Call) :
  create_calls (a ++ b) = create_calls a ++ create_calls b.
Proof.
  induction a as [|c a IH]; [reflexivity |].
  destruct c; simpl; now rewrite ?IH.
Qed.

Lemma creates_failed_app (a b : list Call) :
  creates_failed (a ++ b) = creates_failed a + creates_failed b.
Proof. unfold creates_failed. now rewrite List.filter_app, List.length_app. Qed.

Lemma listings_app (a b : list Call) : listings (a ++ b) = listings a + listings b.
Proof. unfold listings. now rewrite List.filter_app, List.length_app. Qed.

Lemma no_create_calls (cs : list Call) :
  create_requests cs = [] -> create_calls cs = [] /\ creates_failed cs = 0.
Proof.
  induction cs as [|c cs IH]; [now split |].
  destruct c; simpl; try discriminate; intros Hc; destruct (IH Hc); now split.
Qed.

(** The Finding loop, in either mode and whatever its outcome: its create
    requests are those of a sub-list of the Findings, in order; when it
    returns, every Finding was counted once, as created or as skipped,
    unless its create request raised, and one listing was made per
    Finding. *)
Lemma create_loop_accounting (dry : bool) (fs : list SonarIssue) (c s : nat) (w : W) :
  let r := for_each (SyncEngine.create_step cfg dry) fs (c, s) w in
  sublist (create_calls (calls r)) (List.map (request_for (github_repo cfg)) fs) /\
  (forall c' s', outcome r = Returned (c', s') ->
     c' + s' + creates_failed (calls r) = c + s + List.length fs /\
     listings (calls r) = List.length fs).
Proof.
  revert c s w. induction fs as [|x fs IH]; intros c s w.
  - cbn zeta. simpl. split; [constructor |].
    intros c' s' [= <- <-]. unfold creates_failed, listings. simpl. lia.
  - cbn zeta. rewrite for_each_cons.
    pose proof (get_issues_with_label_calls (github_repo cfg) "sonarcloud" w) as Cf.
    destruct (outcome (fetch w)) as [items|e] eqn:Ef.
    + destruct (linked (url x) items) eqn:Lx.
      * rewrite (bind_run _ _ _ _ _ _ (create_step_skip cfg dry c s x w items Ef Lx)).
        destruct (IH c (S s) (world (fetch w))) as [IHs IHc].
        unfold prepend. cbn [calls outcome]. rewrite Cf.
        split.
        -- cbn [app create_calls List.map]. now apply sublist_cons.
        -- intros c' s' Ho. destruct (IHc c' s' Ho) as [IH1 IH2].
           cbn [app]. unfold creates_failed, listings in *.
           cbn [List.filter is_listing List.length]. simpl List.length. lia.
      * assert (Hstep : exists v w' r,
                   SyncEngine.create_step cfg dry (c, s) x w
                   = MkRun (Returned v) w' (calls (fetch w) ++ r) /\
                   ((r = [] /\ v = (S c, s)) \/
                    (exists a, r = [CallCreateIssue (github_repo cfg) (message x)
                                      (_create_github_issue_body x)
                                      ("sonarcloud" :: tags x) a] /\
                               v = if has_returned a then (S c, s) else (c, s)))).
        { destruct dry.
          - eexists _, _, []. rewrite app_nil_r. split;
              [apply (create_step_preview cfg c s x w items Ef Lx) | now left].
          - eexists _, _, _. split;
              [apply (create_step_execute cfg c s x w items Ef Lx) |].
            right. eexists. split; [apply create_issue_calls | reflexivity]. }
        destruct Hstep as (v & w' & r & Hstep & Hr).
        rewrite (bind_run _ _ _ _ _ _ Hstep). rewrite Cf.
        destruct Hr as [[-> ->] | (a & -> & ->)].
        -- destruct (IH (S c) s w') as [IHs IHc].
           unfold prepend. cbn [calls outcome app create_calls List.map].
           split; [now apply sublist_cons |].
           intros c' s' Ho. destruct (IHc c' s' Ho) as [IH1 IH2].
           unfold creates_failed, listings in *.
           cbn [List.filter is_listing List.length]. simpl List.length. lia.
        -- unfold prepend. cbn [calls outcome app create_calls List.map].
           destruct (has_returned a) eqn:Ha.
           ++ destruct (IH (S c) s w') as [IHs IHc].
              split; [now apply sublist_skip |].
              intros c' s' Ho. destruct (IHc c' s' Ho) as [IH1 IH2].
              unfold creates_failed, listings in *.
              cbn [List.filter is_listing List.length]. rewrite Ha.
              simpl. lia.
           ++ destruct (IH c s w') as [IHs IHc].
              split; [now apply sublist_skip |].
              intros c' s' Ho. destruct (IHc c' s' Ho) as [IH1 IH2].
              unfold creates_failed, listings in *.
              cbn [List.filter is_listing List.length]. rewrite Ha.
              simpl. lia.
    + rewrite (bind_raised _ _ _ e)
        by now rewrite (create_step_fetch_raised cfg dry c s x w e Ef).
      rewrite (create_step_fetch_raised cfg dry c s x w e Ef). cbn [calls outcome world].
      rewrite Cf. split; [| discriminate].
      cbn [create_calls]. apply sublist_nil_l.
Qed.

End ForwardAccounting.

Section ForwardAccountingPass.
Context {W : Type} `{Collaborators W}.
Variable cfg : Config.

Local Abbreviation fetch := (GitHubClient.get_issues_with_label (github_repo cfg) "sonarcloud").
Local Abbreviation findings :=
  (SonarClient.get_issues (sonar_project_key cfg) (issue_types cfg)).

Lemma close_calls_no_listing (cs : list Call) :
  forallb is_close cs = true -> listings cs = 0.
Proof.
  induction cs as [|x cs IH]; [reflexivity |]. simpl. intros Hc.
  apply andb_true_iff in Hc as [Hx Hcs].
  destruct x; try discriminate Hx. now apply IH.
Qed.

Lemma calls_without_create (cs : list Call) :
  forallb (fun c => negb (is_create c)) cs = true -> create_requests cs = [].
Proof.
  induction cs as [|x cs IH]; [reflexivity |]. simpl. intros Hc.
  apply andb_true_iff in Hc as [Hx Hcs].
  destruct x; try discriminate Hx; now apply IH.
Qed.

(** A forward sync that returned went through its four phases. *)
Lemma forward_pass_returned_inv (dry : bool) (w : W) (res : gmap string nat) :
  outcome (SyncEngine.sync_sonar_to_github cfg dry w) = Returned res ->
  exists sis counts gis closed,
    let r0 := findings w in
    let r1 := for_each (SyncEngine.create_step cfg dry) sis (0, 0) (world r0) in
    let r2 := fetch (world r1) in
    let r3 := for_each (SyncEngine.close_step cfg dry sis) gis 0 (world r2) in
    outcome r0 = Returned sis /\
    outcome r1 = Returned counts /\
    outcome r2 = Returned gis /\
    outcome r3 = Returned closed /\
    res = <["created" := fst counts]>
            (<["skipped" := snd counts]> (<["closed" := closed]> ∅)) /\
    calls (SyncEngine.sync_sonar_to_github cfg dry w)
    = calls r0 ++ calls r1 ++ calls r2 ++ calls r3.
Proof.
  intros E. pose proof E as E'. unfold SyncEngine.sync_sonar_to_github in E'.
  apply bind_returned_inv in E' as (sis & E0 & E').
  apply bind_returned_inv in E' as (counts & E1 & E').
  apply bind_returned_inv in E' as (gis & E2 & E').
  apply bind_returned_inv in E' as (closed & E3 & E').
  injection E' as <-.
  exists sis, counts, gis, closed. cbn zeta.
  repeat (split; [assumption || reflexivity |]).
  rewrite (forward_pass_run cfg dry w sis counts gis E0 E1 E2).
  rewrite (bind_returned _ _ _ _ E3). unfold prepend, ret. cbn [calls].
  now rewrite app_nil_r, <- !app_assoc.
Qed.

(** Every create request of a forward sync is the request for one of the
    fetched Findings: title its message, body its built body, labels
    ["sonarcloud"] then its tags, in the configured repository.  The
    requests follow the order of the Findings, at most one per Finding. *)
Theorem create_requests_are_for_findings (dry : bool) (w : W) (sis : list SonarIssue) :
  outcome (findings w) = Returned sis ->
  sublist (create_calls (calls (SyncEngine.sync_sonar_to_github cfg dry w)))
    (List.map (request_for (github_repo cfg)) sis).
Proof.
  intros E0.
  destruct (get_issues_calls (sonar_project_key cfg) (issue_types cfg) w) as [t Ct].
  destruct (create_loop_accounting cfg dry sis 0 0 (world (findings w))) as [Hsub _].
  unfold SyncEngine.sync_sonar_to_github.
  rewrite bind_calls, E0, bind_calls, create_calls_app, create_calls_app, Ct.
  cbn [create_calls app].
  destruct (outcome (for_each (SyncEngine.create_step cfg dry) sis (0, 0)
                       (world (findings w)))) as [counts|e]; [| now rewrite app_nil_r].
  rewrite bind_calls, create_calls_app, get_issues_with_label_calls.
  cbn [create_calls app].
  destruct (outcome (fetch _)) as [gis|e]; [| now rewrite app_nil_r].
  rewrite bind_calls, create_calls_app.
  destruct (close_loop_returns cfg dry sis gis 0
              (world (fetch (world (for_each (SyncEngine.create_step cfg dry) sis (0, 0)
                                      (world (findings w))))))) as [_ Hnc].
  cbn zeta in Hnc. rewrite (proj1 (no_create_calls _ Hnc)).
  destruct (outcome (for_each (SyncEngine.close_step cfg dry sis) gis 0 _));
    cbn [calls ret create_calls app]; now rewrite ?app_nil_r.
Qed.

(** A forward sync that returns has counted every fetched Finding exactly
    once: created + skipped + (create requests that raised) is the number
    of Findings.  It has listed the labeled issues once per Finding and
    once more for the closure loop. *)
Theorem forward_counts_every_finding (dry : bool) (w : W)
  (res : gmap string nat) (sis : list SonarIssue) :
  let r := SyncEngine.sync_sonar_to_github cfg dry w in
  outcome r = Returned res ->
  outcome (findings w) = Returned sis ->
  exists created skipped,
    res !! "created" = Some created /\
    res !! "skipped" = Some skipped /\
    created + skipped + creates_failed (calls r) = List.length sis /\
    (dry = true -> created + skipped = List.length sis) /\
    listings (calls r) = S (List.length sis).
Proof.
  intros r E E0.
  destruct (forward_pass_returned_inv dry w res E)
    as (sis' & [c s] & gis & closed & E0' & E1 & E2 & E3 & -> & Hcalls).
  rewrite E0 in E0'. injection E0' as <-.
  destruct (create_loop_accounting cfg dry sis 0 0 (world (findings w))) as [_ Hacc].
  destruct (Hacc c s E1) as [Hsum Hlist].
  destruct (get_issues_calls (sonar_project_key cfg) (issue_types cfg) w) as [t Ct].
  destruct (close_loop_returns cfg dry sis gis 0
              (world (fetch (world (for_each (SyncEngine.create_step cfg dry) sis (0, 0)
                                      (world (findings w))))))) as [_ Hnc].
  cbn zeta in Hnc. destruct (no_create_calls _ Hnc) as [_ Hnf].
  assert (Hnl : listings (calls (for_each (SyncEngine.close_step cfg dry sis) gis 0
                   (world (fetch (world (for_each (SyncEngine.create_step cfg dry) sis
                                           (0, 0) (world (findings w)))))))) = 0).
  { destruct dry.
    - now rewrite close_loop_preview.
    - destruct (close_loop_execute cfg sis gis 0
                  (world (fetch (world (for_each (SyncEngine.create_step cfg false) sis
                                          (0, 0) (world (findings w)))))))
        as (_ & _ & Hcl).
      cbn zeta in Hcl. now apply close_calls_no_listing. }
  exists c, s. cbn [fst snd].
  split; [now simplify_map_eq |]. split; [now simplify_map_eq |].
  unfold r. rewrite Hcalls.
  rewrite !creates_failed_app, !listings_app, Hnf, Hnl, Ct,
    get_issues_with_label_calls.
  unfold creates_failed at 1 3, listings at 1 3. cbn [List.filter is_listing List.length].
  split; [lia |]. split; [| lia].
  intros ->.
  assert (Hpre : creates_failed
                   (calls (for_each (SyncEngine.create_step cfg true) sis (0, 0)
                             (world (findings w)))) = 0).
  { apply no_create_calls, calls_without_create.
    assert (Ho : only (fun c => negb (is_create c))
                   (for_each (SyncEngine.create_step cfg true) sis (0, 0))).
    { apply only_for_each. intros [c' s'] f. unfold SyncEngine.create_step.
      apply only_bind.
      - unfold GitHubClient.issue_exists_with_sonar_link. apply only_bind.
        + intros w'. now rewrite get_issues_with_label_calls.
        + intros a. apply only_ret.
      - intros [gi|]; apply only_ret. }
    apply Ho. }
  lia.
Qed.

End ForwardAccountingPass.

Section ForwardAccountingWitness.

Lemma create_requests_are_for_findings_witness :
  outcome (SonarClient.get_issues "test-project" ["BUG"; "VULNERABILITY"; "CODE_SMELL"]
             Mock.scenario_two_links)
  = Returned (Mock.findings Mock.scenario_two_links) /\
  create_calls (calls (SyncEngine.sync_sonar_to_github Mock.config false
                         Mock.scenario_two_links))
  = [request_for "owner/repo" (Mock.finding "sonar-9" "Fresh defect" [])] /\
  sublist (create_calls (calls (SyncEngine.sync_sonar_to_github Mock.config false
                                  Mock.scenario_two_links)))
    (List.map (request_for "owner/repo") (Mock.findings Mock.scenario_two_links)).
Proof.
  assert (E0 : outcome (SonarClient.get_issues (sonar_project_key Mock.config)
                          (issue_types Mock.config) Mock.scenario_two_links)
               = Returned (Mock.findings Mock.scenario_two_links))
    by (vm_compute; reflexivity).
  split; [exact E0 |]. split; [vm_compute; reflexivity |].
  exact (create_requests_are_for_findings Mock.config false Mock.scenario_two_links
           (Mock.findings Mock.scenario_two_links) E0).
Defined.

Lemma forward_counts_every_finding_witness :
  outcome (SyncEngine.sync_sonar_to_github Mock.config false Mock.scenario_refusal)
  = Returned (<["created" := 1]> (<["skipped" := 0]> (<["closed" := 0]> ∅))) /\
  outcome (SonarClient.get_issues "test-project" ["BUG"; "VULNERABILITY"; "CODE_SMELL"]
             Mock.scenario_refusal)
  = Returned (Mock.findings Mock.scenario_refusal) /\
  creates_failed (calls (SyncEngine.sync_sonar_to_github Mock.config false
                           Mock.scenario_refusal)) = 1 /\
  listings (calls (SyncEngine.sync_sonar_to_github Mock.config false
                     Mock.scenario_refusal)) = 3.
Proof.
  assert (E : outcome (SyncEngine.sync_sonar_to_github Mock.config false
                         Mock.scenario_refusal)
              = Returned (<["created" := 1]> (<["skipped" := 0]> (<["closed" := 0]> ∅))))
    by (vm_compute; reflexivity).
  assert (E0 : outcome (SonarClient.get_issues (sonar_project_key Mock.config)
                          (issue_types Mock.config) Mock.scenario_refusal)
               = Returned (Mock.findings Mock.scenario_refusal))
    by (vm_compute; reflexivity).
  destruct (forward_counts_every_finding Mock.config false Mock.scenario_refusal _ _ E E0)
    as (c & s & _ & _ & _ & _ & Hl).
  split; [exact E |]. split; [exact E0 |]. split; [vm_compute; reflexivity |].
  exact Hl.
Defined.

End ForwardAccountingWitness.

(** ** What a preview pass reports *)

Section PreviewReport.
Context {W : Type} `{Collaborators W}.
Variable cfg : Config.

Local Abbreviation fetch := (GitHubClient.get_issues_with_label (github_repo cfg) "sonarcloud").
Local Abbreviation findings :=
  (SonarClient.get_issues (sonar_project_key cfg) (issue_types cfg)).

(** The Finding loop in preview mode, when every listing answers the same
    list: the Findings with a linked issue are counted as skipped, the
    others as created. *)
Lemma create_loop_preview_counts (fs : list SonarIssue) (c s : nat) (w : W)
  (items : list GitHubIssue) :
  let r := for_each (SyncEngine.create_step cfg true) fs (c, s) w in
  has_returned (outcome r) = true ->
  (forall l, In l (fetched_lists (calls r)) -> l = items) ->
  outcome r
  = Returned (c + List.length (List.filter (fun f => negb (linked (url f) items)) fs),
              s + List.length (List.filter (fun f => linked (url f) items) fs)).
Proof.
  revert c s w. induction fs as [|x fs IH]; intros c s w r Hret Hall.
  - unfold r. simpl. unfold ret. simpl. do 2 f_equal; lia.
  - unfold r in *. clear r. rewrite for_each_cons in *.
    pose proof (get_issues_with_label_calls (github_repo cfg) "sonarcloud" w) as Cf.
    destruct (outcome (fetch w)) as [l|e] eqn:Ef.
    2:{ rewrite (bind_raised _ _ _ e) in Hret; [discriminate Hret |].
        now rewrite (create_step_fetch_raised cfg true c s x w e Ef). }
    assert (Hl : l = items).
    { apply Hall. rewrite bind_calls, fetched_lists_app. apply in_or_app. left.
      destruct (linked (url x) l) eqn:Lx.
      - rewrite (create_step_skip cfg true c s x w l Ef Lx). cbn [calls].
        rewrite Cf. now left.
      - rewrite (create_step_preview cfg c s x w l Ef Lx). cbn [calls].
        rewrite Cf. now left. }
    subst l. cbn [List.filter].
    destruct (linked (url x) items) eqn:Lx; cbn [negb].
    + pose proof (create_step_skip cfg true c s x w items Ef Lx) as Hstep.
      rewrite (bind_run _ _ _ _ _ _ Hstep) in Hret, Hall |- *.
      unfold prepend in *. cbn [outcome calls] in *.
      rewrite (IH c (S s) (world (fetch w)) Hret).
      * simpl List.length. do 2 f_equal. lia.
      * intros l Hin. apply Hall. rewrite fetched_lists_app. apply in_or_app. now right.
    + pose proof (create_step_preview cfg c s x w items Ef Lx) as Hstep.
      rewrite (bind_run _ _ _ _ _ _ Hstep) in Hret, Hall |- *.
      unfold prepend in *. cbn [outcome calls] in *.
      rewrite (IH (S c) s (world (fetch w)) Hret).
      * simpl List.length. do 2 f_equal. lia.
      * intros l Hin. apply Hall. rewrite fetched_lists_app. apply in_or_app. now right.
Qed.

(** The report of a preview pass.  When forward sync in preview mode
    returns, having been answered the Findings [sis] and, at every listing,
    the labeled issues [items]: created is the number of Findings of [sis]
    with no linked issue in [items], skipped the number of those with one,
    closed the number of stale issues of [items]; no create or close call
    was made.  Reverse sync in preview mode, answered the issues [gis],
    makes that one listing and reports the number of declined issues of
    [gis] that carry a key. *)
Theorem preview_reports_decisions (w : W) (sis : list SonarIssue)
  (items gis : list GitHubIssue) (res : gmap string nat) :
  let r := SyncEngine.sync_sonar_to_github cfg true w in
  (outcome r = Returned res ->
   outcome (findings w) = Returned sis ->
   (forall l, In l (fetched_lists (calls r)) -> l = items) ->
   res !! "created"
   = Some (List.length (List.filter (fun f => negb (linked (url f) items)) sis)) /\
   res !! "skipped"
   = Some (List.length (List.filter (fun f => linked (url f) items) sis)) /\
   res !! "closed" = Some (List.length (List.filter (stale sis) items)) /\
   mutations (calls r) = []) /\
  (outcome (fetch w) = Returned gis ->
   SyncEngine.sync_github_to_sonar cfg true w
   = MkRun (Returned (<["marked_wont_fix" := List.length (omap declined_key gis)]> ∅))
       (world (fetch w))
       [CallGetIssuesWithLabel (github_repo cfg) "sonarcloud" (Returned gis)]).
Proof.
  intros r. split.
  - intros E E0 Hall.
    destruct (forward_pass_returned_inv cfg true w res E)
      as (sis' & [c s] & gis' & closed & E0' & E1 & E2 & E3 & -> & Hcalls).
    rewrite E0 in E0'. injection E0' as <-. fold r in Hcalls.
    assert (Hloop : forall l,
               In l (fetched_lists
                       (calls (for_each (SyncEngine.create_step cfg true) sis (0, 0)
                                 (world (findings w))))) -> l = items).
    { intros l Hin. apply Hall. rewrite Hcalls, !fetched_lists_app.
      apply in_or_app. right. apply in_or_app. now left. }
    assert (Hret : has_returned
                     (outcome (for_each (SyncEngine.create_step cfg true) sis (0, 0)
                                 (world (findings w)))) = true) by now rewrite E1.
    pose proof (create_loop_preview_counts sis 0 0 _ items Hret Hloop) as Hcount.
    rewrite E1 in Hcount. injection Hcount as -> ->.
    assert (Hg : gis' = items).
    { apply Hall. rewrite Hcalls, !fetched_lists_app.
      apply in_or_app. right. apply in_or_app. right. apply in_or_app. left.
      rewrite get_issues_with_label_calls, E2. now left. }
    subst gis'. rewrite close_loop_preview in E3. injection E3 as <-.
    cbn [fst snd]. split; [now simplify_map_eq |]. split; [now simplify_map_eq |].
    split; [now simplify_map_eq |].
    apply no_mutations.
    assert (Ho : only (fun c => negb (is_mutating c))
                   (SyncEngine.sync_sonar_to_github cfg true)).
    { unfold SyncEngine.sync_sonar_to_github. apply only_bind.
      - intros w'. destruct (get_issues_calls (sonar_project_key cfg)
                               (issue_types cfg) w') as [t ->]. reflexivity.
      - intros sis'. apply only_bind; [| intros counts; apply only_bind].
        + apply only_for_each. intros [c' s'] f. unfold SyncEngine.create_step.
          apply only_bind.
          * unfold GitHubClient.issue_exists_with_sonar_link. apply only_bind.
            -- intros w'. now rewrite get_issues_with_label_calls.
            -- intros a. apply only_ret.
          * intros [gi|]; apply only_ret.
        + intros w'. now rewrite get_issues_with_label_calls.
        + intros gis'. apply only_bind; [| intros closed'; apply only_ret].
          intros w'. now rewrite close_loop_preview. }
    apply Ho.
  - intros E. unfold SyncEngine.sync_github_to_sonar.
    rewrite (bind_returned _ _ _ _ E).
    rewrite (bind_run _ _ _ _ _ _ (wont_fix_loop_preview gis 0 (world (fetch w)))).
    rewrite get_issues_with_label_calls, E. reflexivity.
Qed.

End PreviewReport.

Section PreviewReportWitness.

Lemma preview_reports_decisions_witness :
  outcome (SyncEngine.sync_sonar_to_github Mock.config true Mock.scenario_b)
  = Returned (<["created" := 0]> (<["skipped" := 1]> (<["closed" := 1]> ∅))) /\
  outcome (SonarClient.get_issues "test-project" ["BUG"; "VULNERABILITY"; "CODE_SMELL"]
             Mock.scenario_b)
  = Returned (Mock.findings Mock.scenario_b) /\
  (forall l,
     In l (fetched_lists
             (calls (SyncEngine.sync_sonar_to_github Mock.config true Mock.scenario_b))) ->
     l = Mock.tracker Mock.scenario_b) /\
  List.length (List.filter (stale (Mock.findings Mock.scenario_b))
                 (Mock.tracker Mock.scenario_b)) = 1 /\
  outcome (GitHubClient.get_issues_with_label "owner/repo" "sonarcloud" Mock.scenario_b)
  = Returned (Mock.tracker Mock.scenario_b) /\
  outcome (SyncEngine.sync_github_to_sonar Mock.config true Mock.scenario_b)
  = Returned (<["marked_wont_fix" := 1]> ∅).
Proof.
  assert (E : outcome (SyncEngine.sync_sonar_to_github Mock.config true Mock.scenario_b)
              = Returned (<["created" := 0]> (<["skipped" := 1]> (<["closed" := 1]> ∅))))
    by (vm_compute; reflexivity).
  assert (E0 : outcome (SonarClient.get_issues (sonar_project_key Mock.config)
                          (issue_types Mock.config) Mock.scenario_b)
               = Returned (Mock.findings Mock.scenario_b)) by (vm_compute; reflexivity).
  assert (Hall : forall l,
             In l (fetched_lists
                     (calls (SyncEngine.sync_sonar_to_github Mock.config true
                               Mock.scenario_b))) ->
             l = Mock.tracker Mock.scenario_b).
  { intros l Hin. vm_compute in Hin. destruct Hin as [<- | [<- | []]]; reflexivity. }
  assert (Eg : outcome (GitHubClient.get_issues_with_label (github_repo Mock.config)
                          "sonarcloud" Mock.scenario_b)
               = Returned (Mock.tracker Mock.scenario_b)) by (vm_compute; reflexivity).
  destruct (preview_reports_decisions Mock.config Mock.scenario_b
              (Mock.findings Mock.scenario_b) (Mock.tracker Mock.scenario_b)
              (Mock.tracker Mock.scenario_b)
              (<["created" := 0]> (<["skipped" := 1]> (<["closed" := 1]> ∅))))
    as [Hf Hr].
  destruct (Hf E E0 Hall) as (_ & _ & Hclosed & _).
  split; [exact E |]. split; [exact E0 |]. split; [exact Hall |].
  split; [vm_compute; reflexivity |]. split; [exact Eg |].
  exact (f_equal outcome (Hr Eg)).
Defined.

End PreviewReportWitness.

(** ** The mark-won't-fix requests *)

Section WontFixRequests.
Context {W : Type} `{Collaborators W}.
Variable cfg : Config.

Lemma declined_key_valid (gi : GitHubIssue) (k : string) :
  declined_key gi = Some k -> valid_key k = true.
Proof.
  unfold declined_key. destruct (_ && _); [| discriminate].
  apply extract_valid.
Qed.

Lemma wont_fix_step_marks_valid_key (dry : bool) (marked : nat) (gi : GitHubIssue) :
  only marks_valid_key (SyncEngine.wont_fix_step (W:=W) dry marked gi).
Proof.
  intros w. destruct (declined_key gi) as [k|] eqn:Ek.
  - destruct dry.
    + now rewrite (wont_fix_step_preview marked gi w k Ek).
    + rewrite (wont_fix_step_execute marked gi w k Ek). cbn [calls forallb marks_valid_key].
      rewrite (declined_key_valid gi k Ek). rewrite bool_decide_eq_true_2 by reflexivity.
      reflexivity.
  - now rewrite (wont_fix_step_none dry marked gi w Ek).
Qed.

Lemma engine_marks_valid_keys (dry : bool) :
  only marks_valid_key (SyncEngine.full_sync cfg dry).
Proof.
  assert (Hfetch : forall repo label,
             only marks_valid_key (GitHubClient.get_issues_with_label repo label)).
  { intros repo label w. now rewrite get_issues_with_label_calls. }
  unfold SyncEngine.full_sync. apply only_bind.
  - unfold SyncEngine.validate_credentials. apply only_bind.
    + intros w. destruct (sonar_test_connection_run w) as [b ->]. reflexivity.
    + intros [|]; cbn [negb]; [| apply only_raise]. apply only_bind.
      * intros w. destruct (github_test_connection_run (github_repo cfg) w) as [b ->].
        reflexivity.
      * intros [|]; cbn [negb]; [apply only_ret | apply only_raise].
  - intros _. apply only_bind; [| intros r1; apply only_bind].
    + apply (only_weaken (fun c => negb (is_wont_fix c))).
      { intros c Hc. now destruct c. }
      unfold SyncEngine.sync_sonar_to_github. apply only_bind.
      * intros w. destruct (get_issues_calls (sonar_project_key cfg) (issue_types cfg) w)
          as [t ->]. reflexivity.
      * intros sis. apply only_bind; [| intros counts; apply only_bind].
        -- apply only_for_each. intros [c s] f. unfold SyncEngine.create_step.
           apply only_bind.
           ++ unfold GitHubClient.issue_exists_with_sonar_link. apply only_bind.
              ** intros w. now rewrite get_issues_with_label_calls.
              ** intros a. apply only_ret.
           ++ intros [gi|]; [apply only_ret |]. destruct dry; [apply only_ret |].
              apply only_try_except; [| intros e; apply only_ret].
              apply only_bind; [| intros a; apply only_ret].
              intros w. now rewrite create_issue_calls.
        -- intros w. now rewrite get_issues_with_label_calls.
        -- intros gis. apply only_bind; [| intros closed; apply only_ret].
           apply only_for_each. intros closed gi. unfold SyncEngine.close_step.
           destruct (String.eqb _ _); [| apply only_ret].
           destruct (_extract_sonar_issue_key _); [| apply only_ret].
           destruct (negb _); [| apply only_ret].
           destruct dry; [apply only_ret |].
           apply only_try_except; [| intros e; apply only_ret].
           apply only_bind; [| intros a; apply only_ret].
           intros w. now rewrite close_issue_calls.
    + unfold SyncEngine.sync_github_to_sonar.
      apply only_bind; [apply Hfetch | intros gis].
      apply only_bind; [| intros marked; apply only_ret].
      apply only_for_each. intros marked gi. apply wont_fix_step_marks_valid_key.
    + intros r2. apply only_ret.
Qed.

(** Every mark-won't-fix call of a pass, in either mode, is for a
    non-empty key made of characters of [[A-Za-z0-9_:-]], and posts exactly
    that key with the transition ["wontfix"]: the engine never asks the
    analysis service to resolve an empty or malformed key. *)
Theorem wont_fix_requests_carry_valid_keys (dry : bool) (w : W)
  (k : string) (data : list (string * string)) (a : Outcome bool) :
  In (CallResolveWontFix k data a) (calls (SyncEngine.full_sync cfg dry w)) ->
  valid_key k = true /\ data = [("issue", k); ("transition", "wontfix")].
Proof.
  intros Hin. pose proof (engine_marks_valid_keys dry w) as Hall.
  rewrite forallb_forall in Hall. specialize (Hall _ Hin). simpl in Hall.
  apply andb_true_iff in Hall as [Hv Hd]. apply bool_decide_eq_true in Hd.
  now split.
Qed.

End WontFixRequests.

Section WontFixRequestsWitness.

Lemma wont_fix_requests_carry_valid_keys_witness :
  In (CallResolveWontFix "sonar-3" [("issue", "sonar-3"); ("transition", "wontfix")]
        (Returned true))
     (calls (SyncEngine.full_sync Mock.config false Mock.scenario_b)) /\
  valid_key "sonar-3" = true.
Proof.
  assert (Hin : In (CallResolveWontFix "sonar-3"
                      [("issue", "sonar-3"); ("transition", "wontfix")] (Returned true))
                  (calls (SyncEngine.full_sync Mock.config false Mock.scenario_b))).
  { vm_compute. do 7 right. left. reflexivity. }
  split; [exact Hin |].
  exact (proj1 (wont_fix_requests_carry_valid_keys Mock.config false Mock.scenario_b
                  _ _ _ Hin)).
Defined.

End WontFixRequestsWitness.

(** ** A fetch that fails *)

Section FatalFetch.
Context {W : Type} `{Collaborators W}.
Variable cfg : Config.

Local Abbreviation fetch := (GitHubClient.get_issues_with_label (github_repo cfg) "sonarcloud").
Local Abbreviation findings :=
  (SonarClient.get_issues (sonar_project_key cfg) (issue_types cfg)).

Lemma listing_raises_fetch_error (repo label : string) (w : W) (e : Error) :
  outcome (GitHubClient.get_issues_with_label repo label w) = Raised e ->
  (exists t, e = FailedFetchGitHubIssues t) \/ e = ValidationError validation_text.
Proof.
  unfold GitHubClient.get_issues_with_label.
  destruct (github_list_issues repo label w) as [[data|t] w']; simpl.
  - destruct (GitHubClient.build_issues data); [discriminate |].
    intros [= <-]. now right.
  - intros [= <-]. left. now exists t.
Qed.

(** A fetch that raises ends forward sync at once, in either mode, with
    that exception and no result map.  If the search for the Findings
    raises, it is the only call.  If the listing made for a Finding raises
    (the wrapped request error, or the validation error of an issue that
    cannot be built), the Findings after it get no call, and the create
    requests already made stand.  If the listing for the closure loop raises, no close request is
    made, and the counters of the Finding loop are lost with the result. *)
Theorem failed_fetch_ends_forward_sync (dry : bool) (w : W) :
  let r0 := findings w in
  let r := SyncEngine.sync_sonar_to_github cfg dry w in
  (forall e, outcome r0 = Raised e ->
     r = MkRun (Raised e) (world r0) (calls r0) /\
     exists t a, calls r0 = [CallGetIssues (sonar_project_key cfg) a (Raised e)] /\
                 e = FailedFetchSonarIssues t) /\
  (forall pre f post c s e,
     let r1 := for_each (SyncEngine.create_step cfg dry) pre (0, 0) (world r0) in
     outcome r0 = Returned (pre ++ f :: post) ->
     outcome r1 = Returned (c, s) ->
     outcome (fetch (world r1)) = Raised e ->
     r = MkRun (Raised e) (world (fetch (world r1)))
           (calls r0 ++ calls r1 ++
            [CallGetIssuesWithLabel (github_repo cfg) "sonarcloud" (Raised e)]) /\
     ((exists t, e = FailedFetchGitHubIssues t) \/ e = ValidationError validation_text)) /\
  (forall sis counts e,
     let r1 := for_each (SyncEngine.create_step cfg dry) sis (0, 0) (world r0) in
     outcome r0 = Returned sis ->
     outcome r1 = Returned counts ->
     outcome (fetch (world r1)) = Raised e ->
     r = MkRun (Raised e) (world (fetch (world r1)))
           (calls r0 ++ calls r1 ++
            [CallGetIssuesWithLabel (github_repo cfg) "sonarcloud" (Raised e)]) /\
     close_requests (calls r) = []).
Proof.
  intros r0 r. split; [| split].
  - intros e E0. split.
    + unfold r, SyncEngine.sync_sonar_to_github. now rewrite (bind_raised _ _ _ _ E0).
    + unfold r0 in *. unfold SonarClient.get_issues in *.
      destruct (sonar_search _ _ w) as [[l|t] w']; simpl in *; [discriminate |].
      injection E0 as <-. now eexists _, _.
  - intros pre f post c s e r1 E0 E1 Ef.
    pose proof (get_issues_with_label_calls (github_repo cfg) "sonarcloud" (world r1)) as Cf.
    rewrite Ef in Cf.
    split; [| exact (listing_raises_fetch_error _ _ _ _ Ef)].
    unfold r, SyncEngine.sync_sonar_to_github.
    rewrite (bind_returned _ _ _ _ E0). fold r0.
    assert (Hloop : for_each (SyncEngine.create_step cfg dry) (pre ++ f :: post) (0, 0)
                      (world r0)
                    = MkRun (Raised e) (world (fetch (world r1)))
                        (calls r1 ++ [CallGetIssuesWithLabel (github_repo cfg)
                                        "sonarcloud" (Raised e)])).
    { rewrite for_each_app. fold r1. rewrite (bind_returned _ _ _ _ E1). fold r1.
      rewrite for_each_cons.
      rewrite (bind_raised _ _ _ e)
        by now rewrite (create_step_fetch_raised cfg dry c s f _ e Ef).
      rewrite (create_step_fetch_raised cfg dry c s f _ e Ef).
      unfold prepend. cbn [outcome world calls]. now rewrite Cf. }
    rewrite (bind_raised _ _ _ e) by now rewrite Hloop.
    rewrite Hloop. unfold prepend. cbn [outcome world calls]. reflexivity.
  - intros sis counts e r1 E0 E1 Ef.
    pose proof (get_issues_with_label_calls (github_repo cfg) "sonarcloud" (world r1)) as Cf.
    rewrite Ef in Cf.
    assert (Hr : r = MkRun (Raised e) (world (fetch (world r1)))
                   (calls r0 ++ calls r1 ++
                    [CallGetIssuesWithLabel (github_repo cfg) "sonarcloud" (Raised e)])).
    { unfold r, SyncEngine.sync_sonar_to_github.
      rewrite (bind_returned _ _ _ _ E0). fold r0.
      rewrite (bind_returned _ _ _ _ E1). fold r1.
      rewrite (bind_raised _ _ _ _ Ef). unfold prepend. cbn [outcome world calls].
      now rewrite Cf. }
    split; [exact Hr |]. rewrite Hr. cbn [calls].
    destruct (get_issues_calls (sonar_project_key cfg) (issue_types cfg) w) as [t Ct].
    fold r0 in Ct.
    destruct (no_close_calls _ (create_loop_no_close cfg dry sis (0, 0) (world r0)))
      as [Hnc _]. fold r1 in Hnc.
    now rewrite !close_requests_app, Hnc, Ct.
Qed.

End FatalFetch.

Section FatalFetchWitness.

Lemma failed_fetch_ends_forward_sync_witness :
  (outcome (SonarClient.get_issues "test-project" ["BUG"; "VULNERABILITY"; "CODE_SMELL"]
              Outage.search_down)
   = Raised (FailedFetchSonarIssues "503 Service Unavailable") /\
   SyncEngine.sync_sonar_to_github Mock.config false Outage.search_down
   = MkRun (Raised (FailedFetchSonarIssues "503 Service Unavailable")) Outage.search_down
       [CallGetIssues "test-project" (Some "BUG,VULNERABILITY,CODE_SMELL")
          (Raised (FailedFetchSonarIssues "503 Service Unavailable"))]) /\
  (outcome (SyncEngine.sync_sonar_to_github Mock.config false Outage.one_listing)
   = Raised (FailedFetchGitHubIssues "503 Service Unavailable") /\
   create_requests (calls (SyncEngine.sync_sonar_to_github Mock.config false
                             Outage.one_listing))
   = [_create_github_issue_body (Mock.finding "sonar-1" "Null dereference" ["security"])]) /\
  (outcome (SyncEngine.sync_sonar_to_github Mock.config false Outage.two_listings)
   = Raised (FailedFetchGitHubIssues "503 Service Unavailable") /\
   List.length (create_requests (calls (SyncEngine.sync_sonar_to_github Mock.config false
                                          Outage.two_listings))) = 2).
Proof.
  split; [| split].
  - assert (E0 : outcome (SonarClient.get_issues (sonar_project_key Mock.config)
                            (issue_types Mock.config) Outage.search_down)
                 = Raised (FailedFetchSonarIssues "503 Service Unavailable"))
      by (vm_compute; reflexivity).
    split; [exact E0 |].
    destruct (proj1 (failed_fetch_ends_forward_sync Mock.config false Outage.search_down)
                _ E0) as [Hr _].
    rewrite Hr. vm_compute. reflexivity.
  - set (f1 := Mock.finding "sonar-1" "Null dereference" ["security"]).
    set (f2 := Mock.finding "sonar-2" "Unused variable" []).
    assert (E0 : outcome (SonarClient.get_issues (sonar_project_key Mock.config)
                            (issue_types Mock.config) Outage.one_listing)
                 = Returned ([f1] ++ f2 :: [])) by (vm_compute; reflexivity).
    assert (E1 : outcome (for_each (SyncEngine.create_step Mock.config false) [f1] (0, 0)
                            (world (SonarClient.get_issues (sonar_project_key Mock.config)
                                      (issue_types Mock.config) Outage.one_listing)))
                 = Returned (1, 0)) by (vm_compute; reflexivity).
    destruct (proj1 (proj2 (failed_fetch_ends_forward_sync Mock.config false
                              Outage.one_listing))
                [f1] f2 [] 1 0 (FailedFetchGitHubIssues "503 Service Unavailable") E0 E1)
      as [Hr _]; [vm_compute; reflexivity |].
    rewrite Hr. split; vm_compute; reflexivity.
  - set (sis := Mock.findings Mock.scenario_a).
    assert (E0 : outcome (SonarClient.get_issues (sonar_project_key Mock.config)
                            (issue_types Mock.config) Outage.two_listings)
                 = Returned sis) by (vm_compute; reflexivity).
    assert (E1 : outcome (for_each (SyncEngine.create_step Mock.config false) sis (0, 0)
                            (world (SonarClient.get_issues (sonar_project_key Mock.config)
                                      (issue_types Mock.config) Outage.two_listings)))
                 = Returned (2, 0)) by (vm_compute; reflexivity).
    destruct (proj2 (proj2 (failed_fetch_ends_forward_sync Mock.config false
                              Outage.two_listings))
                sis (2, 0) (FailedFetchGitHubIssues "503 Service Unavailable") E0 E1)
      as [Hr _]; [vm_compute; reflexivity |].
    rewrite Hr. split; vm_compute; reflexivity.
Defined.

End FatalFetchWitness.

(** ** The paginated listing *)

Section PagedListing.
Context {W : Type}.
Variable get_page : string -> string -> nat -> W -> Response (list GitHubIssue) * W.
Variables repo label : string.







End PagedListing.

Section PagedListingWitness.




End PagedListingWitness.

(** ** The scope of a pass *)

Section Scope.
Context {W : Type} `{Collaborators W}.
Variable cfg : Config.

Lemma engine_stays_in_scope (dry : bool) :
  only (in_scope cfg) (SyncEngine.full_sync cfg dry).
Proof.
  assert (Hfetch : only (in_scope cfg)
                     (GitHubClient.get_issues_with_label (github_repo cfg) "sonarcloud")).
  { intros w. rewrite get_issues_with_label_calls. cbn [forallb in_scope].
    now rewrite !bool_decide_eq_true_2 by reflexivity. }
  unfold SyncEngine.full_sync. apply only_bind.
  - unfold SyncEngine.validate_credentials. apply only_bind.
    + intros w. destruct (sonar_test_connection_run w) as [b ->]. reflexivity.
    + intros [|]; cbn [negb]; [| apply only_raise]. apply only_bind.
      * intros w. destruct (github_test_connection_run (github_repo cfg) w) as [b ->].
        cbn [calls forallb in_scope]. now rewrite bool_decide_eq_true_2 by reflexivity.
      * intros [|]; cbn [negb]; [apply only_ret | apply only_raise].
  - intros _. apply only_bind; [| intros r1; apply only_bind].
    + unfold SyncEngine.sync_sonar_to_github. apply only_bind.
      * intros w. unfold SonarClient.get_issues.
        destruct (sonar_search _ _ w) as [[l|e] w']; cbn [calls forallb in_scope];
          now rewrite !bool_decide_eq_true_2 by reflexivity.
      * intros sis. apply only_bind; [| intros counts; apply only_bind].
        -- apply only_for_each. intros [c s] f. unfold SyncEngine.create_step.
           apply only_bind.
           ++ unfold GitHubClient.issue_exists_with_sonar_link. apply only_bind.
              ** exact Hfetch.
              ** intros a. apply only_ret.
           ++ intros [gi|]; [apply only_ret |]. destruct dry; [apply only_ret |].
              apply only_try_except; [| intros e; apply only_ret].
              apply only_bind; [| intros a; apply only_ret].
              intros w. rewrite create_issue_calls. cbn [forallb in_scope head].
              now rewrite !bool_decide_eq_true_2 by reflexivity.
        -- exact Hfetch.
        -- intros gis. apply only_bind; [| intros closed; apply only_ret].
           apply only_for_each. intros closed gi. unfold SyncEngine.close_step.
           destruct (String.eqb _ _); [| apply only_ret].
           destruct (_extract_sonar_issue_key _); [| apply only_ret].
           destruct (negb _); [| apply only_ret].
           destruct dry; [apply only_ret |].
           apply only_try_except; [| intros e; apply only_ret].
           apply only_bind; [| intros a; apply only_ret].
           intros w. rewrite close_issue_calls. cbn [forallb in_scope].
           now rewrite !bool_decide_eq_true_2 by reflexivity.
    + unfold SyncEngine.sync_github_to_sonar.
      apply only_bind; [apply Hfetch | intros gis].
      apply only_bind; [| intros marked; apply only_ret].
      apply only_for_each. intros marked gi.
      apply (only_weaken (fun c => is_wont_fix c)).
      { intros c Hc. now destruct c. }
      intros w. destruct dry.
      * destruct (declined_key gi) as [k|] eqn:Ek.
        -- now rewrite (wont_fix_step_preview marked gi w k Ek).
        -- now rewrite (wont_fix_step_none true marked gi w Ek).
      * destruct (declined_key gi) as [k|] eqn:Ek.
        -- now rewrite (wont_fix_step_execute marked gi w k Ek).
        -- now rewrite (wont_fix_step_none false marked gi w Ek).
    + intros r2. apply only_ret.
Qed.

(** Every call of a full pass, in either mode and whatever the services
    answer, is addressed as the configuration says: the search goes to the
    configured project with the configured types joined by commas (no
    [types] parameter for an empty list); each connection test, listing,
    create and close request goes to the configured repository; each
    listing asks for the label ["sonarcloud"], and each create request has
    ["sonarcloud"] as its first label. *)
Theorem pass_stays_in_configured_scope (dry : bool) (w : W) :
  forallb (in_scope cfg) (calls (SyncEngine.full_sync cfg dry w)) = true.
Proof. apply engine_stays_in_scope. Qed.

End Scope.

(** ** How a pass fails *)

Section Failure.
Context {W : Type} `{Collaborators W}.
Variable cfg : Config.

Lemma stops_ret {A} (a : A) : stops_at_failure (ret (W:=W) a).
Proof. intros w e E. discriminate E. Qed.

Lemma stops_bind {A B} (m : M W A) (f : A -> M W B) :
  stops_at_failure m -> (forall a, stops_at_failure (f a)) ->
  stops_at_failure (bind m f).
Proof.
  intros Hm Hf w e. rewrite bind_outcome, bind_calls.
  destruct (outcome (m w)) as [a|e'] eqn:E.
  - intros E'. destruct (Hf a _ _ E') as (Hfat & pre & c & Hc & Hb).
    split; [exact Hfat |]. exists (calls (m w) ++ pre)%list, c.
    rewrite Hc. now rewrite app_assoc.
  - intros [= ->]. destruct (Hm _ _ E) as (Hfat & pre & c & Hc & Hb).
    split; [exact Hfat |]. exists pre, c. now rewrite app_nil_r.
Qed.

Lemma stops_for_each {A S} (step : S -> A -> M W S) (l : list A) :
  (forall acc x, stops_at_failure (step acc x)) ->
  forall acc, stops_at_failure (for_each step l acc).
Proof.
  intros Hs. induction l as [|x l IH]; intros acc.
  - apply stops_ret.
  - simpl. apply stops_bind; [apply Hs | exact IH].
Qed.

(** A [try] whose handler only sets the loop's variables never raises. *)
Lemma stops_try_except {A} (m : M W A) (a : A) :
  stops_at_failure (try_except m (fun _ => ret a)).
Proof.
  intros w e. unfold try_except.
  destruct (outcome (m w)) as [x|e'] eqn:E; [now rewrite E | discriminate].
Qed.

Lemma stops_listing (repo label : string) :
  stops_at_failure (GitHubClient.get_issues_with_label (W:=W) repo label).
Proof.
  intros w e. unfold GitHubClient.get_issues_with_label.
  destruct (github_list_issues repo label w) as [[data|t] w'].
  - destruct (GitHubClient.build_issues data); cbn [outcome calls]; [discriminate |].
    intros [= <-]. split; [reflexivity |].
    now exists [], (CallGetIssuesWithLabel repo label
                      (Raised (ValidationError validation_text))).
  - cbn [outcome calls]. intros [= <-]. split; [reflexivity |].
    now exists [], (CallGetIssuesWithLabel repo label
                      (Raised (FailedFetchGitHubIssues t))).
Qed.

Lemma engine_stops_at_failure (dry : bool) :
  stops_at_failure (SyncEngine.full_sync cfg dry).
Proof.
  unfold SyncEngine.full_sync. apply stops_bind.
  - unfold SyncEngine.validate_credentials. intros w e.
    destruct (validate_credentials_run cfg w) as (H1 & H2 & H3). cbn zeta in *.
    destruct (sonar_test_connection_run w) as [b1 E1].
    assert (O1 : outcome (SonarClient.test_connection w) = Returned b1) by now rewrite E1.
    destruct b1.
    + destruct (github_test_connection_run (github_repo cfg)
                  (world (SonarClient.test_connection w))) as [b2 E2].
      assert (O2 : outcome (GitHubClient.test_connection (github_repo cfg)
                              (world (SonarClient.test_connection w))) = Returned b2)
        by now rewrite E2.
      destruct b2.
      * unfold SyncEngine.validate_credentials in H3. rewrite (H3 O1 O2). discriminate.
      * unfold SyncEngine.validate_credentials in H2. rewrite (H2 O1 O2).
        cbn [outcome calls]. intros [= <-]. split; [reflexivity |].
        now exists [CallSonarTestConnection true],
                   (CallGitHubTestConnection (github_repo cfg) false).
    + unfold SyncEngine.validate_credentials in H1. rewrite (H1 O1).
      cbn [outcome calls]. intros [= <-]. split; [reflexivity |].
      now exists [], (CallSonarTestConnection false).
  - intros _. apply stops_bind; [| intros r1; apply stops_bind].
    + unfold SyncEngine.sync_sonar_to_github. apply stops_bind.
      * intros w e. unfold SonarClient.get_issues.
        destruct (sonar_search _ _ w) as [[l|t] w']; cbn [outcome calls];
          [discriminate |].
        intros [= <-]. split; [reflexivity |]. eexists [], _. split; reflexivity.
      * intros sis. apply stops_bind; [| intros counts; apply stops_bind].
        -- apply stops_for_each. intros [c s] f. unfold SyncEngine.create_step.
           apply stops_bind.
           ++ unfold GitHubClient.issue_exists_with_sonar_link. apply stops_bind.
              ** apply stops_listing.
              ** intros a. apply stops_ret.
           ++ intros [gi|]; [apply stops_ret |]. destruct dry; [apply stops_ret |].
              apply stops_try_except.
        -- apply stops_listing.
        -- intros gis. apply stops_bind; [| intros closed; apply stops_ret].
           apply stops_for_each. intros closed gi. unfold SyncEngine.close_step.
           destruct (String.eqb _ _); [| apply stops_ret].
           destruct (_extract_sonar_issue_key _); [| apply stops_ret].
           destruct (negb _); [| apply stops_ret].
           destruct dry; [apply stops_ret |]. apply stops_try_except.
    + unfold SyncEngine.sync_github_to_sonar.
      apply stops_bind; [apply stops_listing | intros gis].
      apply stops_bind; [| intros marked; apply stops_ret].
      apply stops_for_each. intros marked gi. unfold SyncEngine.wont_fix_step.
      destruct (_ && _); [| apply stops_ret].
      destruct (_extract_sonar_issue_key _); [| apply stops_ret].
      destruct dry; [apply stops_ret |]. apply stops_try_except.
    + intros r2. apply stops_ret.
Qed.

(** A full pass that raises, in either mode, raises the exception of a
    failed credential check or of a failed fetch, and the call that failed
    is the last one it made.  The exception of a failed fetch is the wrapped
    request error of the search or of the listing, or the unwrapped
    [ValidationError] of a listing that holds an issue without a body.  A
    create, close or mark-won't-fix request that fails never ends the pass,
    also when it fails with a [ValidationError], and after the failed check
    or fetch no further request is sent. *)
Theorem pass_stops_at_failed_check_or_fetch (dry : bool) (w : W) (e : Error) :
  let r := SyncEngine.full_sync cfg dry w in
  outcome r = Raised e ->
  is_fatal e = true /\
  exists pre c, calls r = (pre ++ [c])%list /\ blamed c = Some e.
Proof. intros r. apply engine_stops_at_failure. Qed.

End Failure.

Section FailureWitness.

Lemma pass_stops_at_failed_check_or_fetch_witness :
  let r := SyncEngine.full_sync Mock.config false Outage.one_listing in
  let r' := SyncEngine.full_sync Mock.config false Blank.scenario_b in
  (outcome r = Raised (FailedFetchGitHubIssues "503 Service Unavailable") /\
   exists pre c, calls r = (pre ++ [c])%list /\
                 blamed c = Some (FailedFetchGitHubIssues "503 Service Unavailable")) /\
  (outcome r' = Raised (ValidationError "1 validation error for GitHubIssue") /\
   exists pre c, calls r' = (pre ++ [c])%list /\
                 blamed c = Some (ValidationError "1 validation error for GitHubIssue")).
Proof.
  intros r r'.
  assert (E : outcome r = Raised (FailedFetchGitHubIssues "503 Service Unavailable"))
    by (vm_compute; reflexivity).
  assert (E' : outcome r' = Raised (ValidationError "1 validation error for GitHubIssue"))
    by (vm_compute; reflexivity).
  split.
  - split; [exact E |].
    exact (proj2 (pass_stops_at_failed_check_or_fetch Mock.config false
                    Outage.one_listing _ E)).
  - split; [exact E' |].
    exact (proj2 (pass_stops_at_failed_check_or_fetch Mock.config false
                    Blank.scenario_b _ E')).
Defined.

End FailureWitness.

(** ** Configuration and command line *)

Section Configuration.
Context {W : Type} `{Collaborators W}.

Lemma split_not_nil (sep : ascii) (s : string) : Str.split sep s <> [].
Proof.
  destruct s as [|c t]; simpl; [discriminate |].
  destruct (Ascii.eqb c sep); [discriminate |].
  destruct (Str.split sep t); discriminate.
Qed.

(** [sep.join(s.split(sep))] is [s]. *)
Lemma join_split (sep : ascii) (s : string) :
  Py.join (String sep "") (Str.split sep s) = s.
Proof.
  induction s as [|c t IH]; [reflexivity |].
  pose proof (split_not_nil sep t) as Hne. cbn [Str.split].
  destruct (Ascii.eqb c sep) eqn:Ec.
  - apply Ascii.eqb_eq in Ec as ->.
    destruct (Str.split sep t) as [|p ps]; [now destruct Hne |].
    change (Py.join (String sep "") ("" :: p :: ps))
      with ("" +:+ String sep "" +:+ Py.join (String sep "") (p :: ps)).
    now rewrite IH.
  - destruct (Str.split sep t) as [|p ps]; [now destruct Hne |].
    destruct ps as [|q ps].
    + simpl in IH |- *. now rewrite IH.
    + change (Py.join (String sep "") (String c p :: q :: ps))
        with (String c (Py.join (String sep "") (p :: q :: ps))).
      now rewrite IH.
Qed.

Lemma from_env_built (environ : gmap string string) (pk repo : string)
  (types : option (list string)) (c : Config) :
  from_env environ pk repo types = Built c ->
  environ !! "SONAR_TOKEN" = Some (sonar_token c) /\ sonar_token c <> "" /\
  environ !! "GITHUB_TOKEN" = Some (github_token c) /\ github_token c <> "" /\
  sonar_project_key c = pk /\ github_repo c = repo /\
  issue_types c = match types with
                  | Some (t :: ts) => t :: ts
                  | _ => ["BUG"; "VULNERABILITY"; "CODE_SMELL"]
                  end.
Proof.
  unfold from_env.
  destruct (environ !! "SONAR_TOKEN") as [[|a st]|]; try discriminate.
  destruct (environ !! "GITHUB_TOKEN") as [[|b gt]|]; try discriminate.
  intros [= <-]. cbn. repeat split; discriminate.
Qed.

(** A configuration built from the environment has both tokens, as the
    environment gives them and not empty, and a list of issue types that is
    not empty: the given list, or the three default types when none or an
    empty one is given.  So every search for Findings of a pass run with it
    carries a [types] parameter, the types joined by commas. *)
Theorem config_from_env_is_complete (environ : gmap string string)
  (pk repo : string) (types : option (list string)) (c : Config) :
  from_env environ pk repo types = Built c ->
  (environ !! "SONAR_TOKEN" = Some (sonar_token c) /\ sonar_token c <> "") /\
  (environ !! "GITHUB_TOKEN" = Some (github_token c) /\ github_token c <> "") /\
  issue_types c <> [] /\
  (forall l, types = Some l -> l <> [] -> issue_types c = l) /\
  (types = None \/ types = Some [] ->
   issue_types c = ["BUG"; "VULNERABILITY"; "CODE_SMELL"]) /\
  forall (dry : bool) (w : W) p t a,
    In (CallGetIssues p t a) (calls (SyncEngine.full_sync c dry w)) ->
    p = pk /\ t = Some (Py.join "," (issue_types c)).
Proof.
  intros E. destruct (from_env_built _ _ _ _ _ E) as (S1 & S2 & G1 & G2 & Hp & Hr & Ht).
  assert (Hne : issue_types c <> []).
  { rewrite Ht. destruct types as [[|x l]|]; discriminate. }
  split; [now split |]. split; [now split |]. split; [exact Hne |].
  split; [| split].
  - intros l -> Hl. rewrite Ht. destruct l; [now destruct Hl | reflexivity].
  - intros [-> | ->]; exact Ht.
  - intros dry w p t a Hin.
    pose proof (engine_stays_in_scope c dry w) as Hall.
    rewrite forallb_forall in Hall. specialize (Hall _ Hin). cbn [in_scope] in Hall.
    apply andb_true_iff in Hall as [Hp' Ht'].
    apply bool_decide_eq_true in Hp', Ht'. split; [congruence |].
    rewrite Ht'. destruct (issue_types c); [now destruct Hne | reflexivity].
Qed.

End Configuration.

Section Command.
Context {W : Type} `{Collaborators W}.
Variable strip_upper : string -> string.

(** The command with a token missing: if [SONAR_TOKEN] is unset or empty,
    the command exits with status 1 and the one line
    "Configuration Error: SONAR_TOKEN environment variable is required" on
    the standard error, whatever [GITHUB_TOKEN] is; if [SONAR_TOKEN] is set
    and [GITHUB_TOKEN] is unset or empty, the same with [GITHUB_TOKEN] in
    the message.  In both cases nothing is echoed to the standard output
    and the engine is not started: no request is sent to either service. *)
Theorem missing_token_stops_command (environ : gmap string string)
  (pk repo types : string) (dry : bool) (w : W) :
  let run := Cli.main strip_upper environ pk repo types dry w in
  (environ !! "SONAR_TOKEN" = None \/ environ !! "SONAR_TOKEN" = Some "" ->
   run = MkCliRun (SysExit 1) []
           ["Configuration Error: SONAR_TOKEN environment variable is required"] None) /\
  ((exists st, environ !! "SONAR_TOKEN" = Some st /\ st <> "") ->
   environ !! "GITHUB_TOKEN" = None \/ environ !! "GITHUB_TOKEN" = Some "" ->
   run = MkCliRun (SysExit 1) []
           ["Configuration Error: GITHUB_TOKEN environment variable is required"] None).
Proof.
  cbn zeta. unfold Cli.main, from_env. split.
  - intros [-> | ->]; reflexivity.
  - intros (st & -> & Hst) [-> | ->]; destruct st; try reflexivity; now destruct Hst.
Qed.

Lemma full_pass_result_keys (cfg : Config) (dry : bool) (w : W) (res : gmap string nat) :
  outcome (SyncEngine.full_sync cfg dry w) = Returned res ->
  exists a b c d,
    res !! "created" = Some a /\ res !! "skipped" = Some b /\
    res !! "closed" = Some c /\ res !! "marked_wont_fix" = Some d.
Proof.
  unfold SyncEngine.full_sync. intros E.
  apply bind_returned_inv in E as (v & _ & E).
  apply bind_returned_inv in E as (r1 & E1 & E).
  apply bind_returned_inv in E as (r2 & E2 & E).
  injection E as <-.
  apply forward_result_keys in E1. apply reverse_result_keys in E2.
  assert (Hk : forall k, k ∈ ({["created"; "skipped"; "closed"; "marked_wont_fix"]} : gset string) ->
                         is_Some ((r2 ∪ r1) !! k)).
  { intros k Hk. apply elem_of_dom. rewrite dom_union_L, E1, E2. set_solver. }
  destruct (Hk "created") as [a Ha]; [set_solver |].
  destruct (Hk "skipped") as [b Hb]; [set_solver |].
  destruct (Hk "closed") as [c Hc]; [set_solver |].
  destruct (Hk "marked_wont_fix") as [d Hd]; [set_solver |].
  now exists a, b, c, d.
Qed.

(** The command with both tokens set: it runs one full pass with the
    configuration made of the tokens, the project, the repository and the
    normalised parts of the issue-types option.  If the pass raises, the
    command exits with status 1, echoes nothing with [click.echo] to the
    standard output and echoes one line to the standard error: for a
    [ValidationError], which is a [ValueError] and so taken by the first
    handler, "Configuration Error: <text of the exception>"; for any other
    exception "Sync Error: <message of the exception>".  If the pass
    returns, the command returns and echoes nothing to the standard error;
    in preview mode it echoes nothing, in execution mode it echoes the
    banner and the four counters of the result, in the order created,
    skipped, closed, marked.  (The lines of the log are left out.) *)
Theorem command_reports_the_pass (environ : gmap string string)
  (pk repo types : string) (dry : bool) (w : W) (st gt : string) :
  environ !! "SONAR_TOKEN" = Some st -> st <> "" ->
  environ !! "GITHUB_TOKEN" = Some gt -> gt <> "" ->
  let config := {| sonar_token := st; github_token := gt;
                   sonar_project_key := pk; github_repo := repo;
                   issue_types := List.map strip_upper (Str.split "," types) |} in
  let r := SyncEngine.full_sync config dry w in
  let run := Cli.main strip_upper environ pk repo types dry w in
  engine run = Some r /\
  (forall e, outcome r = Raised e ->
     exit run = SysExit 1 /\ echoed run = [] /\
     errors run = [(if is_value_error e then "Configuration Error: " else "Sync Error: ")
                   +:+ error_message e]) /\
  (forall t, outcome r = Raised (ValidationError t) ->
     errors run = ["Configuration Error: " +:+ t]) /\
  (forall res, outcome r = Returned res ->
     exit run = Returns /\ errors run = [] /\
     (dry = true -> echoed run = []) /\
     (dry = false ->
      exists a b c d,
        res !! "created" = Some a /\ res !! "skipped" = Some b /\
        res !! "closed" = Some c /\ res !! "marked_wont_fix" = Some d /\
        echoed run = [Py.nl +:+ Str.times "=" 50;
                      "SYNC COMPLETED SUCCESSFULLY";
                      Str.times "=" 50;
                      "GitHub issues created: " +:+ pretty a;
                      "Duplicates skipped: " +:+ pretty b;
                      "GitHub issues closed: " +:+ pretty c;
                      "SonarCloud issues marked as 'Won't Fix': " +:+ pretty d])).
Proof.
  intros Es Hs Eg Hg config r run.
  assert (Ec : from_env environ pk repo
                 (Some (List.map strip_upper (Str.split "," types))) = Built config).
  { unfold from_env. rewrite Es, Eg.
    destruct st; [now destruct Hs |]. destruct gt; [now destruct Hg |].
    pose proof (split_not_nil "," types) as Hne.
    destruct (Str.split "," types); [now destruct Hne | reflexivity]. }
  subst run. unfold Cli.main. rewrite Ec. cbn zeta. fold r.
  destruct (outcome r) as [res|e] eqn:E.
  - destruct dry; cbn [negb].
    + split; [reflexivity |]. split; [discriminate |]. split; [discriminate |].
      intros res' _. split; [reflexivity |]. split; [reflexivity |].
      split; [reflexivity | discriminate].
    + destruct (full_pass_result_keys config false w res E) as (a & b & c & d & Ha & Hb & Hc & Hd).
      rewrite Ha, Hb, Hc, Hd. split; [reflexivity |]. split; [discriminate |].
      split; [discriminate |].
      intros res' [= <-]. split; [reflexivity |]. split; [reflexivity |].
      split; [discriminate |]. intros _. exists a, b, c, d. repeat split; assumption.
  - split; [now destruct (is_value_error e) |].
    split; [| split; [| discriminate]].
    + intros e' [= <-]. now destruct (is_value_error e).
    + intros t [= ->]. reflexivity.
Qed.

(** The types filter of the command: every search for Findings the command
    makes goes to the project given on the command line, with a [types]
    parameter that is the normalised parts of the issue-types option joined
    by commas; the three default types of the configuration are never used,
    as splitting always gives at least one part.  When normalising changes
    no part, the parameter is the option's text itself, also when that text
    is empty. *)
Theorem command_types_filter (environ : gmap string string)
  (pk repo types : string) (dry : bool) (w : W)
  (p : string) (t : option string) (a : Outcome (list SonarIssue)) :
  In (CallGetIssues p t a) (requests (Cli.main strip_upper environ pk repo types dry w)) ->
  p = pk /\
  t = Some (Py.join "," (List.map strip_upper (Str.split "," types))) /\
  ((forall x, In x (Str.split "," types) -> strip_upper x = x) -> t = Some types).
Proof.
  unfold requests, Cli.main.
  destruct (from_env _ _ _ _) as [config|msg] eqn:Ec; [| intros []].
  destruct (from_env_built _ _ _ _ _ Ec) as (_ & _ & _ & _ & Hp & _ & Ht).
  pose proof (split_not_nil "," types) as Hsplit.
  assert (Ht' : issue_types config = List.map strip_upper (Str.split "," types)).
  { rewrite Ht. destruct (Str.split "," types); [now destruct Hsplit | reflexivity]. }
  clear Ht.
  intros Hin.
  assert (Hin' : In (CallGetIssues p t a) (calls (SyncEngine.full_sync config dry w))).
  { cbn zeta in Hin. destruct (outcome (SyncEngine.full_sync config dry w)) eqn:E.
    - destruct (negb dry); [| exact Hin].
      destruct (_ !! "created"); [| exact Hin].
      destruct (_ !! "skipped"); [| exact Hin].
      destruct (_ !! "closed"); [| exact Hin].
      destruct (_ !! "marked_wont_fix"); exact Hin.
    - destruct (is_value_error _); exact Hin. }
  pose proof (engine_stays_in_scope config dry w) as Hall.
  rewrite forallb_forall in Hall. specialize (Hall _ Hin'). cbn [in_scope] in Hall.
  apply andb_true_iff in Hall as [Hp' Hty].
  apply bool_decide_eq_true in Hp', Hty.
  assert (Et : t = Some (Py.join "," (List.map strip_upper (Str.split "," types)))).
  { rewrite Hty, Ht'.
    destruct (Str.split "," types); [now destruct Hsplit | reflexivity]. }
  split; [congruence |]. split; [exact Et |]. rewrite Et.
  intros Hid. f_equal.
  rewrite (List.map_ext_in strip_upper (fun x => x) _ Hid), List.map_id.
  apply (join_split ",").
Qed.

End Command.

Section CommandWitness.

Lemma config_from_env_is_complete_witness :
  let c := {| sonar_token := "sq-token"; github_token := "gh-token";
              sonar_project_key := "test-project"; github_repo := "owner/repo";
              issue_types := ["BUG"; "VULNERABILITY"; "CODE_SMELL"] |} in
  from_env environ_with_tokens "test-project" "owner/repo" (Some []) = Built c /\
  issue_types c <> [] /\
  forall (dry : bool) (w : Mock.World) p t a,
    In (CallGetIssues p t a) (calls (SyncEngine.full_sync c dry w)) ->
    p = "test-project" /\ t = Some "BUG,VULNERABILITY,CODE_SMELL".
Proof.
  intros c.
  assert (E : from_env environ_with_tokens "test-project" "owner/repo" (Some []) = Built c)
    by (vm_compute; reflexivity).
  destruct (config_from_env_is_complete (W:=Mock.World) environ_with_tokens
              "test-project" "owner/repo" (Some []) c E)
    as (_ & _ & Hne & _ & _ & Hsearch).
  split; [exact E |]. split; [exact Hne |]. exact Hsearch.
Defined.

Lemma missing_token_stops_command_witness :
  Cli.main (fun t => t) ∅ "test-project" "owner/repo" "BUG" false Mock.scenario_a
  = MkCliRun (SysExit 1) []
      ["Configuration Error: SONAR_TOKEN environment variable is required"] None /\
  Cli.main (fun t => t) (<["SONAR_TOKEN" := "sq-token"]> ∅)
    "test-project" "owner/repo" "BUG" false Mock.scenario_a
  = MkCliRun (SysExit 1) []
      ["Configuration Error: GITHUB_TOKEN environment variable is required"] None.
Proof.
  split.
  - apply (proj1 (missing_token_stops_command (fun t => t) ∅
                    "test-project" "owner/repo" "BUG" false Mock.scenario_a)).
    left. reflexivity.
  - apply (proj2 (missing_token_stops_command (fun t => t) (<["SONAR_TOKEN" := "sq-token"]> ∅)
                    "test-project" "owner/repo" "BUG" false Mock.scenario_a)).
    + exists "sq-token". split; [vm_compute; reflexivity | discriminate].
    + left. vm_compute. reflexivity.
Defined.

Lemma command_reports_the_pass_witness :
  let run := Cli.main (fun t => t) environ_with_tokens "test-project" "owner/repo"
               "BUG,VULNERABILITY" false Mock.scenario_b in
  let down := Cli.main (fun t => t) environ_with_tokens "test-project" "owner/repo"
                "BUG,VULNERABILITY" false Mock.scenario_github_down in
  let blank := Cli.main (fun t => t) environ_with_tokens "test-project" "owner/repo"
                 "BUG,VULNERABILITY" false Blank.scenario_b in
  (exit run = Returns /\ errors run = [] /\ List.length (echoed run) = 7) /\
  (exit down = SysExit 1 /\ echoed down = [] /\
   errors down = ["Sync Error: Invalid GitHub credentials or repository access failed"]) /\
  (exit blank = SysExit 1 /\ echoed blank = [] /\
   errors blank = ["Configuration Error: 1 validation error for GitHubIssue"]).
Proof.
  intros run down blank.
  assert (Es : environ_with_tokens !! "SONAR_TOKEN" = Some "sq-token")
    by (vm_compute; reflexivity).
  assert (Eg : environ_with_tokens !! "GITHUB_TOKEN" = Some "gh-token")
    by (vm_compute; reflexivity).
  assert (Hs : "sq-token" <> "") by discriminate.
  assert (Hg : "gh-token" <> "") by discriminate.
  split; [| split].
  - destruct (command_reports_the_pass (fun t => t) environ_with_tokens "test-project"
                "owner/repo" "BUG,VULNERABILITY" false Mock.scenario_b _ _ Es Hs Eg Hg)
      as (_ & _ & _ & Hret).
    fold run in Hret.
    destruct (outcome (SyncEngine.full_sync _ false Mock.scenario_b)) as [res|e] eqn:E;
      [| vm_compute in E; discriminate E].
    destruct (Hret res eq_refl) as (Hx & Herr & _ & Hout).
    destruct (Hout eq_refl) as (a & b & c & d & _ & _ & _ & _ & Hecho).
    split; [exact Hx |]. split; [exact Herr |]. now rewrite Hecho.
  - destruct (command_reports_the_pass (fun t => t) environ_with_tokens "test-project"
                "owner/repo" "BUG,VULNERABILITY" false Mock.scenario_github_down
                _ _ Es Hs Eg Hg)
      as (_ & Hraise & _).
    fold down in Hraise.
    apply (Hraise InvalidGitHubCredentials). vm_compute. reflexivity.
  - destruct (command_reports_the_pass (fun t => t) environ_with_tokens "test-project"
                "owner/repo" "BUG,VULNERABILITY" false Blank.scenario_b
                _ _ Es Hs Eg Hg)
      as (_ & Hraise & _).
    fold blank in Hraise.
    apply (Hraise (ValidationError "1 validation error for GitHubIssue")).
    vm_compute. reflexivity.
Defined.

Lemma command_types_filter_witness :
  let cs := requests (Cli.main (fun t => t) environ_with_tokens "test-project"
                        "owner/repo" "BUG,VULNERABILITY" true Mock.scenario_a) in
  In (CallGetIssues "test-project" (Some "BUG,VULNERABILITY")
        (Returned (Mock.findings Mock.scenario_a))) cs /\
  Some "BUG,VULNERABILITY"
  = Some (Py.join "," (List.map (fun t => t) (Str.split "," "BUG,VULNERABILITY"))).
Proof.
  intros cs.
  assert (Hin : In (CallGetIssues "test-project" (Some "BUG,VULNERABILITY")
                      (Returned (Mock.findings Mock.scenario_a))) cs).
  { vm_compute. do 2 right. left. reflexivity. }
  split; [exact Hin |].
  exact (proj1 (proj2 (command_types_filter (fun t => t) environ_with_tokens "test-project"
                         "owner/repo" "BUG,VULNERABILITY" true Mock.scenario_a _ _ _ Hin))).
Defined.

End CommandWitness.
